(** * stocker: signal generation and single-symbol backtest simulation

    A shallow embedding of the trading core of the repository:
    - [config.py]            (class [Config]),
    - [src/strategies.py]    (strategy profiles, [get_strategy]),
    - [src/strategy.py]      (class [TradingStrategy]),
    - [src/backtester.py]    (class [Backtester]).

    Numbers.  Python floats are embedded as exact rationals ([Q]); a NaN
    cell of a pandas column is [None].  Rounding of IEEE arithmetic is
    outside the model: every arithmetic statement below is a statement of
    exact arithmetic.  Timestamps (the index of a DataFrame) are integers
    ordered by [Z.lt]. *)

From Stdlib Require Import ZArith QArith Qround List String Ascii Bool Lia Lqa.
Import ListNotations.

Local Open Scope string_scope.
Local Open Scope list_scope.
Local Open Scope Z_scope.
Local Open Scope Q_scope.

(** [x < y] on floats, as a test. *)
Definition Qlt_bool (x y : Q) : bool := negb (Qle_bool y x).

(** [sum(l)] *)
Fixpoint Qsum (l : list Q) : Q :=
  match l with
  | [] => 0
  | x :: rest => x + Qsum rest
  end.

(* ===================================================================== *)
(** * Exceptions and results *)
(* ===================================================================== *)

(** The Python exceptions the embedded code can raise. *)
Inductive exn : Type :=
| ValueError (msg : string)
| KeyError (key : string)
| IndexError.

Inductive Result (A : Type) : Type :=
| Ok (a : A)
| Raise (e : exn).
Arguments Ok {A} a.
Arguments Raise {A} e.

Definition bind {A B : Type} (r : Result A) (k : A -> Result B) : Result B :=
  match r with
  | Ok a => k a
  | Raise e => Raise e
  end.

Notation "x <- r ;; k" := (bind r (fun x => k))
  (at level 61, r at next level, right associativity).

(* ===================================================================== *)
(** * config.py *)
(* ===================================================================== *)

(** [class Config].  The four trading parameters are read from the
    environment through [float(os.getenv(..))]; the strategy parameters
    are class constants. *)
Module Config.

Record t : Type := mk {
  MAX_POSITION_SIZE : Q;
  RISK_PER_TRADE : Q;
  STOP_LOSS_PCT : Q;
  TAKE_PROFIT_PCT : Q
}.

Definition RSI_PERIOD : positive := 14%positive.
Definition RSI_OVERSOLD : Q := 30.
Definition RSI_OVERBOUGHT : Q := 70.
Definition FAST_MA_PERIOD : positive := 9%positive.
Definition SLOW_MA_PERIOD : positive := 21%positive.

(** [Config()] with no environment variable set. *)
Definition default : t :=
  {| MAX_POSITION_SIZE := 1000;
     RISK_PER_TRADE := 2 # 100;
     STOP_LOSS_PCT := 2 # 100;
     TAKE_PROFIT_PCT := 4 # 100 |}.

End Config.

(* ===================================================================== *)
(** * pandas and ta: the operations the strategies use *)
(* ===================================================================== *)

Module Pandas.

(** A float cell; NaN is [None]. *)
Definition cell : Type := option Q.

(** The values of a [pd.Series], in index order. *)
Definition column : Type := list cell.

(** A [pd.DataFrame]: the index labels and the named columns, in order. *)
Record DataFrame : Type := mkDataFrame {
  index : list Z;
  columns : list (string * column)
}.

(** Every column has one cell per index label. *)
Definition well_formed (df : DataFrame) : Prop :=
  Forall (fun nc => List.length (snd nc) = List.length (index df)) (columns df).

Definition column_names (df : DataFrame) : list string :=
  map fst (columns df).

(** [df.empty]: true when either axis has length 0. *)
Definition empty (df : DataFrame) : bool :=
  match index df, columns df with
  | [], _ => true
  | _, [] => true
  | _, _ => false
  end.

(** [col in df.columns] *)
Definition has_column (df : DataFrame) (name : string) : bool :=
  existsb (String.eqb name) (column_names df).

Fixpoint lookup (name : string) (cols : list (string * column))
  : option column :=
  match cols with
  | [] => None
  | (n, c) :: rest => if String.eqb name n then Some c else lookup name rest
  end.

(** [df[name]] *)
Definition getitem (df : DataFrame) (name : string) : Result column :=
  match lookup name (columns df) with
  | Some c => Ok c
  | None => Raise (KeyError name)
  end.

Fixpoint assign (name : string) (c : column) (cols : list (string * column))
  : list (string * column) :=
  match cols with
  | [] => [(name, c)]
  | (n, c') :: rest =>
      if String.eqb name n then (n, c) :: rest
      else (n, c') :: assign name c rest
  end.

(** [df[name] = c]: replaces the column, or appends a new one. *)
Definition setitem (df : DataFrame) (name : string) (c : column) : DataFrame :=
  {| index := index df; columns := assign name c (columns df) |}.

(** [df[name] = v] for a scalar [v]. *)
Definition setitem_scalar (df : DataFrame) (name : string) (v : Q) : DataFrame :=
  setitem df name (repeat (Some v) (List.length (index df))).

(** Comparisons of float cells: false as soon as one side is NaN. *)
Definition cell_gt (a b : cell) : bool :=
  match a, b with
  | Some x, Some y => Qlt_bool y x
  | _, _ => false
  end.

Definition cell_lt (a b : cell) : bool := cell_gt b a.

Definition cell_ge (a b : cell) : bool :=
  match a, b with
  | Some x, Some y => Qle_bool y x
  | _, _ => false
  end.

Definition cell_le (a b : cell) : bool := cell_ge b a.

Fixpoint map2 {A B C : Type} (f : A -> B -> C) (a : list A) (b : list B)
  : list C :=
  match a, b with
  | x :: a', y :: b' => f x y :: map2 f a' b'
  | _, _ => []
  end.

(** Element-wise comparisons of two series and of a series with a scalar. *)
Definition gt (a b : column) : list bool := map2 cell_gt a b.
Definition lt (a b : column) : list bool := map2 cell_lt a b.
Definition ge (a b : column) : list bool := map2 cell_ge a b.
Definition le (a b : column) : list bool := map2 cell_le a b.
Definition gt_c (a : column) (c : Q) : list bool :=
  map (fun x => cell_gt x (Some c)) a.
Definition lt_c (a : column) (c : Q) : list bool :=
  map (fun x => cell_lt x (Some c)) a.
Definition le_c (a : column) (c : Q) : list bool :=
  map (fun x => cell_le x (Some c)) a.

(** [&] and [|] on boolean series. *)
Definition mask_and (a b : list bool) : list bool := map2 andb a b.
Definition mask_or (a b : list bool) : list bool := map2 orb a b.

Declare Scope mask_scope.
Delimit Scope mask_scope with mask.
Infix "&&&" := mask_and (at level 40, left associativity) : mask_scope.
Infix "|||" := mask_or (at level 50, left associativity) : mask_scope.

(** [df.loc[mask, name] = v] on the column [c] of [name]. *)
Definition loc_assign (mask : list bool) (c : column) (v : Q) : column :=
  map2 (fun (m : bool) x => if m then Some v else x) mask c.

(** [series.shift(1)] *)
Definition shift1 (c : column) : column :=
  match c with
  | [] => []
  | _ => None :: removelast c
  end.

(** [series.diff(1)] *)
Definition diff1 (c : column) : column :=
  map2 (fun cur prev =>
          match cur, prev with
          | Some x, Some y => Some (x - y)
          | _, _ => None
          end) c (shift1 c).

Fixpoint all_defined (l : list cell) : option (list Q) :=
  match l with
  | [] => Some []
  | Some x :: rest =>
      match all_defined rest with
      | Some xs => Some (x :: xs)
      | None => None
      end
  | None :: _ => None
  end.

(** The mean of the last [w] observations, [recent] holding the
    observations so far, latest first; NaN until [w] non-NaN
    observations fill the window ([min_periods = w]). *)
Definition window_mean (w : nat) (recent : list cell) : cell :=
  let win := firstn w recent in
  if (List.length win =? w)%nat then
    match all_defined win with
    | Some xs => Some (Qsum xs / inject_Z (Z.of_nat w))
    | None => None
    end
  else None.

Fixpoint rolling_mean_from (w : nat) (recent : list cell) (c : column)
  : column :=
  match c with
  | [] => []
  | x :: rest =>
      window_mean w (x :: recent) :: rolling_mean_from w (x :: recent) rest
  end.

(** [series.rolling(window=w, min_periods=w).mean()] *)
Definition rolling_mean (w : positive) (c : column) : column :=
  rolling_mean_from (Pos.to_nat w) [] c.

(** [series.ewm(alpha=alpha, min_periods=w, adjust=False).mean()] on a
    series without NaN: [y0 = x0], [y_t = (1-alpha) y_{t-1} + alpha x_t],
    NaN while fewer than [w] observations have been seen. *)
Fixpoint ewm_mean_from (alpha : Q) (w seen : nat) (prev : Q) (l : list Q)
  : column :=
  match l with
  | [] => []
  | x :: rest =>
      let y := (1 - alpha) * prev + alpha * x in
      (if (w <=? S seen)%nat then Some y else None)
        :: ewm_mean_from alpha w (S seen) y rest
  end.

Definition ewm_mean (alpha : Q) (w : nat) (l : list Q) : column :=
  match l with
  | [] => []
  | x :: rest =>
      (if (w <=? 1)%nat then Some x else None) :: ewm_mean_from alpha w 1 x rest
  end.

End Pandas.

(** The two indicators of the [ta] package the strategies call.  The
    package is a dependency of the repository, not part of it; each
    indicator is written as the pandas operations it performs with
    [fillna=False]. *)
Module Ta.
Import Pandas.

(** [SMAIndicator(close, window).sma_indicator()] *)
Definition sma_indicator (close : column) (window : positive) : column :=
  rolling_mean window close.

(** [diff.where(diff > 0, 0.0)] *)
Definition up_direction (close : column) : list Q :=
  map (fun d => match d with
                | Some x => if Qlt_bool 0 x then x else 0
                | None => 0
                end) (diff1 close).

(** [-diff.where(diff < 0, 0.0)] *)
Definition down_direction (close : column) : list Q :=
  map (fun d => match d with
                | Some x => if Qlt_bool x 0 then - x else - 0
                | None => - 0
                end) (diff1 close).

(** [RSIIndicator(close, window).rsi()]:
    [np.where(emadn == 0, 100, 100 - (100 / (1 + emaup / emadn)))]. *)
Definition rsi (close : column) (window : positive) : column :=
  let alpha := 1 / inject_Z (Zpos window) in
  let emaup := ewm_mean alpha (Pos.to_nat window) (up_direction close) in
  let emadn := ewm_mean alpha (Pos.to_nat window) (down_direction close) in
  map2 (fun up dn =>
          match up, dn with
          | Some u, Some d =>
              if Qeq_bool d 0 then Some 100
              else Some (100 - 100 / (1 + u / d))
          | _, _ => None
          end) emaup emadn.

End Ta.

(* ===================================================================== *)
(** * src/strategies.py *)
(* ===================================================================== *)

Module Strategies.
Import Pandas.

(** The three subclasses of [StrategyProfile] in the registry. *)
Inductive kind : Type :=
| Conservative
| Balanced
| Aggressive.

(** An instance: its class and [self.config]. *)
Record StrategyProfile : Type := mkProfile {
  profile : kind;
  config : Config.t
}.

Definition RSI_OVERSOLD (k : kind) : Q :=
  match k with Conservative => 25 | Balanced => 30 | Aggressive => 35 end.

Definition RSI_OVERBOUGHT (k : kind) : Q :=
  match k with Conservative => 75 | Balanced => 70 | Aggressive => 65 end.

Definition FAST_MA_PERIOD (k : kind) : positive :=
  match k with Conservative => 15 | Balanced => 10 | Aggressive => 8 end.

Definition SLOW_MA_PERIOD (k : kind) : positive :=
  match k with Conservative => 60 | Balanced => 50 | Aggressive => 40 end.

(** ['a', 'b'] as Python prints a list of strings. *)
Fixpoint repr_items (l : list string) : string :=
  match l with
  | [] => ""
  | [x] => "'" ++ x ++ "'"
  | x :: rest => "'" ++ x ++ "', " ++ repr_items rest
  end.

Definition repr_list (l : list string) : string := "[" ++ repr_items l ++ "]".

Definition required_cols : list string := ["close"; "high"; "low"].

(** [StrategyProfile.calculate_indicators] *)
Definition calculate_indicators (self : StrategyProfile) (df : DataFrame)
  : Result DataFrame :=
  if empty df then
    Raise (ValueError "Cannot calculate indicators on empty DataFrame")
  else
    let missing_cols :=
      filter (fun col => negb (has_column df col)) required_cols in
    match missing_cols with
    | _ :: _ =>
        Raise (ValueError ("Missing required columns: " ++ repr_list missing_cols))
    | [] =>
        close <- getitem df "close" ;;
        let df := setitem df "rsi" (Ta.rsi close 14) in
        rsi <- getitem df "rsi" ;;
        let df := setitem df "rsi_prev" (shift1 rsi) in
        close <- getitem df "close" ;;
        let fast_ma := Ta.sma_indicator close (FAST_MA_PERIOD (profile self)) in
        close <- getitem df "close" ;;
        let slow_ma := Ta.sma_indicator close (SLOW_MA_PERIOD (profile self)) in
        let df := setitem df "fast_ma" fast_ma in
        let df := setitem df "slow_ma" slow_ma in
        fast_ma <- getitem df "fast_ma" ;;
        let df := setitem df "fast_ma_prev" (shift1 fast_ma) in
        slow_ma <- getitem df "slow_ma" ;;
        let df := setitem df "slow_ma_prev" (shift1 slow_ma) in
        Ok df
    end.

(** The columns [generate_signals] reads, in the order of first access. *)
Record Indicators : Type := mkIndicators {
  rsi : column;
  rsi_prev : column;
  fast_ma : column;
  slow_ma : column;
  fast_ma_prev : column;
  slow_ma_prev : column;
  close : column
}.

Definition indicators (df : DataFrame) : Result Indicators :=
  c_rsi <- getitem df "rsi" ;;
  c_rsi_prev <- getitem df "rsi_prev" ;;
  c_fast_ma <- getitem df "fast_ma" ;;
  c_slow_ma <- getitem df "slow_ma" ;;
  c_fast_ma_prev <- getitem df "fast_ma_prev" ;;
  c_slow_ma_prev <- getitem df "slow_ma_prev" ;;
  c_close <- getitem df "close" ;;
  Ok {| rsi := c_rsi; rsi_prev := c_rsi_prev; fast_ma := c_fast_ma;
        slow_ma := c_slow_ma; fast_ma_prev := c_fast_ma_prev;
        slow_ma_prev := c_slow_ma_prev; close := c_close |}.

Local Open Scope mask_scope.

(** [buy_condition] of each subclass. *)
Definition buy_condition (k : kind) (d : Indicators) : list bool :=
  match k with
  | Conservative =>
      gt_c (rsi d) (RSI_OVERSOLD k)
      &&& le_c (rsi_prev d) (RSI_OVERSOLD k)
      &&& gt (fast_ma d) (slow_ma d)
      &&& le (fast_ma_prev d) (slow_ma_prev d)
      &&& gt (close d) (slow_ma d)
  | Balanced =>
      let rsi_recovery :=
        gt_c (rsi d) (RSI_OVERSOLD k)
        &&& le_c (rsi_prev d) (RSI_OVERSOLD k)
        &&& gt (fast_ma d) (slow_ma d) in
      let ma_crossover :=
        gt (fast_ma d) (slow_ma d)
        &&& le (fast_ma_prev d) (slow_ma_prev d)
        &&& lt_c (rsi d) (RSI_OVERBOUGHT k)
        &&& gt_c (rsi d) (RSI_OVERSOLD k) in
      (rsi_recovery ||| ma_crossover) &&& gt (close d) (slow_ma d)
  | Aggressive =>
      let rsi_recovery :=
        gt_c (rsi d) (RSI_OVERSOLD k)
        &&& le_c (rsi_prev d) (RSI_OVERSOLD k)
        &&& gt (fast_ma d) (slow_ma d) in
      let ma_crossover :=
        gt (fast_ma d) (slow_ma d)
        &&& le (fast_ma_prev d) (slow_ma_prev d)
        &&& lt_c (rsi d) (RSI_OVERBOUGHT k) in
      let strong_momentum :=
        gt (fast_ma d) (slow_ma d)
        &&& gt (close d) (fast_ma d)
        &&& gt_c (rsi d) 40 &&& lt_c (rsi d) (RSI_OVERBOUGHT k)
        &&& gt (rsi d) (rsi_prev d) in
      (rsi_recovery ||| ma_crossover ||| strong_momentum)
      &&& gt (close d) (slow_ma d)
  end.

(** [sell_condition] of each subclass. *)
Definition sell_condition (k : kind) (d : Indicators) : list bool :=
  match k with
  | Conservative | Balanced =>
      gt_c (rsi d) (RSI_OVERBOUGHT k)
      ||| (lt (fast_ma d) (slow_ma d) &&& ge (fast_ma_prev d) (slow_ma_prev d))
  | Aggressive =>
      gt_c (rsi d) (RSI_OVERBOUGHT k)
      ||| (lt (fast_ma d) (slow_ma d) &&& ge (fast_ma_prev d) (slow_ma_prev d))
      ||| lt_c (rsi d) (RSI_OVERSOLD k)
  end.

(** The tail common to the three [generate_signals]:
    [df.loc[buy_condition, 'signal'] = 1] and then
    [df.loc[sell_condition, 'signal'] = -1]. *)
Definition assign_signals (df : DataFrame) (buy sell : list bool)
  : Result DataFrame :=
  signal <- getitem df "signal" ;;
  let df := setitem df "signal" (loc_assign buy signal 1) in
  signal <- getitem df "signal" ;;
  let df := setitem df "signal" (loc_assign sell signal (-1)) in
  Ok df.

(** [generate_signals] of the subclass of [self]. *)
Definition generate_signals (self : StrategyProfile) (df : DataFrame)
  : Result DataFrame :=
  let df := setitem_scalar df "signal" 0 in
  d <- indicators df ;;
  let buy_condition := buy_condition (profile self) d in
  let sell_condition := sell_condition (profile self) d in
  assign_signals df buy_condition sell_condition.

(** [StrategyProfile.analyze] *)
Definition analyze (self : StrategyProfile) (df : DataFrame)
  : Result DataFrame :=
  df <- calculate_indicators self df ;;
  generate_signals self df.

(** [str.lower()] on ASCII letters; other characters are kept. *)
Definition lower_ascii (c : ascii) : ascii :=
  let n := nat_of_ascii c in
  if ((65 <=? n) && (n <=? 90))%nat then ascii_of_nat (n + 32) else c.

Fixpoint lower (s : string) : string :=
  match s with
  | EmptyString => EmptyString
  | String c rest => String (lower_ascii c) (lower rest)
  end.

(** The registry. *)
Definition STRATEGIES : list (string * kind) :=
  [("conservative", Conservative);
   ("balanced", Balanced);
   ("aggressive", Aggressive)].

Definition DEFAULT_STRATEGY : string := "balanced".

Fixpoint registry_get (name : string) (reg : list (string * kind))
  : option kind :=
  match reg with
  | [] => None
  | (n, k) :: rest => if String.eqb name n then Some k else registry_get name rest
  end.

(** [get_strategy(name, config)]; [config = None] is the default
    argument, replaced by [Config()] in [__init__]. *)
Definition get_strategy (name : string) (config : option Config.t)
  : Result StrategyProfile :=
  let name := lower name in
  match registry_get name STRATEGIES with
  | None =>
      Raise (ValueError ("Unknown strategy: " ++ name ++ ". Choose from: "
                         ++ repr_list (map fst STRATEGIES)))
  | Some k =>
      Ok {| profile := k;
            config := match config with
                      | Some c => c
                      | None => Config.default
                      end |}
  end.

End Strategies.

(* ===================================================================== *)
(** * src/strategy.py *)
(* ===================================================================== *)

Module TradingStrategy.
Import Pandas.
Import Strategies(Indicators, rsi, rsi_prev, fast_ma, slow_ma, fast_ma_prev,
                  slow_ma_prev, close, indicators, assign_signals, repr_list).
Local Open Scope mask_scope.

Definition required_columns : list string :=
  ["open"; "high"; "low"; "close"; "volume"].

(** [TradingStrategy.calculate_indicators] *)
Definition calculate_indicators (config : Config.t) (df : DataFrame)
  : Result DataFrame :=
  if empty df then
    Raise (ValueError "Cannot calculate indicators on empty DataFrame")
  else
    let missing_columns :=
      filter (fun col => negb (has_column df col)) required_columns in
    match missing_columns with
    | _ :: _ =>
        Raise (ValueError ("DataFrame missing required columns: "
                           ++ repr_list missing_columns))
    | [] =>
        close <- getitem df "close" ;;
        let df := setitem df "rsi" (Ta.rsi close Config.RSI_PERIOD) in
        close <- getitem df "close" ;;
        let fast_ma := Ta.sma_indicator close Config.FAST_MA_PERIOD in
        close <- getitem df "close" ;;
        let slow_ma := Ta.sma_indicator close Config.SLOW_MA_PERIOD in
        let df := setitem df "fast_ma" fast_ma in
        let df := setitem df "slow_ma" slow_ma in
        rsi <- getitem df "rsi" ;;
        let df := setitem df "rsi_prev" (shift1 rsi) in
        fast_ma <- getitem df "fast_ma" ;;
        let df := setitem df "fast_ma_prev" (shift1 fast_ma) in
        slow_ma <- getitem df "slow_ma" ;;
        let df := setitem df "slow_ma_prev" (shift1 slow_ma) in
        Ok df
    end.

Definition buy_condition (d : Indicators) : list bool :=
  let rsi_recovery :=
    gt_c (rsi d) Config.RSI_OVERSOLD
    &&& le_c (rsi_prev d) Config.RSI_OVERSOLD
    &&& gt (fast_ma d) (slow_ma d) in
  let ma_crossover :=
    gt (fast_ma d) (slow_ma d)
    &&& le (fast_ma_prev d) (slow_ma_prev d)
    &&& lt_c (rsi d) Config.RSI_OVERBOUGHT
    &&& gt_c (rsi d) Config.RSI_OVERSOLD in
  (rsi_recovery ||| ma_crossover) &&& gt (close d) (slow_ma d).

Definition sell_condition (d : Indicators) : list bool :=
  gt_c (rsi d) Config.RSI_OVERBOUGHT
  ||| (lt (fast_ma d) (slow_ma d) &&& ge (fast_ma_prev d) (slow_ma_prev d)).

(** [TradingStrategy.generate_signals] *)
Definition generate_signals (config : Config.t) (df : DataFrame)
  : Result DataFrame :=
  let df := setitem_scalar df "signal" 0 in
  d <- indicators df ;;
  let buy_condition := buy_condition d in
  let sell_condition := sell_condition d in
  assign_signals df buy_condition sell_condition.

(** [TradingStrategy.analyze] *)
Definition analyze (config : Config.t) (df : DataFrame) : Result DataFrame :=
  df_with_indicators <- calculate_indicators config df ;;
  generate_signals config df_with_indicators.

End TradingStrategy.

(* ===================================================================== *)
(** * src/backtester.py *)
(* ===================================================================== *)

(** [position = {'shares': int, 'entry_price': float, 'entry_time': ..}] *)
Module Position.
Record t : Type := mk {
  shares : Z;
  entry_price : Q;
  entry_time : Z
}.
End Position.

(** One element of the [trades] list. *)
Module Trade.
Record t : Type := mk {
  entry_time : Z;
  exit_time : Z;
  entry_price : Q;
  exit_price : Q;
  shares : Z;
  pnl : Q;
  return_pct : Q;
  exit_reason : string
}.
End Trade.

Module Backtester.

(** What the loop reads of a row of [df.iterrows()]: the index label and
    the cells [row['close']] and [row['signal']]. *)
Record Row : Type := mkRow {
  idx : Z;
  close : Q;
  signal : Z
}.

(** The local variables of [_simulate_trades]. *)
Record LoopState : Type := mkState {
  capital : Q;
  position : option Position.t;
  trades : list Trade.t;
  portfolio_values : list Q
}.

(** Ghost trace: [Entry] where the code assigns a dict to [position],
    [Exit] where it appends to [trades] and resets [position] to [None]. *)
Inductive event : Type :=
| Entry (p : Position.t)
| Exit (t : Trade.t).

(** Python's [int(x)] on a float: truncation toward zero. *)
Definition int (x : Q) : Z := Z.quot (Qnum x) (Zpos (Qden x)).

(** The dict appended to [trades] when position [p] is closed at time
    [t] and price [price]; the three exits of the source build the same
    dict and differ in time, price and reason only. *)
Definition closed_trade (p : Position.t) (t : Z) (price : Q) (reason : string)
  : Trade.t :=
  {| Trade.entry_time := Position.entry_time p;
     Trade.exit_time := t;
     Trade.entry_price := Position.entry_price p;
     Trade.exit_price := price;
     Trade.shares := Position.shares p;
     Trade.pnl := (price - Position.entry_price p) * inject_Z (Position.shares p);
     Trade.return_pct :=
       (price - Position.entry_price p) / Position.entry_price p * 100;
     Trade.exit_reason := reason |}.

Definition stop_loss (cfg : Config.t) (p : Position.t) : Q :=
  Position.entry_price p * (1 - Config.STOP_LOSS_PCT cfg).

Definition take_profit (cfg : Config.t) (p : Position.t) : Q :=
  Position.entry_price p * (1 + Config.TAKE_PROFIT_PCT cfg).

(** Lines 89-109: stop loss and take profit for an existing position. *)
Definition check_stops (cfg : Config.t) (row : Row) (st : LoopState)
  : LoopState * list event :=
  let current_price := close row in
  match position st with
  | Some p =>
      if Qle_bool current_price (stop_loss cfg p)
         || Qle_bool (take_profit cfg p) current_price
      then
        let tr := closed_trade p (idx row) current_price
                    (if Qle_bool current_price (stop_loss cfg p)
                     then "stop_loss" else "take_profit") in
        ({| capital := capital st + current_price * inject_Z (Position.shares p);
            position := None;
            trades := trades st ++ [tr];
            portfolio_values := portfolio_values st |}, [Exit tr])
      else (st, [])
  | None => (st, [])
  end.

(** Lines 114-121: the size of a new position, when [risk_per_share > 0]. *)
Definition risk_amount (cfg : Config.t) (cap : Q) : Q :=
  cap * Config.RISK_PER_TRADE cfg.

Definition risk_per_share (cfg : Config.t) (current_price : Q) : Q :=
  current_price - current_price * (1 - Config.STOP_LOSS_PCT cfg).

Definition position_size (cfg : Config.t) (cap current_price : Q) : Z :=
  Z.min (int (risk_amount cfg cap / risk_per_share cfg current_price))
        (int (Config.MAX_POSITION_SIZE cfg / current_price)).

(** Lines 112-148: open on a buy signal, [elif] close on a sell signal. *)
Definition act_on_signal (cfg : Config.t) (row : Row) (st : LoopState)
  : LoopState * list event :=
  let current_price := close row in
  match (signal row =? 1)%Z, position st with
  | true, None =>
      if Qlt_bool 0 (risk_per_share cfg current_price) then
        let shares := position_size cfg (capital st) current_price in
        if (0 <? shares)%Z
           && Qle_bool (inject_Z shares * current_price) (capital st)
        then
          let cost := inject_Z shares * current_price in
          let p := {| Position.shares := shares;
                      Position.entry_price := current_price;
                      Position.entry_time := idx row |} in
          ({| capital := capital st - cost;
              position := Some p;
              trades := trades st;
              portfolio_values := portfolio_values st |}, [Entry p])
        else (st, [])
      else (st, [])
  | _, _ =>
      match (signal row =? -1)%Z, position st with
      | true, Some p =>
          let tr := closed_trade p (idx row) current_price "signal" in
          ({| capital := capital st + current_price * inject_Z (Position.shares p);
              position := None;
              trades := trades st ++ [tr];
              portfolio_values := portfolio_values st |}, [Exit tr])
      | _, _ => (st, [])
      end
  end.

(** Lines 150-155: the bar's portfolio value. *)
Definition mark_to_market (row : Row) (st : LoopState) : LoopState :=
  let portfolio_value :=
    match position st with
    | Some p => capital st + inject_Z (Position.shares p) * close row
    | None => capital st
    end in
  {| capital := capital st;
     position := position st;
     trades := trades st;
     portfolio_values := portfolio_values st ++ [portfolio_value] |}.

(** One iteration of [for idx, row in df.iterrows()]. *)
Definition process_bar (cfg : Config.t) (st : LoopState) (row : Row)
  : LoopState * list event :=
  let '(st1, e1) := check_stops cfg row st in
  let '(st2, e2) := act_on_signal cfg row st1 in
  (mark_to_market row st2, e1 ++ e2).

Definition step (cfg : Config.t) (st : LoopState) (row : Row) : LoopState :=
  fst (process_bar cfg st row).

(** The whole loop, with the ghost trace of all its bars. *)
Fixpoint replay (cfg : Config.t) (rows : list Row) (st : LoopState)
  : LoopState * list event :=
  match rows with
  | [] => (st, [])
  | row :: rest =>
      let '(st1, e1) := process_bar cfg st row in
      let '(st2, e2) := replay cfg rest st1 in
      (st2, e1 ++ e2)
  end.

Definition initial_state (initial_capital : Q) : LoopState :=
  {| capital := initial_capital;
     position := None;
     trades := [];
     portfolio_values := [] |}.

(** [df.iloc[-1]]: the last row, [IndexError] on an empty frame. *)
Fixpoint iloc_last {A : Type} (l : list A) : Result A :=
  match l with
  | [] => Raise IndexError
  | [a] => Ok a
  | _ :: l' => iloc_last l'
  end.

(** [portfolio_values[-1] = v] *)
Definition set_last (l : list Q) (v : Q) : Result (list Q) :=
  match l with
  | [] => Raise IndexError
  | _ => Ok (removelast l ++ [v])
  end.

(** Lines 157-175: close any remaining open position at the end. *)
Definition close_remaining (rows : list Row) (st : LoopState)
  : Result (LoopState * list event) :=
  match position st with
  | None => Ok (st, [])
  | Some p =>
      last_row <- iloc_last rows ;;
      let final_price := close last_row in
      let cap := capital st + final_price * inject_Z (Position.shares p) in
      let tr := closed_trade p (idx last_row) final_price "end_of_backtest" in
      pvs <- set_last (portfolio_values st) cap ;;
      Ok ({| capital := cap;
             position := None;
             trades := trades st ++ [tr];
             portfolio_values := pvs |}, [Exit tr])
  end.

(** The body of [_simulate_trades] up to line 175, keeping the locals
    and the ghost trace. *)
Definition simulate (cfg : Config.t) (initial_capital : Q) (rows : list Row)
  : Result (LoopState * list event) :=
  let '(st, e1) := replay cfg rows (initial_state initial_capital) in
  r <- close_remaining rows st ;;
  Ok (fst r, e1 ++ snd r).

(** A [pd.Series]: values labelled by the index. *)
Definition Series : Type := list (Z * Q).

(** [_simulate_trades]: the trades and
    [pd.Series(portfolio_values, index=df.index)]. *)
Definition _simulate_trades (cfg : Config.t) (initial_capital : Q)
  (rows : list Row) : Result (list Trade.t * Series) :=
  r <- simulate cfg initial_capital rows ;;
  Ok (trades (fst r), combine (map idx rows) (portfolio_values (fst r))).

(** ** [_calculate_metrics] *)

(** A numpy float: a finite value, an infinity or NaN.  Only division by
    zero produces the last three in [_calculate_metrics]. *)
Inductive npfloat : Type :=
| Fin (q : Q)
| PosInf
| NegInf
| NaN.

(** [a / b] on numpy floats (no exception, a RuntimeWarning at most). *)
Definition np_div (a b : Q) : npfloat :=
  if Qeq_bool b 0 then
    if Qeq_bool a 0 then NaN
    else if Qlt_bool 0 a then PosInf else NegInf
  else Fin (a / b).

(** [x * 100] for the positive constant 100. *)
Definition np_times100 (x : npfloat) : npfloat :=
  match x with
  | Fin q => Fin (q * 100)
  | other => other
  end.

(** [Series.min()]: NaN entries are skipped; NaN when nothing is left. *)
Fixpoint np_min (l : list npfloat) : npfloat :=
  match l with
  | [] => NaN
  | x :: rest =>
      match x, np_min rest with
      | NaN, m => m
      | v, NaN => v
      | NegInf, _ => NegInf
      | _, NegInf => NegInf
      | PosInf, m => m
      | v, PosInf => v
      | Fin a, Fin b => Fin (if Qle_bool a b then a else b)
      end
  end.

(** [Series.expanding().max()] on finite values. *)
Fixpoint expanding_max_from (cur : Q) (l : list Q) : list Q :=
  match l with
  | [] => []
  | x :: rest =>
      let m := if Qle_bool cur x then x else cur in
      m :: expanding_max_from m rest
  end.

Definition expanding_max (l : list Q) : list Q :=
  match l with
  | [] => []
  | x :: rest => x :: expanding_max_from x rest
  end.

(** The dict returned by [_calculate_metrics]. *)
Record Metrics : Type := mkMetrics {
  initial_capital : Q;
  final_capital : Q;
  total_return : Q;
  total_return_pct : npfloat;
  num_trades : nat;
  win_rate : Q;
  avg_return : Q;
  max_drawdown : npfloat;
  trades_of : list Trade.t;
  portfolio_value : Series
}.

Definition _calculate_metrics (initial_capital : Q) (trades : list Trade.t)
  (portfolio_value : Series) : Result Metrics :=
  match trades with
  | [] =>
      Ok {| initial_capital := initial_capital;
            final_capital := initial_capital;
            total_return := 0;
            total_return_pct := Fin 0;
            num_trades := 0;
            win_rate := 0;
            avg_return := 0;
            max_drawdown := Fin 0;
            trades_of := [];
            portfolio_value := portfolio_value |}
  | _ :: _ =>
      last_point <- iloc_last portfolio_value ;;
      let final_capital := snd last_point in
      let total_return := final_capital - initial_capital in
      let total_return_pct :=
        np_times100 (np_div total_return initial_capital) in
      let winning_trades :=
        filter (fun t => Qlt_bool 0 (Trade.pnl t)) trades in
      let win_rate :=
        if (0 <? List.length trades)%nat then
          inject_Z (Z.of_nat (List.length winning_trades))
          / inject_Z (Z.of_nat (List.length trades)) * 100
        else 0 in
      let avg_return :=
        Qsum (map Trade.return_pct trades)
        / inject_Z (Z.of_nat (List.length trades)) in
      let values := map snd portfolio_value in
      let running_max := expanding_max values in
      let drawdown :=
        map (fun vm => np_times100 (np_div (fst vm - snd vm) (snd vm)))
            (combine values running_max) in
      Ok {| initial_capital := initial_capital;
            final_capital := final_capital;
            total_return := total_return;
            total_return_pct := total_return_pct;
            num_trades := List.length trades;
            win_rate := win_rate;
            avg_return := avg_return;
            max_drawdown := np_min drawdown;
            trades_of := trades;
            portfolio_value := portfolio_value |}
  end.

(** Lines 64-68 of [run_backtest]: simulate, then compute the metrics. *)
Definition simulate_and_measure (cfg : Config.t) (initial_capital : Q)
  (rows : list Row) : Result Metrics :=
  r <- _simulate_trades cfg initial_capital rows ;;
  _calculate_metrics initial_capital (fst r) (snd r).

End Backtester.

(* ===================================================================== *)
(** * Vocabulary of the specification *)
(* ===================================================================== *)

Module BacktesterSpec.
Import Backtester.

(** The two states of the simulator. *)
Inductive sim_state : Type :=
| Flat
| Long.

Definition state_of (st : LoopState) : sim_state :=
  match position st with
  | Some _ => Long
  | None => Flat
  end.



(** The position opened by [shares] at [row], and the locals after it. *)
Definition opened (row : Row) (shares : Z) : Position.t :=
  {| Position.shares := shares;
     Position.entry_price := close row;
     Position.entry_time := idx row |}.

Definition entered (st : LoopState) (row : Row) (shares : Z) : LoopState :=
  {| capital := capital st - inject_Z shares * close row;
     position := Some (opened row shares);
     trades := trades st;
     portfolio_values := portfolio_values st |}.

(** The locals after position [p] is closed into the trade [tr] at [price]. *)
Definition exited (st : LoopState) (p : Position.t) (price : Q) (tr : Trade.t)
  : LoopState :=
  {| capital := capital st + price * inject_Z (Position.shares p);
     position := None;
     trades := trades st ++ [tr];
     portfolio_values := portfolio_values st |}.

(** The reason recorded by the stop check at price [px]. *)
Definition stop_reason (cfg : Config.t) (p : Position.t) (px : Q) : string :=
  if Qle_bool px (stop_loss cfg p) then "stop_loss" else "take_profit".

(** The Bar invariant on the rows replayed: strictly increasing
    timestamps and positive prices. *)
Fixpoint increasing_from (t : Z) (rows : list Row) : Prop :=
  match rows with
  | [] => True
  | r :: rest => (t < idx r)%Z /\ increasing_from (idx r) rest
  end.

Definition increasing (rows : list Row) : Prop :=
  match rows with
  | [] => True
  | r :: rest => increasing_from (idx r) rest
  end.


(** The number of positions open after a trace. *)
Fixpoint open_positions (evs : list event) : Z :=
  match evs with
  | [] => 0%Z
  | Entry _ :: rest => (1 + open_positions rest)%Z
  | Exit _ :: rest => (open_positions rest - 1)%Z
  end.


(** A trace in which entries and exits alternate, read from a point
    where [c] positions are open. *)
Fixpoint alternating (c : Z) (evs : list event) : Prop :=
  match evs with
  | [] => True
  | Entry _ :: rest => c = 0%Z /\ alternating 1 rest
  | Exit _ :: rest => c = 1%Z /\ alternating 0 rest
  end.

(** The number of positions the locals hold. *)
Definition held_positions (st : LoopState) : Z :=
  match position st with
  | Some _ => 1%Z
  | None => 0%Z
  end.



(** The dict returned when no trade was recorded. *)
Definition neutral_metrics (initial_capital : Q) (portfolio_value : Series)
  : Metrics :=
  {| initial_capital := initial_capital;
     final_capital := initial_capital;
     total_return := 0;
     total_return_pct := Fin 0;
     num_trades := 0;
     win_rate := 0;
     avg_return := 0;
     max_drawdown := Fin 0;
     trades_of := [];
     portfolio_value := portfolio_value |}.

(** The exit reasons the simulator records. *)
Definition exit_reasons : list string :=
  ["stop_loss"; "take_profit"; "signal"; "end_of_backtest"].

(** Every trade recorded so far has one of them. *)
Definition known_reasons (st : LoopState) : Prop :=
  Forall (fun t => In (Trade.exit_reason t) exit_reasons) (trades st).

(** The timestamp of the last row processed, [t] when there is none. *)
Definition last_idx (t : Z) (rows : list Row) : Z :=
  fold_left (fun _ r => idx r) rows t.



End BacktesterSpec.

Module StrategiesSpec.
Import Pandas Strategies.

(** The columns added by [calculate_indicators]. *)
Definition indicator_columns : list string :=
  ["rsi"; "rsi_prev"; "fast_ma"; "slow_ma"; "fast_ma_prev"; "slow_ma_prev"].

(** Column [name] of [df] has a cell for row [i] and the cell is NaN. *)
Definition undefined_at (df : DataFrame) (name : string) (i : nat) : Prop :=
  exists col, getitem df name = Ok col /\ nth_error col i = Some None.

(** [df'] is [df] with one indicator row per bar: the same index, the
    six indicator columns each as long as the index, the other columns
    untouched, and no value where the window (of [w_rsi], [w_fast],
    [w_slow] bars) or the previous bar is not there yet. *)
Definition indicators_added (w_rsi w_fast w_slow : positive)
  (df df' : DataFrame) : Prop :=
  index df' = index df
  /\ well_formed df'
  /\ (forall name, In name indicator_columns ->
        exists col, getitem df' name = Ok col
                    /\ List.length col = List.length (index df))
  /\ (forall name, ~ In name indicator_columns ->
        getitem df' name = getitem df name)
  /\ (forall i, (i < List.length (index df))%nat ->
        ((S i < Pos.to_nat w_rsi)%nat -> undefined_at df' "rsi" i)
        /\ ((S i < Pos.to_nat w_fast)%nat -> undefined_at df' "fast_ma" i)
        /\ ((S i < Pos.to_nat w_slow)%nat -> undefined_at df' "slow_ma" i)
        /\ (i = 0%nat -> undefined_at df' "rsi_prev" i
                         /\ undefined_at df' "fast_ma_prev" i
                         /\ undefined_at df' "slow_ma_prev" i)).

(** The input is empty or lacks one of the [required] columns. *)
Definition rejected (required : list string) (df : DataFrame) : Prop :=
  empty df = true
  \/ exists c, In c required /\ ~ In c (column_names df).

(** One bar on which the buy and the sell condition of every profile
    hold together: RSI back from 25 to 80 above bullish averages. *)
Definition tie_frame : DataFrame :=
  {| index := [1%Z];
     columns := [("close", [Some 11]); ("rsi", [Some 80]);
                 ("rsi_prev", [Some 25]); ("fast_ma", [Some 10]);
                 ("slow_ma", [Some 9]); ("fast_ma_prev", [Some 8]);
                 ("slow_ma_prev", [Some 9])] |}.

Definition tie_indicators : Indicators :=
  {| rsi := [Some 80]; rsi_prev := [Some 25]; fast_ma := [Some 10];
     slow_ma := [Some 9]; fast_ma_prev := [Some 8]; slow_ma_prev := [Some 9];
     close := [Some 11] |}.

(** The names the registry knows. *)
Definition known_names : list string :=
  ["conservative"; "balanced"; "aggressive"].

(** [config or Config()] *)
Definition config_or_default (config : option Config.t) : Config.t :=
  match config with
  | Some c => c
  | None => Config.default
  end.

End StrategiesSpec.

(* ===================================================================== *)
(** * The current signal: strategies.py and strategy.py *)
(* ===================================================================== *)

Module CurrentSignal.
Import Pandas Strategies.

(** The result of a call that can also fail on an attribute the
    object does not have. *)
Inductive Outcome (A : Type) : Type :=
| Returns (a : A)
| Raises (e : exn)
| RaisesAttributeError (attribute : string).
Arguments Returns {A} a.
Arguments Raises {A} e.
Arguments RaisesAttributeError {A} attribute.

(** The ['reason'] of the returned dict; the f-strings that print the
    RSI are kept as the template and its argument. *)
Inductive reason : Type :=
| NoDataAvailable
| MissingColumns (missing_cols : list string)
| BuySignalRsi (rsi : cell)
| SellSignalRsi (rsi : cell)
| NoClearSignal.

(** The dict returned by [StrategyProfile.get_current_signal]; the key
    ['price'] is absent from the two early returns. *)
Record action_dict : Type := mkAction {
  action : string;
  action_reason : reason;
  action_price : option cell
}.

(** [df.iloc[-1][name]] *)
Definition last_cell (df : DataFrame) (name : string) : Result cell :=
  col <- getitem df name ;;
  Backtester.iloc_last col.

(** A [position] dict with numeric values. *)
Definition position_dict : Type := list (string * Q).

Fixpoint dict_get (key : string) (d : position_dict) : option Q :=
  match d with
  | [] => None
  | (k, v) :: rest => if String.eqb key k then Some v else dict_get key rest
  end.

(** [position] is a non-empty dict with [quantity > 0] and a truthy
    [entry_price] (lines 85-90). *)
Definition live_position (position : option position_dict) : bool :=
  match position with
  | Some ((_ :: _) as d) =>
      let entry_price := dict_get "entry_price" d in
      let quantity := match dict_get "quantity" d with
                      | Some q => q
                      | None => 0
                      end in
      Qlt_bool 0 quantity
      && match entry_price with
         | Some e => negb (Qeq_bool e 0)
         | None => false
         end
  | _ => false
  end.

(** [StrategyProfile.get_current_signal].  [Config] has the attributes
    [STOP_LOSS_PCT] and [TAKE_PROFIT_PCT] and no attribute [STOP_LOSS]:
    the comparison of line 94 raises before either exit is returned. *)
Definition get_current_signal (self : StrategyProfile) (df : DataFrame)
  (position : option position_dict) : Outcome action_dict :=
  if empty df then
    Returns {| action := "hold"; action_reason := NoDataAvailable;
               action_price := None |}
  else
    let missing_cols :=
      filter (fun col => negb (has_column df col)) ["signal"; "close"; "rsi"] in
    match missing_cols with
    | _ :: _ =>
        Returns {| action := "hold";
                   action_reason := MissingColumns missing_cols;
                   action_price := None |}
    | [] =>
        match (latest_signal <- last_cell df "signal" ;;
               latest_close <- last_cell df "close" ;;
               latest_rsi <- last_cell df "rsi" ;;
               Ok (latest_signal, latest_close, latest_rsi)) with
        | Raise e => Raises e
        | Ok (None, _, _) =>
            Raises (ValueError "cannot convert float NaN to integer")
        | Ok (Some s, latest_close, latest_rsi) =>
            let current_signal := Backtester.int s in
            if live_position position then RaisesAttributeError "STOP_LOSS"
            else if (current_signal =? 1)%Z then
              Returns {| action := "buy";
                         action_reason := BuySignalRsi latest_rsi;
                         action_price := Some latest_close |}
            else if (current_signal =? -1)%Z then
              Returns {| action := "sell";
                         action_reason := SellSignalRsi latest_rsi;
                         action_price := Some latest_close |}
            else
              Returns {| action := "hold";
                         action_reason := NoClearSignal;
                         action_price := Some latest_close |}
        end
    end.

(** [x * c] for a float cell and a number. *)
Definition cell_times (x : cell) (c : Q) : cell :=
  match x with
  | Some v => Some (v * c)
  | None => None
  end.

(** [x == c] for a float cell and a number: false on NaN. *)
Definition cell_is (x : cell) (c : Q) : bool :=
  match x with
  | Some v => Qeq_bool v c
  | None => false
  end.

(** The dict returned by [TradingStrategy.get_current_signal]; the keys
    ['stop_loss'] and ['take_profit'] are set on a buy only. *)
Record signal_info : Type := mkInfo {
  info_signal : string;
  info_signal_value : cell;
  info_price : cell;
  info_rsi : cell;
  info_fast_ma : cell;
  info_slow_ma : cell;
  info_timestamp : Z;
  info_stop_loss : option cell;
  info_take_profit : option cell
}.

(** [TradingStrategy.get_current_signal] *)
Definition trading_current_signal (config : Config.t) (df : DataFrame)
  : Result signal_info :=
  if empty df then
    Raise (ValueError "Cannot generate signal from empty DataFrame")
  else
    analyzed_df <- TradingStrategy.analyze config df ;;
    name <- Backtester.iloc_last (index analyzed_df) ;;
    signal_value <- last_cell analyzed_df "signal" ;;
    price <- last_cell analyzed_df "close" ;;
    rsi <- last_cell analyzed_df "rsi" ;;
    fast_ma <- last_cell analyzed_df "fast_ma" ;;
    slow_ma <- last_cell analyzed_df "slow_ma" ;;
    let result :=
      {| info_signal := "hold"; info_signal_value := signal_value;
         info_price := price; info_rsi := rsi; info_fast_ma := fast_ma;
         info_slow_ma := slow_ma; info_timestamp := name;
         info_stop_loss := None; info_take_profit := None |} in
    if cell_is signal_value 1 then
      Ok {| info_signal := "buy"; info_signal_value := signal_value;
            info_price := price; info_rsi := rsi; info_fast_ma := fast_ma;
            info_slow_ma := slow_ma; info_timestamp := name;
            info_stop_loss :=
              Some (cell_times price (1 - Config.STOP_LOSS_PCT config));
            info_take_profit :=
              Some (cell_times price (1 + Config.TAKE_PROFIT_PCT config)) |}
    else if cell_is signal_value (-1) then
      Ok {| info_signal := "sell"; info_signal_value := signal_value;
            info_price := price; info_rsi := rsi; info_fast_ma := fast_ma;
            info_slow_ma := slow_ma; info_timestamp := name;
            info_stop_loss := None; info_take_profit := None |}
    else Ok result.

End CurrentSignal.

(** Vocabulary for the further properties of the signal generator. *)
Module SignalSpec.
Import Pandas Strategies.

(** The cells of one bar in the columns [generate_signals] reads. *)
Record IndicatorRow : Type := mkIndicatorRow {
  row_rsi : cell;
  row_rsi_prev : cell;
  row_fast_ma : cell;
  row_slow_ma : cell;
  row_fast_ma_prev : cell;
  row_slow_ma_prev : cell;
  row_close : cell
}.

Definition row_at (d : Indicators) (i : nat) : IndicatorRow :=
  {| row_rsi := nth i (rsi d) None;
     row_rsi_prev := nth i (rsi_prev d) None;
     row_fast_ma := nth i (fast_ma d) None;
     row_slow_ma := nth i (slow_ma d) None;
     row_fast_ma_prev := nth i (fast_ma_prev d) None;
     row_slow_ma_prev := nth i (slow_ma_prev d) None;
     row_close := nth i (close d) None |}.

(** The buy rule of a profile on one bar. *)
Definition buy_row (k : kind) (r : IndicatorRow) : bool :=
  let oversold := Some (RSI_OVERSOLD k) in
  let overbought := Some (RSI_OVERBOUGHT k) in
  let bullish := cell_gt (row_fast_ma r) (row_slow_ma r) in
  let crossed := cell_le (row_fast_ma_prev r) (row_slow_ma_prev r) in
  let rsi_recovery :=
    cell_gt (row_rsi r) oversold && cell_le (row_rsi_prev r) oversold
    && bullish in
  let above_slow := cell_gt (row_close r) (row_slow_ma r) in
  match k with
  | Conservative =>
      cell_gt (row_rsi r) oversold && cell_le (row_rsi_prev r) oversold
      && bullish && crossed && above_slow
  | Balanced =>
      (rsi_recovery
       || bullish && crossed && cell_lt (row_rsi r) overbought
          && cell_gt (row_rsi r) oversold)
      && above_slow
  | Aggressive =>
      (rsi_recovery
       || bullish && crossed && cell_lt (row_rsi r) overbought
       || bullish && cell_gt (row_close r) (row_fast_ma r)
          && cell_gt (row_rsi r) (Some 40) && cell_lt (row_rsi r) overbought
          && cell_gt (row_rsi r) (row_rsi_prev r))
      && above_slow
  end.

(** The sell rule of a profile on one bar. *)
Definition sell_row (k : kind) (r : IndicatorRow) : bool :=
  let bearish_cross :=
    cell_lt (row_fast_ma r) (row_slow_ma r)
    && cell_ge (row_fast_ma_prev r) (row_slow_ma_prev r) in
  match k with
  | Conservative | Balanced =>
      cell_gt (row_rsi r) (Some (RSI_OVERBOUGHT k)) || bearish_cross
  | Aggressive =>
      cell_gt (row_rsi r) (Some (RSI_OVERBOUGHT k)) || bearish_cross
      || cell_lt (row_rsi r) (Some (RSI_OVERSOLD k))
  end.

(** The signal of one bar: sell before buy before hold. *)
Definition signal_row (k : kind) (r : IndicatorRow) : Q :=
  if sell_row k r then -1 else if buy_row k r then 1 else 0.

(** Every column read by [generate_signals] has [n] cells. *)
Definition columns_of_length (n : nat) (d : Indicators) : Prop :=
  List.length (rsi d) = n /\ List.length (rsi_prev d) = n
  /\ List.length (fast_ma d) = n /\ List.length (slow_ma d) = n
  /\ List.length (fast_ma_prev d) = n /\ List.length (slow_ma_prev d) = n
  /\ List.length (close d) = n.

(** [prev] is [cur] moved down by one bar: NaN on the first bar, then
    the value of the bar before. *)
Definition previous_of (prev cur : column) : Prop :=
  List.length prev = List.length cur
  /\ (cur <> [] -> nth_error prev 0 = Some None)
  /\ (forall i, (S i < List.length cur)%nat ->
        nth_error prev (S i) = nth_error cur i).

(** The three previous-value columns of [df] are its three indicator
    columns moved down by one bar. *)
Definition previous_columns (df : DataFrame) : Prop :=
  exists c_rsi c_rsi_prev c_fast c_fast_prev c_slow c_slow_prev,
    getitem df "rsi" = Ok c_rsi
    /\ getitem df "rsi_prev" = Ok c_rsi_prev
    /\ getitem df "fast_ma" = Ok c_fast
    /\ getitem df "fast_ma_prev" = Ok c_fast_prev
    /\ getitem df "slow_ma" = Ok c_slow
    /\ getitem df "slow_ma_prev" = Ok c_slow_prev
    /\ previous_of c_rsi_prev c_rsi
    /\ previous_of c_fast_prev c_fast
    /\ previous_of c_slow_prev c_slow.

(** The indicator columns computed from the closes [c] with the three
    windows. *)
Definition computed_indicators (w_rsi w_fast w_slow : positive) (c : column)
  : Indicators :=
  {| rsi := Ta.rsi c w_rsi;
     rsi_prev := shift1 (Ta.rsi c w_rsi);
     fast_ma := Ta.sma_indicator c w_fast;
     slow_ma := Ta.sma_indicator c w_slow;
     fast_ma_prev := shift1 (Ta.sma_indicator c w_fast);
     slow_ma_prev := shift1 (Ta.sma_indicator c w_slow);
     close := c |}.

(** The columns [StrategyProfile.get_current_signal] asks for. *)
Definition signal_cols : list string := ["signal"; "close"; "rsi"].

(** What [TradingStrategy.get_current_signal] reports for the signal
    value [v] of the last bar. *)
Definition reports (config : Config.t) (info : CurrentSignal.signal_info)
  (v : Q) : Prop :=
  CurrentSignal.info_signal_value info = Some v
  /\ ((v = 1
       /\ CurrentSignal.info_signal info = "buy"
       /\ CurrentSignal.info_stop_loss info
          = Some (CurrentSignal.cell_times (CurrentSignal.info_price info)
                    (1 - Config.STOP_LOSS_PCT config))
       /\ CurrentSignal.info_take_profit info
          = Some (CurrentSignal.cell_times (CurrentSignal.info_price info)
                    (1 + Config.TAKE_PROFIT_PCT config)))
      \/ (v = -1
          /\ CurrentSignal.info_signal info = "sell"
          /\ CurrentSignal.info_stop_loss info = None
          /\ CurrentSignal.info_take_profit info = None)
      \/ (v = 0
          /\ CurrentSignal.info_signal info = "hold"
          /\ CurrentSignal.info_stop_loss info = None
          /\ CurrentSignal.info_take_profit info = None)).

(** Two bars of prices and volumes. *)
Definition two_bars : DataFrame :=
  {| index := [1%Z; 2%Z];
     columns := [("open", [Some 10; Some 11]); ("high", [Some 11; Some 12]);
                 ("low", [Some 9; Some 10]); ("close", [Some 10; Some 11]);
                 ("volume", [Some 1000; Some 1200])] |}.

(** The rows [df.iterrows()] yields to the simulator, when the closes
    and signals of [df] are numbers: their timestamps, closes and
    integer signals are the index and the two columns of [df]. *)
Definition yields_rows (df : DataFrame) (rows : list Backtester.Row) : Prop :=
  index df = map Backtester.idx rows
  /\ getitem df "close" = Ok (map (fun r => Some (Backtester.close r)) rows)
  /\ getitem df "signal"
     = Ok (map (fun r => Some (inject_Z (Backtester.signal r))) rows).

End SignalSpec.

(** Vocabulary for the further properties of the simulator. *)
Module LedgerSpec.
Import Backtester BacktesterSpec.


(** Cash is not negative and an open position holds a positive number
    of shares. *)
Definition solvent (st : LoopState) : Prop :=
  0 <= capital st
  /\ (forall p, position st = Some p -> (0 < Position.shares p)%Z)
  /\ Forall (fun v => 0 <= v) (portfolio_values st).





(** A ledger in time order: each trade exits no earlier than it enters
    and no later than any later trade enters. *)
Fixpoint chronological (ts : list Trade.t) : Prop :=
  match ts with
  | [] => True
  | t :: rest =>
      (Trade.entry_time t <= Trade.exit_time t)%Z
      /\ Forall (fun u => (Trade.exit_time t <= Trade.entry_time u)%Z) rest
      /\ chronological rest
  end.

(** The ledger is in time order, closed by time [b], and the open
    position was entered after every recorded exit and by time [b]. *)
Definition ledger_ordered (b : Z) (st : LoopState) : Prop :=
  chronological (trades st)
  /\ Forall (fun t => (Trade.exit_time t <= b)%Z) (trades st)
  /\ (forall p, position st = Some p ->
        (Position.entry_time p <= b)%Z
        /\ Forall (fun t => (Trade.exit_time t <= Position.entry_time p)%Z)
             (trades st)).


(** The number of wins, as [_calculate_metrics] counts them. *)
Definition wins (ts : list Trade.t) : nat :=
  List.length (filter (fun t => Qlt_bool 0 (Trade.pnl t)) ts).

End LedgerSpec.

(* ===================================================================== *)
(** * Properties of the trade simulator *)
(* ===================================================================== *)

Module BacktesterFacts.
Import Backtester BacktesterSpec.

(** ** Tests and their propositions *)

Lemma Qlt_bool_iff (x y : Q) : Qlt_bool x y = true <-> x < y.
Proof.
  unfold Qlt_bool. rewrite negb_true_iff.
  split; intro H.
  - apply Qnot_le_lt. intro Hle. apply Qle_bool_iff in Hle. congruence.
  - destruct (Qle_bool y x) eqn:E; [|reflexivity].
    apply Qle_bool_iff in E. exfalso. exact (Qlt_not_le _ _ H E).
Qed.

Lemma Qle_bool_false (x y : Q) : Qle_bool x y = false <-> ~ x <= y.
Proof.
  split; intro H.
  - intro Hle. apply Qle_bool_iff in Hle. congruence.
  - destruct (Qle_bool x y) eqn:E; [|reflexivity].
    apply Qle_bool_iff in E. contradiction.
Qed.

(** ** [int] against the floor *)





Lemma check_stops_flat cfg row st :
  position st = None -> check_stops cfg row st = (st, []).
Proof. intro H. unfold check_stops. rewrite H. reflexivity. Qed.





(** ** Entry on a buy signal *)




(** ** Stop loss and take profit *)

Lemma check_stops_long cfg row st p :
  position st = Some p ->
  (close row <= stop_loss cfg p \/ take_profit cfg p <= close row) ->
  let tr := closed_trade p (idx row) (close row)
              (stop_reason cfg p (close row)) in
  check_stops cfg row st = (exited st p (close row) tr, [Exit tr]).
Proof.
  intros Hp Hcross tr. unfold check_stops. rewrite Hp.
  assert (E : Qle_bool (close row) (stop_loss cfg p)
              || Qle_bool (take_profit cfg p) (close row) = true).
  { apply orb_true_iff.
    destruct Hcross as [H|H]; [left|right]; apply Qle_bool_iff; exact H. }
  rewrite E. reflexivity.
Qed.

Lemma check_stops_hold cfg row st p :
  position st = Some p ->
  ~ close row <= stop_loss cfg p -> ~ take_profit cfg p <= close row ->
  check_stops cfg row st = (st, []).
Proof.
  intros Hp H1 H2. unfold check_stops. rewrite Hp.
  apply Qle_bool_false in H1. apply Qle_bool_false in H2.
  rewrite H1, H2. reflexivity.
Qed.




(** ** The replay loop *)

Lemma replay_cons cfg row rows st :
  replay cfg (row :: rows) st
  = (fst (replay cfg rows (step cfg st row)),
     snd (process_bar cfg st row) ++ snd (replay cfg rows (step cfg st row))).
Proof.
  simpl. unfold step. destruct (process_bar cfg st row) as [st1 e1]. simpl.
  destruct (replay cfg rows st1) as [st2 e2]. reflexivity.
Qed.

Lemma replay_app cfg rows1 rows2 st :
  replay cfg (rows1 ++ rows2) st
  = (fst (replay cfg rows2 (fst (replay cfg rows1 st))),
     snd (replay cfg rows1 st)
     ++ snd (replay cfg rows2 (fst (replay cfg rows1 st)))).
Proof.
  revert st. induction rows1 as [|r rows1 IH]; intro st.
  - simpl. destruct (replay cfg rows2 st). reflexivity.
  - rewrite <- app_comm_cons, !replay_cons, IH. simpl.
    rewrite app_assoc. reflexivity.
Qed.

(** A property kept by every bar is kept by the loop. *)
Lemma replay_preserves (P : LoopState -> Prop) cfg :
  (forall st row, P st -> P (step cfg st row)) ->
  forall rows st, P st -> P (fst (replay cfg rows st)).
Proof.
  intros Hstep rows. induction rows as [|r rows IH]; intros st H.
  - exact H.
  - rewrite replay_cons. simpl. apply IH, Hstep, H.
Qed.

(** The shape of the locals after each of the three blocks of a bar. *)
Lemma check_stops_cases cfg row st :
  check_stops cfg row st = (st, [])
  \/ exists p, position st = Some p
       /\ (close row <= stop_loss cfg p \/ take_profit cfg p <= close row)
       /\ let tr := closed_trade p (idx row) (close row)
                      (stop_reason cfg p (close row)) in
          check_stops cfg row st = (exited st p (close row) tr, [Exit tr]).
Proof.
  destruct (position st) as [p|] eqn:Hp.
  - destruct (Qle_bool (close row) (stop_loss cfg p)) eqn:E1.
    + right. exists p. apply Qle_bool_iff in E1.
      split; [reflexivity|]. split; [left; exact E1|].
      apply check_stops_long; auto.
    + destruct (Qle_bool (take_profit cfg p) (close row)) eqn:E2.
      * right. exists p. apply Qle_bool_iff in E2.
        split; [reflexivity|]. split; [right; exact E2|].
        apply check_stops_long; auto.
      * left. apply check_stops_hold with p; auto; apply Qle_bool_false; auto.
  - left. apply check_stops_flat, Hp.
Qed.

Lemma act_on_signal_cases cfg row st :
  act_on_signal cfg row st = (st, [])
  \/ (exists shares, position st = None /\ signal row = 1%Z
        /\ (0 < shares)%Z /\ 0 < risk_per_share cfg (close row)
        /\ inject_Z shares * close row <= capital st
        /\ act_on_signal cfg row st
           = (entered st row shares, [Entry (opened row shares)]))
  \/ (exists p, position st = Some p /\ signal row = (-1)%Z
        /\ let tr := closed_trade p (idx row) (close row) "signal" in
           act_on_signal cfg row st = (exited st p (close row) tr, [Exit tr])).
Proof.
  unfold act_on_signal.
  destruct (signal row =? 1)%Z eqn:E1; destruct (position st) as [p|] eqn:Hp.
  - apply Z.eqb_eq in E1. rewrite E1. simpl. left. reflexivity.
  - destruct (Qlt_bool 0 (risk_per_share cfg (close row))) eqn:Er;
      [|left; reflexivity].
    destruct (0 <? position_size cfg (capital st) (close row))%Z eqn:Es;
      [|left; reflexivity].
    destruct (Qle_bool (inject_Z (position_size cfg (capital st) (close row))
                        * close row) (capital st)) eqn:Ec;
      [|left; reflexivity].
    right. left. exists (position_size cfg (capital st) (close row)).
    apply Z.eqb_eq in E1. apply Z.ltb_lt in Es.
    apply Qlt_bool_iff in Er. apply Qle_bool_iff in Ec.
    repeat split; auto.
  - destruct (signal row =? -1)%Z eqn:E2; [|left; reflexivity].
    right. right. exists p. apply Z.eqb_eq in E2. auto.
  - destruct (signal row =? -1)%Z; left; reflexivity.
Qed.


(** The two blocks of a bar that can change the position, one after the
    other; [process_bar] only appends the portfolio value to the result. *)
Lemma process_bar_blocks cfg st row :
  process_bar cfg st row
  = (mark_to_market row
       (fst (act_on_signal cfg row (fst (check_stops cfg row st)))),
     snd (check_stops cfg row st)
     ++ snd (act_on_signal cfg row (fst (check_stops cfg row st)))).
Proof.
  unfold process_bar. destruct (check_stops cfg row st) as [st1 e1]. simpl.
  destruct (act_on_signal cfg row st1) as [st2 e2]. reflexivity.
Qed.

(** ** One position at a time *)

Lemma open_positions_app evs1 evs2 :
  open_positions (evs1 ++ evs2)
  = (open_positions evs1 + open_positions evs2)%Z.
Proof.
  induction evs1 as [|[p|t] evs1 IH]; cbn [open_positions app];
    rewrite ?IH; lia.
Qed.

Lemma alternating_app c evs1 evs2 :
  alternating c evs1 ->
  alternating (c + open_positions evs1) evs2 ->
  alternating c (evs1 ++ evs2).
Proof.
  revert c.
  induction evs1 as [|[p|t] evs1 IH];
    cbn [alternating open_positions app]; intros c H1 H2.
  - replace c with (c + 0)%Z by lia. exact H2.
  - destruct H1 as [-> H1]. split; [reflexivity|].
    apply IH; [exact H1|]. replace (1 + open_positions evs1)%Z
      with (0 + (1 + open_positions evs1))%Z by lia. exact H2.
  - destruct H1 as [-> H1]. split; [reflexivity|].
    apply IH; [exact H1|]. replace (0 + open_positions evs1)%Z
      with (1 + (open_positions evs1 - 1))%Z by lia. exact H2.
Qed.

Lemma alternating_bound evs :
  forall c n, alternating c evs -> (c = 0 \/ c = 1)%Z ->
  (0 <= c + open_positions (firstn n evs) <= 1)%Z.
Proof.
  induction evs as [|[p|t] evs IH]; intros c n H Hc.
  - rewrite firstn_nil. cbn [open_positions]. lia.
  - destruct n as [|n]; [cbn [firstn open_positions]; lia|].
    cbn [alternating firstn open_positions] in *. destruct H as [-> H].
    specialize (IH 1%Z n H (or_intror eq_refl)). lia.
  - destruct n as [|n]; [cbn [firstn open_positions]; lia|].
    cbn [alternating firstn open_positions] in *. destruct H as [-> H].
    specialize (IH 0%Z n H (or_introl eq_refl)). lia.
Qed.

Lemma check_stops_alternating cfg row st :
  alternating (held_positions st) (snd (check_stops cfg row st))
  /\ held_positions (fst (check_stops cfg row st))
     = (held_positions st + open_positions (snd (check_stops cfg row st)))%Z.
Proof.
  destruct (check_stops_cases cfg row st) as [E|(p & Hp & _ & E)];
    simpl in E; rewrite E; simpl.
  - split; [exact I|lia].
  - unfold held_positions. rewrite Hp. simpl. auto.
Qed.

Lemma act_on_signal_alternating cfg row st :
  alternating (held_positions st) (snd (act_on_signal cfg row st))
  /\ held_positions (fst (act_on_signal cfg row st))
     = (held_positions st + open_positions (snd (act_on_signal cfg row st)))%Z.
Proof.
  destruct (act_on_signal_cases cfg row st)
    as [E|[(sh & Hp & _ & _ & _ & _ & E)|(p & Hp & _ & E)]];
    simpl in E; rewrite E; simpl.
  - split; [exact I|lia].
  - unfold held_positions. rewrite Hp. simpl. auto.
  - unfold held_positions. rewrite Hp. simpl. auto.
Qed.

Lemma process_bar_alternating cfg st row :
  alternating (held_positions st) (snd (process_bar cfg st row))
  /\ held_positions (step cfg st row)
     = (held_positions st + open_positions (snd (process_bar cfg st row)))%Z.
Proof.
  unfold step. rewrite process_bar_blocks. simpl.
  destruct (check_stops_alternating cfg row st) as [A1 H1].
  destruct (act_on_signal_alternating cfg row (fst (check_stops cfg row st)))
    as [A2 H2].
  split.
  - apply alternating_app; [exact A1|]. rewrite <- H1. exact A2.
  - rewrite open_positions_app.
    change (held_positions (mark_to_market row ?s)) with (held_positions s).
    lia.
Qed.

Lemma replay_alternating cfg rows :
  forall st,
  alternating (held_positions st) (snd (replay cfg rows st))
  /\ held_positions (fst (replay cfg rows st))
     = (held_positions st + open_positions (snd (replay cfg rows st)))%Z.
Proof.
  induction rows as [|r rows IH]; intro st.
  - simpl. split; [exact I|lia].
  - rewrite replay_cons. simpl.
    destruct (process_bar_alternating cfg st r) as [A1 H1].
    destruct (IH (step cfg st r)) as [A2 H2].
    split.
    + apply alternating_app; [exact A1|]. rewrite <- H1. exact A2.
    + rewrite open_positions_app. lia.
Qed.

(** ** The end of the run *)

Lemma iloc_last_app {A : Type} (l : list A) (x : A) :
  iloc_last (l ++ [x]) = Ok x.
Proof.
  induction l as [|a l IH]; [reflexivity|].
  simpl. destruct (l ++ [x]) eqn:E; [destruct l; discriminate|exact IH].
Qed.

Lemma iloc_last_nonempty {A : Type} (l : list A) :
  l <> [] -> exists x, iloc_last l = Ok x.
Proof.
  intro H. destruct (exists_last H) as (l' & x & ->).
  exists x. apply iloc_last_app.
Qed.

Lemma iloc_last_inv {A : Type} (l : list A) (x : A) :
  iloc_last l = Ok x -> exists l', l = l' ++ [x].
Proof.
  intro H. destruct l as [|a l]; [discriminate|].
  destruct (@exists_last _ (a :: l)) as (l' & y & E); [discriminate|].
  rewrite E in H. rewrite iloc_last_app in H. injection H as ->.
  exists l'. exact E.
Qed.

Lemma step_portfolio_values cfg st row :
  exists v, portfolio_values (step cfg st row) = portfolio_values st ++ [v].
Proof.
  unfold step. rewrite process_bar_blocks. simpl.
  assert (H1 : portfolio_values (fst (check_stops cfg row st))
               = portfolio_values st).
  { destruct (check_stops_cases cfg row st) as [E|(p & _ & _ & E)];
      simpl in E; rewrite E; reflexivity. }
  assert (H2 : forall s, portfolio_values (fst (act_on_signal cfg row s))
                         = portfolio_values s).
  { intro s. destruct (act_on_signal_cases cfg row s)
      as [E|[(sh & _ & _ & _ & _ & _ & E)|(p & _ & _ & E)]];
      simpl in E; rewrite E; reflexivity. }
  rewrite H2, H1. eexists. reflexivity.
Qed.

Lemma replay_portfolio_length cfg rows :
  forall st,
  List.length (portfolio_values (fst (replay cfg rows st)))
  = (List.length (portfolio_values st) + List.length rows)%nat.
Proof.
  induction rows as [|r rows IH]; intro st.
  - simpl. lia.
  - rewrite replay_cons. simpl. rewrite IH.
    destruct (step_portfolio_values cfg st r) as [v ->].
    rewrite length_app. simpl. lia.
Qed.

Lemma replay_nil_position cfg init rows :
  position (fst (replay cfg rows (initial_state init))) <> None ->
  rows <> [].
Proof. intros H ->. apply H. reflexivity. Qed.

(** The run never raises: the last row and the last portfolio value
    exist whenever a position is still open after the loop. *)
Lemma close_remaining_long cfg init rows p :
  let st := fst (replay cfg rows (initial_state init)) in
  position st = Some p ->
  exists last_row,
    iloc_last rows = Ok last_row
    /\ let cash := capital st + close last_row * inject_Z (Position.shares p) in
       let tr := closed_trade p (idx last_row) (close last_row)
                   "end_of_backtest" in
       close_remaining rows st
       = Ok ({| capital := cash;
                position := None;
                trades := trades st ++ [tr];
                portfolio_values := removelast (portfolio_values st) ++ [cash] |},
             [Exit tr]).
Proof.
  intros st Hp.
  assert (Hrows : rows <> []).
  { apply (replay_nil_position cfg init). fold st. rewrite Hp. discriminate. }
  destruct (iloc_last_nonempty rows Hrows) as [last_row Hlast].
  exists last_row. split; [exact Hlast|].
  unfold close_remaining. rewrite Hp, Hlast. simpl.
  assert (Hpv : portfolio_values st <> []).
  { intro E. pose proof (replay_portfolio_length cfg rows (initial_state init))
      as Hlen. fold st in Hlen. rewrite E in Hlen. simpl in Hlen.
    destruct rows; [contradiction|simpl in Hlen; lia]. }
  unfold set_last. destruct (portfolio_values st); [contradiction|].
  reflexivity.
Qed.

Lemma close_remaining_flat rows st :
  position st = None -> close_remaining rows st = Ok (st, []).
Proof. intro H. unfold close_remaining. rewrite H. reflexivity. Qed.

Lemma simulate_unfold cfg init rows :
  simulate cfg init rows
  = (r <- close_remaining rows (fst (replay cfg rows (initial_state init))) ;;
     Ok (fst r, snd (replay cfg rows (initial_state init)) ++ snd r)).
Proof.
  unfold simulate. destruct (replay cfg rows (initial_state init)). reflexivity.
Qed.


Lemma firstn_length_app {A : Type} (l l' : list A) :
  firstn (List.length l) (l ++ l') = l.
Proof.
  induction l as [|a l IH]; simpl.
  - reflexivity.
  - rewrite IH. reflexivity.
Qed.

Lemma held_positions_state st :
  (state_of st = Long <-> held_positions st = 1%Z)
  /\ (state_of st = Flat <-> held_positions st = 0%Z).
Proof.
  unfold state_of, held_positions.
  destruct (position st); split; split; intro H;
    try reflexivity; try discriminate H.
Qed.

(** C9: on every run the trace of entries and exits never holds more
    than one open position, after any number of its events; after every
    prefix of the bars the number of open positions is one when the
    simulator is Long (its [position] is a Position) and zero when it is
    Flat ([position] is [None]); and the run ends Flat with nothing open. *)
Theorem C9_single_position cfg init rows :
  exists final log,
    simulate cfg init rows = Ok (final, log)
    /\ (forall n, (0 <= open_positions (firstn n log) <= 1)%Z)
    /\ (forall k,
          let st := fst (replay cfg (firstn k rows) (initial_state init)) in
          let evs := snd (replay cfg (firstn k rows) (initial_state init)) in
          evs = firstn (List.length evs) log
          /\ (state_of st = Long ->
              open_positions evs = 1%Z /\ exists p, position st = Some p)
          /\ (state_of st = Flat ->
              open_positions evs = 0%Z /\ position st = None))
    /\ state_of final = Flat
    /\ open_positions log = 0%Z.
Proof.
  pose (st := fst (replay cfg rows (initial_state init))).
  pose (e1 := snd (replay cfg rows (initial_state init))).
  destruct (replay_alternating cfg rows (initial_state init)) as [A1 H1].
  fold st e1 in A1, H1. change (held_positions (initial_state init)) with 0%Z in *.
  assert (Hend : exists final e2,
             close_remaining rows st = Ok (final, e2)
             /\ alternating (open_positions e1) e2
             /\ (open_positions e1 + open_positions e2 = 0)%Z
             /\ position final = None).
  { destruct (position st) as [p|] eqn:Hp.
    - destruct (close_remaining_long cfg init rows p Hp) as (lr & _ & E).
      fold st in E. simpl in E. eexists. eexists. split; [exact E|].
      assert (held_positions st = 1%Z) by (unfold held_positions; rewrite Hp; reflexivity).
      cbn [alternating open_positions]. repeat split; lia.
    - exists st, []. rewrite (close_remaining_flat rows st Hp).
      assert (held_positions st = 0%Z) by (unfold held_positions; rewrite Hp; reflexivity).
      cbn [alternating open_positions]. repeat split; auto; lia. }
  destruct Hend as (final & e2 & Eclose & A2 & Hsum & Hfinal).
  exists final, (e1 ++ e2).
  assert (Hlog : alternating 0 (e1 ++ e2)).
  { apply alternating_app; [exact A1|]. exact A2. }
  split; [|split; [|split; [|split]]].
  - rewrite simulate_unfold. fold st e1. rewrite Eclose. reflexivity.
  - intro n. pose proof (alternating_bound _ 0%Z n Hlog (or_introl eq_refl)). lia.
  - intros k stk evs.
    pose proof (replay_app cfg (firstn k rows) (skipn k rows) (initial_state init))
      as Happ.
    rewrite firstn_skipn in Happ.
    assert (He1 : e1 = evs ++ snd (replay cfg (skipn k rows) stk)).
    { unfold e1. rewrite Happ. reflexivity. }
    destruct (replay_alternating cfg (firstn k rows) (initial_state init))
      as [_ Hk].
    fold stk evs in Hk. change (held_positions (initial_state init)) with 0%Z in Hk.
    destruct (held_positions_state stk) as [HL HF].
    split; [|split].
    + rewrite He1, <- app_assoc. symmetry. apply firstn_length_app.
    + intro HLong. apply HL in HLong. split; [lia|].
      unfold held_positions in HLong.
      destruct (position stk) as [p|]; [eauto|discriminate].
    + intro HFlat. apply HF in HFlat. split; [lia|].
      unfold held_positions in HFlat.
      destruct (position stk) as [p|]; [discriminate|reflexivity].
  - unfold state_of. rewrite Hfinal. reflexivity.
  - rewrite open_positions_app. exact Hsum.
Qed.

(** ** The reasons recorded *)

Lemma Forall_snoc {A : Type} (P : A -> Prop) (l : list A) (x : A) :
  Forall P l -> P x -> Forall P (l ++ [x]).
Proof. intros Hl Hx. apply Forall_app. split; [exact Hl|]. constructor; auto. Qed.

Lemma stop_reason_known cfg p px : In (stop_reason cfg p px) exit_reasons.
Proof.
  unfold stop_reason, exit_reasons.
  destruct (Qle_bool px (stop_loss cfg p)); simpl; auto.
Qed.

Lemma step_known_reasons cfg st row :
  known_reasons st -> known_reasons (step cfg st row).
Proof.
  unfold known_reasons, step. rewrite process_bar_blocks. simpl. intro H.
  assert (H1 : Forall (fun t => In (Trade.exit_reason t) exit_reasons)
                 (trades (fst (check_stops cfg row st)))).
  { destruct (check_stops_cases cfg row st) as [E|(p & _ & _ & E)];
      simpl in E; rewrite E; simpl; [exact H|].
    apply Forall_snoc; [exact H|]. simpl. apply stop_reason_known. }
  destruct (act_on_signal_cases cfg row (fst (check_stops cfg row st)))
    as [E|[(sh & _ & _ & _ & _ & _ & E)|(p & _ & _ & E)]];
    simpl in E; rewrite E; simpl; try exact H1.
  apply Forall_snoc; [exact H1|]. simpl. unfold exit_reasons. simpl. auto.
Qed.

(** The outcome of a run, by the state in which the loop ends. *)
Lemma simulate_cases cfg init rows :
  let st := fst (replay cfg rows (initial_state init)) in
  let loop_log := snd (replay cfg rows (initial_state init)) in
  exists final log,
    simulate cfg init rows = Ok (final, log)
    /\ match position st with
       | None => final = st /\ log = loop_log
       | Some p =>
           exists last_row,
             iloc_last rows = Ok last_row
             /\ let cash :=
                  capital st + close last_row * inject_Z (Position.shares p) in
                let tr :=
                  closed_trade p (idx last_row) (close last_row)
                    "end_of_backtest" in
                final = {| capital := cash;
                           position := None;
                           trades := trades st ++ [tr];
                           portfolio_values :=
                             removelast (portfolio_values st) ++ [cash] |}
                /\ log = loop_log ++ [Exit tr]
       end.
Proof.
  intros st loop_log.
  destruct (position st) as [p|] eqn:Hp.
  - destruct (close_remaining_long cfg init rows p Hp) as (lr & Hlast & E).
    fold st in E. simpl in E.
    eexists. eexists. split.
    + rewrite simulate_unfold. fold st loop_log. rewrite E. reflexivity.
    + exists lr. split; [exact Hlast|]. simpl. split; reflexivity.
  - exists st, loop_log. split.
    + rewrite simulate_unfold. fold st loop_log.
      rewrite (close_remaining_flat rows st Hp). simpl.
      rewrite app_nil_r. reflexivity.
    + split; reflexivity.
Qed.

(** Overwriting the last of a non-empty list keeps its length. *)
Lemma length_overwrite_last (l : list Q) (v : Q) :
  l <> [] -> List.length (removelast l ++ [v]) = List.length l.
Proof.
  intro Hne. destruct (exists_last Hne) as (l' & x & ->).
  rewrite removelast_last, !length_app. reflexivity.
Qed.

Lemma replay_portfolio_nonempty cfg init rows :
  rows <> [] ->
  portfolio_values (fst (replay cfg rows (initial_state init))) <> [].
Proof.
  intros Hne E.
  pose proof (replay_portfolio_length cfg rows (initial_state init)) as Hlen.
  rewrite E in Hlen. simpl in Hlen. destruct rows; [contradiction|].
  simpl in Hlen. lia.
Qed.

(** C2 (as amended): every run returns; if the simulator is still Long
    after the last bar, the position is closed at the close of the last
    row, the trade recorded for it has the exit time of that row and the
    reason ['end_of_backtest'], and the last portfolio value is
    overwritten with the realized cash; if it is Flat nothing changes.
    Every recorded trade has its reason among [stop_loss], [take_profit],
    [signal] and [end_of_backtest]. *)
Theorem C2_forced_exit cfg init rows :
  let st := fst (replay cfg rows (initial_state init)) in
  let loop_log := snd (replay cfg rows (initial_state init)) in
  exists final log,
    simulate cfg init rows = Ok (final, log)
    /\ Forall (fun t => In (Trade.exit_reason t)
                          ["stop_loss"; "take_profit"; "signal"; "end_of_backtest"])
         (trades final)
    /\ match position st with
       | None => final = st /\ log = loop_log
       | Some p =>
           exists last_row,
             iloc_last rows = Ok last_row
             /\ let cash :=
                  capital st + close last_row * inject_Z (Position.shares p) in
                let tr :=
                  closed_trade p (idx last_row) (close last_row)
                    "end_of_backtest" in
                final = {| capital := cash;
                           position := None;
                           trades := trades st ++ [tr];
                           portfolio_values :=
                             removelast (portfolio_values st) ++ [cash] |}
                /\ log = loop_log ++ [Exit tr]
                /\ Trade.exit_price tr = close last_row
                /\ Trade.exit_time tr = idx last_row
                /\ Trade.exit_reason tr = "end_of_backtest"
                /\ iloc_last (portfolio_values final) = Ok (capital final)
                /\ List.length (portfolio_values final) = List.length rows
       end.
Proof.
  intros st loop_log.
  assert (Hknown : known_reasons st).
  { unfold st. apply replay_preserves.
    - intros s r. apply step_known_reasons.
    - constructor. }
  destruct (simulate_cases cfg init rows) as (final & log & Hsim & Hcase).
  fold st loop_log in Hcase.
  exists final, log. split; [exact Hsim|].
  destruct (position st) as [p|] eqn:Hp.
  - destruct Hcase as (lr & Hlast & Hfinal & Hlog).
    simpl in Hfinal, Hlog. subst final. split.
    + simpl. apply Forall_snoc; [exact Hknown|]. simpl. auto 6.
    + exists lr. split; [exact Hlast|]. simpl.
      split; [reflexivity|]. split; [exact Hlog|].
      split; [reflexivity|]. split; [reflexivity|]. split; [reflexivity|].
      split.
      * apply iloc_last_app.
      * assert (Hrows : rows <> []) by (intros ->; discriminate Hlast).
        rewrite length_overwrite_last
          by (apply replay_portfolio_nonempty; exact Hrows).
        unfold st. rewrite replay_portfolio_length. reflexivity.
  - destruct Hcase as [-> ->]. split; [exact Hknown|]. split; reflexivity.
Qed.

(** C2 (as stated) fails: a buy on the only bar is closed at the end of
    the run, and the reason recorded is ['end_of_backtest'], not
    ['end_of_period']. *)
Lemma C2_counterexample :
  let rows := [mkRow 1 100 1] in
  position (fst (replay Config.default rows (initial_state 10000))) <> None
  /\ (exists final log,
        simulate Config.default 10000 rows = Ok (final, log)
        /\ map Trade.exit_reason (trades final) = ["end_of_backtest"])
  /\ "end_of_backtest" <> "end_of_period".
Proof.
  split; [|split].
  - vm_compute. discriminate.
  - eexists. eexists. split; [vm_compute; reflexivity|reflexivity].
  - discriminate.
Qed.


(** ** Conservation of capital *)














(** ** Metrics of a run without trades *)

Lemma calculate_metrics_no_trades init pv :
  _calculate_metrics init [] pv = Ok (neutral_metrics init pv).
Proof. reflexivity. Qed.

(** C6: for a run that records no trade the metrics are returned, not
    raised, with [final_capital] equal to the initial capital exactly and
    [total_return], [total_return_pct], [num_trades], [win_rate],
    [avg_return] and [max_drawdown] all 0; no division is evaluated. *)
Theorem C6_no_trades cfg init rows r :
  _simulate_trades cfg init rows = Ok r ->
  fst r = [] ->
  exists m,
    _calculate_metrics init (fst r) (snd r) = Ok m
    /\ simulate_and_measure cfg init rows = Ok m
    /\ initial_capital m = init
    /\ final_capital m = init
    /\ total_return m = 0
    /\ total_return_pct m = Fin 0
    /\ num_trades m = 0%nat
    /\ win_rate m = 0
    /\ avg_return m = 0
    /\ max_drawdown m = Fin 0
    /\ trades_of m = []
    /\ portfolio_value m = snd r.
Proof.
  intros Hrun Hnone. exists (neutral_metrics init (snd r)).
  unfold simulate_and_measure. rewrite Hrun. simpl. rewrite Hnone.
  rewrite calculate_metrics_no_trades. repeat split.
Qed.

(** Two bars without a signal: no trade, neutral metrics. *)
Lemma C6_no_trades_witness :
  exists m,
    simulate_and_measure Config.default 10000 [mkRow 1 100 0; mkRow 2 101 0]
    = Ok m
    /\ final_capital m = 10000 /\ win_rate m = 0 /\ avg_return m = 0
    /\ total_return m = 0 /\ max_drawdown m = Fin 0.
Proof.
  destruct (C6_no_trades Config.default 10000 [mkRow 1 100 0; mkRow 2 101 0]
              ([], [(1%Z, 10000); (2%Z, 10000)]) eq_refl eq_refl)
    as (m & _ & Hm & _ & Hf & Ht & _ & _ & Hw & Ha & Hd & _).
  exists m. repeat split; assumption.
Defined.

(** ** Soundness of the recorded trades *)






Lemma last_idx_iloc b rows r : iloc_last rows = Ok r -> last_idx b rows = idx r.
Proof.
  intro H. destruct (iloc_last_inv rows r H) as [l ->].
  unfold last_idx. rewrite fold_left_app. reflexivity.
Qed.




End BacktesterFacts.

(* ===================================================================== *)
(** * Properties of the frames and of the signal generator *)
(* ===================================================================== *)

Module PandasFacts.
Import Pandas.

Lemma length_map2 {A B C : Type} (f : A -> B -> C) (a : list A) (b : list B) :
  List.length (map2 f a b) = Nat.min (List.length a) (List.length b).
Proof.
  revert b. induction a as [|x a IH]; intros [|y b]; simpl; auto.
Qed.

Lemma nth_true_lt (m : list bool) (i : nat) :
  nth i m false = true -> (i < List.length m)%nat.
Proof.
  intro H. destruct (Nat.lt_ge_cases i (List.length m)) as [Hlt|Hge]; [exact Hlt|].
  rewrite (nth_overflow _ _ Hge) in H. discriminate.
Qed.

Lemma loc_assign_selected (mask : list bool) (c : column) (v : Q) (i : nat) :
  nth i mask false = true -> (i < List.length c)%nat ->
  nth i (loc_assign mask c v) None = Some v.
Proof.
  unfold loc_assign. revert c i.
  induction mask as [|m mask IH]; intros [|x c] [|i] Hm Hc;
    simpl in *; try discriminate; try lia.
  - rewrite Hm. reflexivity.
  - apply IH; [exact Hm|lia].
Qed.

Lemma length_loc_assign (mask : list bool) (c : column) (v : Q) :
  List.length (loc_assign mask c v)
  = Nat.min (List.length mask) (List.length c).
Proof. apply length_map2. Qed.

Lemma lookup_assign_same name c cols : lookup name (assign name c cols) = Some c.
Proof.
  induction cols as [|[n c'] cols IH]; simpl.
  - rewrite String.eqb_refl. reflexivity.
  - destruct (String.eqb name n) eqn:E; simpl; rewrite E; auto.
Qed.

Lemma lookup_assign_other name name' c cols :
  String.eqb name' name = false ->
  lookup name' (assign name c cols) = lookup name' cols.
Proof.
  intro Hne. induction cols as [|[n c'] cols IH]; simpl.
  - rewrite Hne. reflexivity.
  - destruct (String.eqb name n) eqn:E; simpl.
    + apply String.eqb_eq in E. subst n. rewrite Hne. reflexivity.
    + rewrite IH. reflexivity.
Qed.

Lemma getitem_setitem_same df name c :
  getitem (setitem df name c) name = Ok c.
Proof. unfold getitem, setitem. simpl. rewrite lookup_assign_same. reflexivity. Qed.

Lemma getitem_setitem_other df name name' c :
  String.eqb name' name = false ->
  getitem (setitem df name c) name' = getitem df name'.
Proof.
  intro H. unfold getitem, setitem. simpl.
  rewrite (lookup_assign_other _ _ _ _ H). reflexivity.
Qed.

Lemma getitem_length df name c :
  well_formed df -> getitem df name = Ok c ->
  List.length c = List.length (index df).
Proof.
  unfold well_formed, getitem. intros Hwf H.
  destruct (lookup name (columns df)) as [c'|] eqn:E; [|discriminate].
  injection H as ->.
  induction (columns df) as [|[n c0] cols IH]; [discriminate|].
  inversion Hwf as [|? ? Hhd Htl]; subst. simpl in E.
  destruct (String.eqb name n).
  - injection E as ->. exact Hhd.
  - apply IH; assumption.
Qed.

Lemma setitem_well_formed df name c :
  well_formed df -> List.length c = List.length (index df) ->
  well_formed (setitem df name c).
Proof.
  unfold well_formed, setitem. simpl. intros Hwf Hc.
  induction (columns df) as [|[n c0] cols IH]; simpl.
  - constructor; [exact Hc|constructor].
  - inversion Hwf as [|? ? Hhd Htl]; subst.
    destruct (String.eqb name n); constructor; auto.
Qed.

Lemma has_column_iff df name :
  has_column df name = true <-> In name (column_names df).
Proof.
  unfold has_column. rewrite existsb_exists. split.
  - intros (x & Hin & E). apply String.eqb_eq in E. subst. exact Hin.
  - intro H. exists name. split; [exact H|apply String.eqb_refl].
Qed.

Lemma getitem_present df name :
  In name (column_names df) -> exists c, getitem df name = Ok c.
Proof.
  unfold column_names, getitem. intro H.
  induction (columns df) as [|[n c0] cols IH]; [contradiction|].
  simpl. destruct (String.eqb name n) eqn:E; [eauto|].
  apply IH. destruct H as [H|H]; [|exact H].
  simpl in H. subst n. rewrite String.eqb_refl in E. discriminate.
Qed.

End PandasFacts.

Module StrategiesFacts.
Import Pandas PandasFacts Strategies StrategiesSpec.

Lemma indicators_rsi df d : indicators df = Ok d -> getitem df "rsi" = Ok (rsi d).
Proof.
  unfold indicators. intro H.
  destruct (getitem df "rsi") as [c1|]; [|discriminate]. simpl in H.
  destruct (getitem df "rsi_prev") as [c2|]; [|discriminate]. simpl in H.
  destruct (getitem df "fast_ma") as [c3|]; [|discriminate]. simpl in H.
  destruct (getitem df "slow_ma") as [c4|]; [|discriminate]. simpl in H.
  destruct (getitem df "fast_ma_prev") as [c5|]; [|discriminate]. simpl in H.
  destruct (getitem df "slow_ma_prev") as [c6|]; [|discriminate]. simpl in H.
  destruct (getitem df "close") as [c7|]; [|discriminate]. simpl in H.
  injection H as <-. reflexivity.
Qed.

Lemma indicators_setitem_signal df c :
  indicators (setitem df "signal" c) = indicators df.
Proof.
  unfold indicators.
  rewrite !getitem_setitem_other by reflexivity. reflexivity.
Qed.

(** The signal column after the two assignments. *)
Lemma assign_signals_ok df buy sell signal0 :
  getitem df "signal" = Ok signal0 ->
  exists df',
    assign_signals df buy sell = Ok df'
    /\ getitem df' "signal"
       = Ok (loc_assign sell (loc_assign buy signal0 1) (-1))
    /\ index df' = index df.
Proof.
  intro H. unfold assign_signals. rewrite H. simpl.
  rewrite getitem_setitem_same. simpl.
  eexists. split; [reflexivity|]. split; [|reflexivity].
  apply getitem_setitem_same.
Qed.

Ltac mask_length :=
  unfold mask_or, mask_and, gt, lt, ge, le, gt_c, lt_c, le_c;
  rewrite ?length_map2, ?length_map; lia.

Lemma sell_condition_length k d :
  (List.length (sell_condition k d) <= List.length (rsi d))%nat.
Proof. destruct k; simpl; mask_length. Qed.

Lemma trading_sell_condition_length d :
  (List.length (TradingStrategy.sell_condition d) <= List.length (rsi d))%nat.
Proof. unfold TradingStrategy.sell_condition. mask_length. Qed.

(** Where the sell mask is set the signal is -1, whatever the buy mask. *)
Lemma signal_where_sell df d (buy sell : list bool) (i : nat) :
  well_formed df -> indicators df = Ok d ->
  (List.length sell <= List.length (rsi d))%nat ->
  nth i buy false = true -> nth i sell false = true ->
  exists df' signal,
    assign_signals (setitem_scalar df "signal" 0) buy sell = Ok df'
    /\ getitem df' "signal" = Ok signal
    /\ nth i signal None = Some (-1).
Proof.
  intros Hwf Hd Hlen Hbuy Hsell.
  destruct (assign_signals_ok (setitem_scalar df "signal" 0) buy sell
              (repeat (Some 0) (List.length (index df))))
    as (df' & Hdf' & Hsig & _).
  { apply getitem_setitem_same. }
  exists df'. eexists. split; [exact Hdf'|]. split; [exact Hsig|].
  assert (Hi : (i < List.length (index df))%nat).
  { pose proof (nth_true_lt _ _ Hsell) as Hlt.
    rewrite <- (getitem_length df "rsi" (rsi d) Hwf (indicators_rsi df d Hd)).
    lia. }
  apply loc_assign_selected; [exact Hsell|].
  rewrite length_loc_assign, repeat_length.
  pose proof (nth_true_lt _ _ Hbuy). lia.
Qed.

(** C4: on a well-formed frame with its indicator columns, for each of
    the three profiles and for [TradingStrategy], every row on which the
    buy condition and the sell condition are both true gets the signal
    -1: the sell assignment comes second and overwrites the buy. *)
Theorem C4_sell_precedence df d (i : nat) :
  well_formed df -> indicators df = Ok d ->
  (forall self : StrategyProfile,
     nth i (buy_condition (profile self) d) false = true ->
     nth i (sell_condition (profile self) d) false = true ->
     exists df' signal,
       generate_signals self df = Ok df'
       /\ getitem df' "signal" = Ok signal
       /\ nth i signal None = Some (-1))
  /\ (forall config : Config.t,
        nth i (TradingStrategy.buy_condition d) false = true ->
        nth i (TradingStrategy.sell_condition d) false = true ->
        exists df' signal,
          TradingStrategy.generate_signals config df = Ok df'
          /\ getitem df' "signal" = Ok signal
          /\ nth i signal None = Some (-1)).
Proof.
  intros Hwf Hd. split.
  - intros self Hbuy Hsell. unfold generate_signals, setitem_scalar.
    rewrite indicators_setitem_signal, Hd. simpl.
    apply (signal_where_sell df d); auto using sell_condition_length.
  - intros config Hbuy Hsell.
    unfold TradingStrategy.generate_signals, setitem_scalar.
    rewrite indicators_setitem_signal, Hd. simpl.
    apply (signal_where_sell df d); auto using trading_sell_condition_length.
Qed.


(** One row on which both conditions hold, for every profile. *)
Lemma C4_sell_precedence_witness :
  (forall self : StrategyProfile,
     exists df' signal,
       generate_signals self tie_frame = Ok df'
       /\ getitem df' "signal" = Ok signal
       /\ nth 0 signal None = Some (-1))
  /\ (forall config : Config.t,
        exists df' signal,
          TradingStrategy.generate_signals config tie_frame = Ok df'
          /\ getitem df' "signal" = Ok signal
          /\ nth 0 signal None = Some (-1)).
Proof.
  assert (Hwf : well_formed tie_frame) by (repeat constructor).
  destruct (C4_sell_precedence tie_frame tie_indicators 0 Hwf eq_refl)
    as [Hprofile Htrading].
  split.
  - intros [k c]. apply Hprofile; destruct k; reflexivity.
  - intro config. apply Htrading; reflexivity.
Defined.


(** ** Lengths and leading cells of the indicators *)

Lemma length_shift1 (c : column) : List.length (shift1 c) = List.length c.
Proof.
  destruct c as [|x c]; [reflexivity|].
  unfold shift1. cbn [List.length].
  rewrite removelast_firstn_len, length_firstn. cbn [List.length pred]. lia.
Qed.

Lemma shift1_first (c : column) :
  c <> [] -> nth_error (shift1 c) 0 = Some None.
Proof. destruct c; [contradiction|reflexivity]. Qed.

Lemma length_diff1 (c : column) : List.length (diff1 c) = List.length c.
Proof. unfold diff1. rewrite length_map2, length_shift1. apply Nat.min_id. Qed.

Lemma length_rolling_mean_from w recent (c : column) :
  List.length (rolling_mean_from w recent c) = List.length c.
Proof.
  revert recent. induction c as [|x c IH]; intro recent; simpl; auto.
Qed.

Lemma length_sma (close : column) w :
  List.length (Ta.sma_indicator close w) = List.length close.
Proof. apply length_rolling_mean_from. Qed.

Lemma length_ewm_mean_from alpha w seen prev l :
  List.length (ewm_mean_from alpha w seen prev l) = List.length l.
Proof.
  revert seen prev. induction l as [|x l IH]; intros seen prev; simpl; auto.
Qed.

Lemma length_ewm_mean alpha w l :
  List.length (ewm_mean alpha w l) = List.length l.
Proof.
  destruct l; simpl; [reflexivity|]. rewrite length_ewm_mean_from. reflexivity.
Qed.

Lemma length_rsi (close : column) w :
  List.length (Ta.rsi close w) = List.length close.
Proof.
  unfold Ta.rsi. rewrite length_map2, !length_ewm_mean.
  unfold Ta.up_direction, Ta.down_direction.
  rewrite !length_map, length_diff1. lia.
Qed.

Lemma window_mean_short w recent :
  (List.length recent < w)%nat -> window_mean w recent = None.
Proof.
  intro H. unfold window_mean.
  rewrite length_firstn.
  destruct (Nat.eqb_spec (Nat.min w (List.length recent)) w); [lia|reflexivity].
Qed.

Lemma rolling_mean_from_leading w (c : column) :
  forall recent i,
  (i < List.length c)%nat -> (List.length recent + S i < w)%nat ->
  nth_error (rolling_mean_from w recent c) i = Some None.
Proof.
  induction c as [|x c IH]; intros recent i Hi Hw; simpl in Hi; [lia|].
  destruct i as [|i]; simpl.
  - rewrite window_mean_short; [reflexivity|simpl; lia].
  - apply IH; [lia|simpl; lia].
Qed.

Lemma sma_leading (close : column) w i :
  (i < List.length close)%nat -> (S i < Pos.to_nat w)%nat ->
  nth_error (Ta.sma_indicator close w) i = Some None.
Proof.
  intros Hi Hw. apply rolling_mean_from_leading; [exact Hi|simpl; lia].
Qed.

Lemma ewm_mean_from_leading alpha w l :
  forall seen prev i,
  (i < List.length l)%nat -> (S (seen + i) < w)%nat ->
  nth_error (ewm_mean_from alpha w seen prev l) i = Some None.
Proof.
  induction l as [|x l IH]; intros seen prev i Hi Hw; simpl in Hi; [lia|].
  destruct i as [|i]; simpl.
  - destruct (Nat.leb_spec w (S seen)); [lia|reflexivity].
  - apply IH; [lia|lia].
Qed.

Lemma ewm_mean_leading alpha w l i :
  (i < List.length l)%nat -> (S i < w)%nat ->
  nth_error (ewm_mean alpha w l) i = Some None.
Proof.
  intros Hi Hw. destruct l as [|x l]; simpl in Hi; [lia|].
  destruct i as [|i]; simpl.
  - destruct (Nat.leb_spec w 1); [lia|reflexivity].
  - apply ewm_mean_from_leading; [lia|lia].
Qed.

Lemma nth_error_map2 {A B C : Type} (f : A -> B -> C) (a : list A) (b : list B)
      (i : nat) (x : A) (y : B) :
  nth_error a i = Some x -> nth_error b i = Some y ->
  nth_error (map2 f a b) i = Some (f x y).
Proof.
  revert b i. induction a as [|x0 a IH]; intros [|y0 b] [|i] Ha Hb;
    simpl in *; try discriminate.
  - injection Ha as ->. injection Hb as ->. reflexivity.
  - apply IH; assumption.
Qed.

Lemma rsi_leading (close : column) w i :
  (i < List.length close)%nat -> (S i < Pos.to_nat w)%nat ->
  nth_error (Ta.rsi close w) i = Some None.
Proof.
  intros Hi Hw. unfold Ta.rsi.
  rewrite (nth_error_map2 _ _ _ i None None); [reflexivity| |].
  - apply ewm_mean_leading; [|exact Hw].
    unfold Ta.up_direction. rewrite length_map, length_diff1. exact Hi.
  - apply ewm_mean_leading; [|exact Hw].
    unfold Ta.down_direction. rewrite length_map, length_diff1. exact Hi.
Qed.

(** ** Failure and success of [calculate_indicators] *)

Lemma missing_none required df :
  filter (fun col => negb (has_column df col)) required = []
  <-> forall c, In c required -> In c (column_names df).
Proof.
  split.
  - intros H c Hc. apply has_column_iff.
    destruct (has_column df c) eqn:E; [reflexivity|].
    assert (Hin : In c (filter (fun col => negb (has_column df col)) required)).
    { apply filter_In. split; [exact Hc|]. rewrite E. reflexivity. }
    rewrite H in Hin. contradiction.
  - intro H. induction required as [|r required IH]; [reflexivity|].
    simpl. assert (Hr : has_column df r = true).
    { apply has_column_iff, H. left. reflexivity. }
    rewrite Hr. simpl. apply IH. intros c Hc. apply H. right. exact Hc.
Qed.

Lemma rejected_dec required df :
  rejected required df
  \/ (empty df = false
      /\ filter (fun col => negb (has_column df col)) required = []).
Proof.
  unfold rejected. destruct (empty df) eqn:Ee; [left; left; reflexivity|].
  destruct (filter (fun col => negb (has_column df col)) required)
    as [|c rest] eqn:Ef; [right; split; reflexivity|].
  left. right. exists c.
  assert (Hin : In c (filter (fun col => negb (has_column df col)) required)).
  { rewrite Ef. left. reflexivity. }
  apply filter_In in Hin. destruct Hin as [Hin Hc]. split; [exact Hin|].
  intro Habs. apply has_column_iff in Habs. rewrite Habs in Hc. discriminate.
Qed.

Lemma rejected_not_accepted required df :
  rejected required df ->
  empty df = false ->
  filter (fun col => negb (has_column df col)) required = [] -> False.
Proof.
  intros [He|(c & Hc & Hn)] Hempty Hmiss.
  - congruence.
  - apply Hn. apply (proj1 (missing_none required df) Hmiss). exact Hc.
Qed.

Ltac run_frame :=
  repeat first
    [ rewrite getitem_setitem_same
    | rewrite getitem_setitem_other by reflexivity
    | progress cbn [bind] ].

Ltac frame_lengths Hlen :=
  rewrite ?length_shift1, ?length_sma, ?length_rsi; exact Hlen.

(** What the frame built by either [calculate_indicators] satisfies,
    the two methods adding the same columns in a different order. *)
Lemma indicators_added_intro w_rsi w_fast w_slow df df' close :
  well_formed df -> index df <> [] ->
  getitem df "close" = Ok close ->
  index df' = index df ->
  well_formed df' ->
  getitem df' "rsi" = Ok (Ta.rsi close w_rsi) ->
  getitem df' "rsi_prev" = Ok (shift1 (Ta.rsi close w_rsi)) ->
  getitem df' "fast_ma" = Ok (Ta.sma_indicator close w_fast) ->
  getitem df' "slow_ma" = Ok (Ta.sma_indicator close w_slow) ->
  getitem df' "fast_ma_prev" = Ok (shift1 (Ta.sma_indicator close w_fast)) ->
  getitem df' "slow_ma_prev" = Ok (shift1 (Ta.sma_indicator close w_slow)) ->
  (forall name, ~ In name indicator_columns ->
     getitem df' name = getitem df name) ->
  indicators_added w_rsi w_fast w_slow df df'.
Proof.
  intros Hwf Hne Hclose Hidx Hwf' H1 H2 H3 H4 H5 H6 Hother.
  pose proof (getitem_length df "close" close Hwf Hclose) as Hlen.
  assert (Hc : close <> []).
  { intro E. subst close. simpl in Hlen. destruct (index df); [auto|discriminate]. }
  unfold indicators_added. split; [exact Hidx|]. split; [exact Hwf'|].
  split; [|split; [exact Hother|]].
  - intros name Hin. unfold indicator_columns in Hin. simpl in Hin.
    destruct Hin as [<-|[<-|[<-|[<-|[<-|[<-|[]]]]]]];
      eexists; (split; [eassumption|frame_lengths Hlen]).
  - intros i Hi. rewrite <- Hlen in Hi. unfold undefined_at.
    split; [|split; [|split]].
    + intro Hw. eexists. split; [exact H1|]. apply rsi_leading; assumption.
    + intro Hw. eexists. split; [exact H3|]. apply sma_leading; assumption.
    + intro Hw. eexists. split; [exact H4|]. apply sma_leading; assumption.
    + intros ->. split; [|split]; eexists; (split; [eassumption|]);
        apply shift1_first; intro E;
        apply (f_equal (@List.length cell)) in E;
        rewrite ?length_sma, ?length_rsi in E; simpl in E;
        (destruct close; [contradiction|discriminate]).
Qed.

Lemma empty_false_index df : empty df = false -> index df <> [].
Proof. unfold empty. destruct (index df); [discriminate|discriminate]. Qed.


Lemma not_in_eqb (name : string) (l : list string) :
  ~ In name l -> forall n, In n l -> String.eqb name n = false.
Proof.
  intros H n Hn. apply String.eqb_neq. intros ->. contradiction.
Qed.

Ltac run_frame_with H :=
  repeat first
    [ rewrite H
    | rewrite getitem_setitem_same
    | rewrite getitem_setitem_other by reflexivity
    | progress cbn [bind] ].

Ltac added_columns Hwf Hclose :=
  eexists; split; [reflexivity|]; intro Hwf;
  pose proof (getitem_length _ _ _ Hwf Hclose) as Hlen;
  eapply indicators_added_intro;
    [ exact Hwf
    | apply empty_false_index; assumption
    | exact Hclose
    | reflexivity
    | repeat (apply setitem_well_formed; [|frame_lengths Hlen]); exact Hwf
    | run_frame; reflexivity
    | run_frame; reflexivity
    | run_frame; reflexivity
    | run_frame; reflexivity
    | run_frame; reflexivity
    | run_frame; reflexivity
    | let name := fresh "name" in
      let Hn := fresh "Hn" in
      intros name Hn;
      rewrite !getitem_setitem_other
        by (apply (not_in_eqb _ _ Hn); unfold indicator_columns; simpl; auto 10);
      reflexivity ].

Lemma profile_indicators_ok self df :
  empty df = false ->
  filter (fun col => negb (has_column df col)) required_cols = [] ->
  exists df',
    calculate_indicators self df = Ok df'
    /\ (well_formed df ->
        indicators_added 14 (FAST_MA_PERIOD (profile self))
          (SLOW_MA_PERIOD (profile self)) df df').
Proof.
  intros Hempty Hmiss.
  destruct (getitem_present df "close") as [close Hclose].
  { apply (proj1 (missing_none required_cols df) Hmiss). simpl. auto. }
  unfold calculate_indicators. rewrite Hempty, Hmiss.
  run_frame_with Hclose.
  added_columns Hwf Hclose.
Qed.

Lemma trading_indicators_ok config df :
  empty df = false ->
  filter (fun col => negb (has_column df col))
    TradingStrategy.required_columns = [] ->
  exists df',
    TradingStrategy.calculate_indicators config df = Ok df'
    /\ (well_formed df ->
        indicators_added Config.RSI_PERIOD Config.FAST_MA_PERIOD
          Config.SLOW_MA_PERIOD df df').
Proof.
  intros Hempty Hmiss.
  destruct (getitem_present df "close") as [close Hclose].
  { apply (proj1 (missing_none TradingStrategy.required_columns df) Hmiss).
    simpl. auto. }
  unfold TradingStrategy.calculate_indicators. rewrite Hempty, Hmiss.
  run_frame_with Hclose.
  added_columns Hwf Hclose.
Qed.

Lemma profile_indicators_raise self df :
  rejected required_cols df ->
  exists msg, calculate_indicators self df = Raise (ValueError msg).
Proof.
  intro Hrej. unfold calculate_indicators.
  destruct (empty df) eqn:Ee; [eexists; reflexivity|].
  destruct (filter (fun col => negb (has_column df col)) required_cols)
    eqn:Ef; [|eexists; reflexivity].
  exfalso. exact (rejected_not_accepted _ _ Hrej Ee Ef).
Qed.

Lemma trading_indicators_raise config df :
  rejected TradingStrategy.required_columns df ->
  exists msg,
    TradingStrategy.calculate_indicators config df = Raise (ValueError msg).
Proof.
  intro Hrej. unfold TradingStrategy.calculate_indicators.
  destruct (empty df) eqn:Ee; [eexists; reflexivity|].
  destruct (filter (fun col => negb (has_column df col))
              TradingStrategy.required_columns)
    eqn:Ef; [|eexists; reflexivity].
  exfalso. exact (rejected_not_accepted _ _ Hrej Ee Ef).
Qed.



(** Two bars are too few for every window: the call returns, and the
    frame carries NaN in all six indicator columns. *)
Example short_history_is_no_error :
  let df := {| index := [1%Z; 2%Z];
               columns := [("close", [Some 10; Some 11]);
                           ("high", [Some 11; Some 12]);
                           ("low", [Some 9; Some 10])] |} in
  exists df',
    calculate_indicators (mkProfile Balanced Config.default) df = Ok df'
    /\ index df' = index df
    /\ forall name, In name indicator_columns ->
         getitem df' name = Ok [None; None].
Proof.
  eexists. split; [reflexivity|]. split; [reflexivity|].
  intros name Hin. unfold indicator_columns in Hin. simpl in Hin.
  destruct Hin as [<-|[<-|[<-|[<-|[<-|[<-|[]]]]]]]; reflexivity.
Qed.

(** ** The registry *)

Lemma registry_get_known name :
  (exists k, registry_get name STRATEGIES = Some k) <-> In name known_names.
Proof.
  unfold STRATEGIES, known_names. simpl. split.
  - intros [k H].
    destruct (String.eqb_spec name "conservative"); [auto|].
    destruct (String.eqb_spec name "balanced"); [auto|].
    destruct (String.eqb_spec name "aggressive"); [auto|].
    discriminate.
  - intros [<-|[<-|[<-|[]]]]; eexists; reflexivity.
Qed.

(** C8 (as amended): [get_strategy] lower-cases the name first; it
    returns a profile exactly when the lower-cased name is
    ['conservative'], ['balanced'] or ['aggressive'], and for every other
    name it raises a ValueError (the ConfigError of the specification)
    before anything else is computed.  The configuration is stored as it
    is given ([Config()] when none is): its values are not examined, so no
    window or threshold, non-positive or not, makes the selection fail. *)
Theorem C8_strategy_selection (name : string) (config : option Config.t) :
  ((exists sp, get_strategy name config = Ok sp)
     <-> In (lower name) ["conservative"; "balanced"; "aggressive"])
  /\ (In (lower name) ["conservative"; "balanced"; "aggressive"] ->
      exists k,
        registry_get (lower name) STRATEGIES = Some k
        /\ get_strategy name config
           = Ok {| profile := k; config := config_or_default config |})
  /\ (~ In (lower name) ["conservative"; "balanced"; "aggressive"] ->
      exists msg, get_strategy name config = Raise (ValueError msg))
  /\ (forall config', (exists sp, get_strategy name config = Ok sp)
                      <-> (exists sp, get_strategy name config' = Ok sp)).
Proof.
  assert (Hcases : forall c,
            (exists k, registry_get (lower name) STRATEGIES = Some k
                       /\ get_strategy name c
                          = Ok {| profile := k; config := config_or_default c |})
            \/ (registry_get (lower name) STRATEGIES = None
                /\ exists msg, get_strategy name c = Raise (ValueError msg))).
  { intro c. unfold get_strategy.
    destruct (registry_get (lower name) STRATEGIES) as [k|] eqn:E.
    - left. exists k. split; reflexivity.
    - right. split; [reflexivity|]. eexists. reflexivity. }
  assert (Hiff : forall c, (exists sp, get_strategy name c = Ok sp)
                           <-> In (lower name) known_names).
  { intro c. rewrite <- registry_get_known.
    destruct (Hcases c) as [(k & Hk & Hget)|(Hnone & msg & Hget)].
    - split; intros _; eauto.
    - split.
      + intros [sp H]. rewrite Hget in H. discriminate.
      + intros [k H]. rewrite Hnone in H. discriminate. }
  split; [apply Hiff|]. split; [|split].
  - intro Hin. apply registry_get_known in Hin. destruct Hin as [k Hk].
    destruct (Hcases config) as [(k' & Hk' & Hget)|(Hnone & _)].
    + exists k'. split; assumption.
    + rewrite Hnone in Hk. discriminate.
  - intro Hn. destruct (Hcases config) as [(k & Hk & _)|(_ & Hmsg)].
    + exfalso. apply Hn. apply registry_get_known. eauto.
    + exact Hmsg.
  - intro config'. rewrite (Hiff config), (Hiff config'). reflexivity.
Qed.

(** C8 (as stated) fails: the name ['BALANCED'] is none of the three
    names and selects the balanced profile; and a configuration whose
    stop-loss and take-profit percentages and position size are not
    positive is accepted. *)
Lemma C8_counterexample :
  let bad := {| Config.MAX_POSITION_SIZE := 0;
                Config.RISK_PER_TRADE := - (1 # 2);
                Config.STOP_LOSS_PCT := - 1;
                Config.TAKE_PROFIT_PCT := 0 |} in
  ~ In "BALANCED" ["conservative"; "balanced"; "aggressive"]
  /\ get_strategy "BALANCED" None
     = Ok {| profile := Balanced; config := Config.default |}
  /\ get_strategy "balanced" (Some bad)
     = Ok {| profile := Balanced; config := bad |}.
Proof.
  split; [|split].
  - simpl. intros [H|[H|[H|[]]]]; discriminate H.
  - reflexivity.
  - reflexivity.
Qed.

End StrategiesFacts.

(* ===================================================================== *)
(** * Further properties of the trade simulator *)
(* ===================================================================== *)

Module LedgerFacts.
Import Backtester BacktesterSpec BacktesterFacts LedgerSpec.

(** A property kept by the bars of [rows] is kept by the loop over them. *)
Lemma replay_preserves_on (P : LoopState -> Prop) cfg rows :
  (forall st row, In row rows -> P st -> P (step cfg st row)) ->
  forall st, P st -> P (fst (replay cfg rows st)).
Proof.
  induction rows as [|r rows IH]; intros Hstep st H.
  - exact H.
  - rewrite replay_cons. simpl. apply IH.
    + intros s row Hin. apply Hstep. right. exact Hin.
    + apply Hstep; [left; reflexivity|exact H].
Qed.


(** ** Runs without a buy signal *)

Lemma step_without_buy cfg st row :
  position st = None -> signal row <> 1%Z ->
  step cfg st row
  = {| capital := capital st; position := None; trades := trades st;
       portfolio_values := portfolio_values st ++ [capital st] |}.
Proof.
  intros Hp Hs. unfold step. rewrite process_bar_blocks.
  rewrite (check_stops_flat _ _ _ Hp). simpl.
  unfold act_on_signal. rewrite Hp.
  destruct (signal row =? 1)%Z eqn:E; [apply Z.eqb_eq in E; contradiction|].
  destruct (signal row =? -1)%Z; simpl; unfold mark_to_market; simpl;
    rewrite Hp; reflexivity.
Qed.

Lemma replay_without_buy cfg rows :
  Forall (fun r => signal r <> 1%Z) rows ->
  forall st, position st = None ->
  replay cfg rows st
  = ({| capital := capital st; position := None; trades := trades st;
        portfolio_values :=
          portfolio_values st ++ repeat (capital st) (List.length rows) |}, []).
Proof.
  induction rows as [|r rows IH]; intros Hs st Hp.
  - simpl. rewrite app_nil_r. destruct st; simpl in *. subst. reflexivity.
  - inversion Hs as [|? ? Hr Hrest]; subst.
    rewrite replay_cons.
    assert (E : snd (process_bar cfg st r) = []).
    { rewrite process_bar_blocks, (check_stops_flat _ _ _ Hp). simpl.
      unfold act_on_signal. rewrite Hp.
      destruct (signal r =? 1)%Z eqn:E1; [apply Z.eqb_eq in E1; contradiction|].
      destruct (signal r =? -1)%Z; reflexivity. }
    rewrite E, (step_without_buy _ _ _ Hp Hr), IH by (auto; reflexivity).
    simpl. rewrite <- app_assoc. reflexivity.
Qed.

(** X1: when no bar carries the buy signal 1 the simulation records no
    trade and every point of the equity curve, one per bar and labelled
    by the bar's timestamp, is the initial capital. *)
Theorem X1_no_buy_no_trade cfg init rows :
  Forall (fun r => signal r <> 1%Z) rows ->
  _simulate_trades cfg init rows = Ok ([], map (fun r => (idx r, init)) rows)
  /\ simulate_and_measure cfg init rows
     = Ok (neutral_metrics init (map (fun r => (idx r, init)) rows)).
Proof.
  intro Hs.
  assert (E : _simulate_trades cfg init rows
              = Ok ([], map (fun r => (idx r, init)) rows)).
  { unfold _simulate_trades, simulate.
    rewrite (replay_without_buy cfg rows Hs (initial_state init) eq_refl).
    simpl. f_equal. f_equal. clear Hs.
    induction rows as [|r rows IH]; [reflexivity|]. simpl. rewrite IH.
    reflexivity. }
  split; [exact E|]. unfold simulate_and_measure. rewrite E. reflexivity.
Qed.

(** Three bars, a sell signal among them, no buy. *)
Lemma X1_no_buy_no_trade_witness :
  _simulate_trades Config.default 10000
    [mkRow 1 100 0; mkRow 2 90 (-1); mkRow 3 120 0]
  = Ok ([], [(1%Z, 10000); (2%Z, 10000); (3%Z, 10000)]).
Proof.
  apply (X1_no_buy_no_trade Config.default 10000
           [mkRow 1 100 0; mkRow 2 90 (-1); mkRow 3 120 0]).
  repeat constructor; discriminate.
Defined.


(** ** Blocks of a bar *)

Lemma step_by_blocks (P : LoopState -> Prop) cfg st row :
  (P st -> P (fst (check_stops cfg row st))) ->
  (forall s, P s -> P (fst (act_on_signal cfg row s))) ->
  (forall s, P s -> P (mark_to_market row s)) ->
  P st -> P (step cfg st row).
Proof.
  intros H1 H2 H3 H. unfold step. rewrite process_bar_blocks. simpl.
  apply H3, H2, H1, H.
Qed.

(** The outcomes of the signal block, with the size of an entry. *)
Lemma act_on_signal_sized cfg row st :
  act_on_signal cfg row st = (st, [])
  \/ (position st = None /\ signal row = 1%Z
      /\ (0 < position_size cfg (capital st) (close row))%Z
      /\ 0 < risk_per_share cfg (close row)
      /\ inject_Z (position_size cfg (capital st) (close row)) * close row
         <= capital st
      /\ act_on_signal cfg row st
         = (entered st row (position_size cfg (capital st) (close row)),
            [Entry (opened row (position_size cfg (capital st) (close row)))]))
  \/ (exists p, position st = Some p /\ signal row = (-1)%Z
        /\ act_on_signal cfg row st
           = (exited st p (close row)
                (closed_trade p (idx row) (close row) "signal"),
              [Exit (closed_trade p (idx row) (close row) "signal")])).
Proof.
  unfold act_on_signal.
  destruct (signal row =? 1)%Z eqn:E1; destruct (position st) as [p|] eqn:Hp.
  - apply Z.eqb_eq in E1. rewrite E1. simpl. left. reflexivity.
  - destruct (Qlt_bool 0 (risk_per_share cfg (close row))) eqn:Er;
      [|left; reflexivity].
    destruct (0 <? position_size cfg (capital st) (close row))%Z eqn:Es;
      [|left; reflexivity].
    destruct (Qle_bool (inject_Z (position_size cfg (capital st) (close row))
                        * close row) (capital st)) eqn:Ec;
      [|left; reflexivity].
    right. left.
    apply Z.eqb_eq in E1. apply Z.ltb_lt in Es.
    apply Qlt_bool_iff in Er. apply Qle_bool_iff in Ec.
    repeat split; auto.
  - destruct (signal row =? -1)%Z eqn:E2; [|left; reflexivity].
    right. right. exists p. apply Z.eqb_eq in E2. auto.
  - destruct (signal row =? -1)%Z; left; reflexivity.
Qed.

Lemma inject_Z_pos (z : Z) : (0 < z)%Z -> 0 < inject_Z z.
Proof. intro H. unfold Qlt. simpl. lia. Qed.

(** ** Cash never goes negative *)

Lemma exited_solvent st p price tr :
  position st = Some p -> 0 <= price -> solvent st ->
  solvent (exited st p price tr).
Proof.
  intros Hp Hpx (Hc & Hs & Hv). unfold solvent. simpl.
  split; [|split; [intros q Hq; discriminate|exact Hv]].
  pose proof (inject_Z_pos _ (Hs p Hp)) as Hsh.
  assert (0 <= price * inject_Z (Position.shares p)).
  { apply Qmult_le_0_compat; [exact Hpx|apply Qlt_le_weak; exact Hsh]. }
  lra.
Qed.

Lemma step_solvent cfg st row :
  0 <= close row -> solvent st -> solvent (step cfg st row).
Proof.
  intros Hpx. apply step_by_blocks.
  - intro H. destruct (check_stops_cases cfg row st) as [E|(p & Hp & _ & E)];
      simpl in E; rewrite E; simpl; [exact H|].
    apply exited_solvent; assumption.
  - intros s H. destruct (act_on_signal_sized cfg row s)
      as [E|[(Hp & _ & Hsh & _ & Hc & E)|(p & Hp & _ & E)]];
      rewrite E; simpl; [exact H| |apply exited_solvent; assumption].
    destruct H as (Hcap & Hs & Hv). unfold solvent. simpl.
    split; [lra|]. split; [|exact Hv].
    intros q Hq. injection Hq as <-. exact Hsh.
  - intros s (Hc & Hs & Hv). unfold solvent, mark_to_market. simpl.
    split; [exact Hc|]. split; [exact Hs|].
    apply Forall_snoc; [exact Hv|].
    destruct (position s) as [p|] eqn:Hp; [|exact Hc].
    pose proof (inject_Z_pos _ (Hs p eq_refl)) as Hsh.
    assert (0 <= inject_Z (Position.shares p) * close row).
    { apply Qmult_le_0_compat; [apply Qlt_le_weak; exact Hsh|exact Hpx]. }
    lra.
Qed.

Lemma Forall_removelast {A : Type} (P : A -> Prop) (l : list A) :
  Forall P l -> Forall P (removelast l).
Proof.
  induction l as [|a l IH]; intro H; [constructor|].
  inversion H as [|? ? Ha Hl]; subst. simpl.
  destruct l; [constructor|]. constructor; [exact Ha|apply IH, Hl].
Qed.

Lemma Forall_firstn {A : Type} (P : A -> Prop) (l : list A) (k : nat) :
  Forall P l -> Forall P (firstn k l).
Proof.
  revert k. induction l as [|a l IH]; intros [|k] H; simpl; try constructor.
  - inversion H; assumption.
  - apply IH. inversion H; assumption.
Qed.

Lemma replay_solvent cfg init rows :
  0 <= init -> Forall (fun r => 0 <= close r) rows ->
  solvent (fst (replay cfg rows (initial_state init))).
Proof.
  intros Hi Hpx. apply replay_preserves_on.
  - intros st row Hin. apply step_solvent.
    rewrite Forall_forall in Hpx. apply Hpx, Hin.
  - unfold solvent. simpl. split; [exact Hi|]. split; [discriminate|constructor].
Qed.

Lemma iloc_last_In {A : Type} (l : list A) (x : A) :
  iloc_last l = Ok x -> In x l.
Proof.
  intro H. destruct (iloc_last_inv l x H) as [l' ->].
  apply in_or_app. right. left. reflexivity.
Qed.

(** X2: with a non-negative initial capital and non-negative closes the
    cash is never negative: not after any number of bars, where every
    equity point recorded so far is non-negative too, and not after the
    end-of-run close. *)
Theorem X2_cash_never_negative cfg init rows :
  0 <= init -> Forall (fun r => 0 <= close r) rows ->
  (forall k,
     let st := fst (replay cfg (firstn k rows) (initial_state init)) in
     0 <= capital st /\ Forall (fun v => 0 <= v) (portfolio_values st))
  /\ exists final log,
       simulate cfg init rows = Ok (final, log)
       /\ 0 <= capital final
       /\ Forall (fun v => 0 <= v) (portfolio_values final).
Proof.
  intros Hi Hpx. split.
  - intros k st.
    destruct (replay_solvent cfg init (firstn k rows) Hi
                (Forall_firstn _ _ k Hpx)) as (Hc & _ & Hv).
    split; assumption.
  - destruct (simulate_cases cfg init rows) as (final & log & Hsim & Hcase).
    exists final, log. split; [exact Hsim|].
    pose proof (replay_solvent cfg init rows Hi Hpx) as Hsolv.
    set (st := fst (replay cfg rows (initial_state init))) in *.
    destruct (position st) as [p|] eqn:Hp.
    + destruct Hcase as (lr & Hlast & -> & _). simpl.
      assert (Hlr : 0 <= close lr).
      { rewrite Forall_forall in Hpx. apply Hpx, iloc_last_In, Hlast. }
      destruct (exited_solvent st p (close lr)
                  (closed_trade p (idx lr) (close lr) "end_of_backtest")
                  Hp Hlr Hsolv) as (Hc & _ & _).
      simpl in Hc. split; [exact Hc|].
      apply Forall_snoc; [|exact Hc].
      apply Forall_removelast. destruct Hsolv as (_ & _ & Hv). exact Hv.
    + destruct Hcase as [-> _]. destruct Hsolv as (Hc & _ & Hv).
      split; assumption.
Qed.

(** A buy, a stop-loss exit, a second buy closed at the end. *)
Lemma X2_cash_never_negative_witness :
  exists final log,
    simulate Config.default 10000
      [mkRow 1 100 1; mkRow 2 90 1; mkRow 3 91 0] = Ok (final, log)
    /\ 0 <= capital final.
Proof.
  assert (Hi : 0 <= 10000) by (apply Qle_bool_iff; reflexivity).
  assert (Hpx : Forall (fun r => 0 <= close r)
                  [mkRow 1 100 1; mkRow 2 90 1; mkRow 3 91 0]).
  { repeat constructor; apply Qle_bool_iff; reflexivity. }
  destruct (X2_cash_never_negative Config.default 10000 _ Hi Hpx)
    as (_ & final & log & Hsim & Hc & _).
  exists final, log. split; assumption.
Defined.


(** ** Entries stay within the position limit *)






(** ** At most one trade per bar *)





(** ** The ledger is in time order *)

Lemma chronological_snoc ts t :
  chronological ts ->
  (Trade.entry_time t <= Trade.exit_time t)%Z ->
  Forall (fun u => (Trade.exit_time u <= Trade.entry_time t)%Z) ts ->
  chronological (ts ++ [t]).
Proof.
  induction ts as [|u ts IH]; intros Hc Ht Hall; simpl.
  - repeat split; [exact Ht|constructor].
  - destruct Hc as (Hu & Hrest & Hc).
    inversion Hall as [|? ? Hut Hall']; subst.
    split; [exact Hu|]. split.
    + apply Forall_snoc; assumption.
    + apply IH; assumption.
Qed.

Lemma ledger_ordered_later b b' st :
  (b <= b')%Z -> ledger_ordered b st -> ledger_ordered b' st.
Proof.
  intros Hb (Hc & Hx & Hp). split; [exact Hc|]. split.
  - eapply Forall_impl; [|exact Hx]. simpl. intros t Ht. lia.
  - intros p Hpos. destruct (Hp p Hpos) as [He Hall]. split; [lia|exact Hall].
Qed.

Lemma exited_ledger_ordered b st p price reason :
  position st = Some p -> ledger_ordered b st ->
  ledger_ordered b (exited st p price (closed_trade p b price reason)).
Proof.
  intros Hpos (Hc & Hx & Hp). destruct (Hp p Hpos) as [He Hall].
  unfold ledger_ordered. simpl. split; [|split].
  - apply chronological_snoc; simpl; assumption.
  - apply Forall_snoc; [exact Hx|]. simpl. lia.
  - intros q Hq. discriminate.
Qed.

Lemma step_ledger_ordered cfg st row b :
  (b <= idx row)%Z -> ledger_ordered b st ->
  ledger_ordered (idx row) (step cfg st row).
Proof.
  intros Hb H0.
  assert (H : ledger_ordered (idx row) st)
    by (apply (ledger_ordered_later b); assumption).
  clear H0. revert H. apply step_by_blocks.
  - intro H. destruct (check_stops_cases cfg row st) as [E|(p & Hp & _ & E)];
      simpl in E; rewrite E; simpl; [exact H|].
    apply exited_ledger_ordered; assumption.
  - intros s H. destruct (act_on_signal_sized cfg row s)
      as [E|[(Hp & _ & _ & _ & _ & E)|(p & Hp & _ & E)]];
      rewrite E; simpl; [exact H| |apply exited_ledger_ordered; assumption].
    destruct H as (Hc & Hx & _). unfold ledger_ordered. simpl.
    split; [exact Hc|]. split; [exact Hx|].
    intros q Hq. injection Hq as <-. simpl. split; [lia|exact Hx].
  - intros s H. exact H.
Qed.

Lemma replay_ledger_ordered cfg rows :
  forall st b,
  increasing_from b rows -> ledger_ordered b st ->
  ledger_ordered (last_idx b rows) (fst (replay cfg rows st)).
Proof.
  induction rows as [|r rows IH]; intros st b Hinc H.
  - exact H.
  - destruct Hinc as [Hb Hinc]. rewrite replay_cons. simpl.
    apply IH; [exact Hinc|].
    apply (step_ledger_ordered cfg st r b); [lia|exact H].
Qed.

(** X5: on rows with strictly increasing timestamps the ledger is in
    time order: every trade exits no earlier than it enters, and no
    later than any trade recorded after it enters. *)
Theorem X5_ledger_in_time_order cfg init rows :
  increasing rows ->
  exists final log,
    simulate cfg init rows = Ok (final, log)
    /\ chronological (trades final).
Proof.
  intro Hinc.
  destruct (simulate_cases cfg init rows) as (final & log & Hsim & Hcase).
  exists final, log. split; [exact Hsim|].
  assert (Hex : exists b, increasing_from b rows).
  { destruct rows as [|r rest]; [exists 0%Z; exact I|].
    exists (idx r - 1)%Z. split; [lia|exact Hinc]. }
  destruct Hex as [b Hb].
  assert (Hord : ledger_ordered (last_idx b rows)
                   (fst (replay cfg rows (initial_state init)))).
  { apply replay_ledger_ordered; [exact Hb|].
    split; [exact I|]. split; [constructor|discriminate]. }
  set (st := fst (replay cfg rows (initial_state init))) in *.
  destruct (position st) as [p|] eqn:Hp.
  - destruct Hcase as (lr & Hlast & -> & _).
    rewrite (last_idx_iloc b rows lr Hlast) in Hord.
    destruct (exited_ledger_ordered (idx lr) st p (close lr)
                "end_of_backtest" Hp Hord) as [Hc _].
    exact Hc.
  - destruct Hcase as [-> _]. destruct Hord as [Hc _]. exact Hc.
Qed.

(** A stop-loss exit and a new entry on the same bar, closed at the end. *)
Lemma X5_ledger_in_time_order_witness :
  exists final log,
    simulate Config.default 10000
      [mkRow 1 100 1; mkRow 2 90 1; mkRow 3 91 0] = Ok (final, log)
    /\ map (fun t => (Trade.entry_time t, Trade.exit_time t)) (trades final)
       = [(1%Z, 2%Z); (2%Z, 3%Z)]
    /\ chronological (trades final).
Proof.
  destruct (X5_ledger_in_time_order Config.default 10000
              [mkRow 1 100 1; mkRow 2 90 1; mkRow 3 91 0])
    as (final & log & Hsim & Hc).
  - simpl. lia.
  - exists final, log. split; [exact Hsim|]. split; [|exact Hc].
    vm_compute in Hsim. injection Hsim as <- _. reflexivity.
Defined.


(** ** What the exit reason says of the return *)







Section Labels.

Variable cfg : Config.t.
Hypothesis stop_positive : 0 < Config.STOP_LOSS_PCT cfg.
Hypothesis target_positive : 0 < Config.TAKE_PROFIT_PCT cfg.







End Labels.



End LedgerFacts.

(* ===================================================================== *)
(** * Properties of the metrics *)
(* ===================================================================== *)

Module MetricsFacts.
Import Backtester BacktesterSpec BacktesterFacts LedgerSpec.

(** X7: [_calculate_metrics] raises exactly when trades were recorded
    and the equity series is empty, the error being the IndexError of
    [portfolio_value.iloc[-1]]; in every other case it returns. *)
Theorem X7_metrics_raise_iff init ts pv :
  ((exists e, _calculate_metrics init ts pv = Raise e)
     <-> ts <> [] /\ pv = [])
  /\ (forall e, _calculate_metrics init ts pv = Raise e -> e = IndexError).
Proof.
  destruct ts as [|t ts].
  - split.
    + split; [intros [e H]; discriminate H|intros [H _]; contradiction].
    + intros e H. discriminate H.
  - destruct pv as [|v pv].
    + split.
      * split; [intros _; split; [discriminate|reflexivity]|].
        intros _. exists IndexError. reflexivity.
      * intros e H. simpl in H. injection H as <-. reflexivity.
    + destruct (iloc_last_nonempty (v :: pv)) as [x Hx]; [discriminate|].
      split.
      * split; [|intros [_ H]; discriminate H].
        intros [e H]. unfold _calculate_metrics in H. rewrite Hx in H.
        discriminate H.
      * intros e H. unfold _calculate_metrics in H. rewrite Hx in H.
        discriminate H.
Qed.

Lemma metrics_nonempty init t ts pv x :
  iloc_last pv = Ok x ->
  exists m,
    _calculate_metrics init (t :: ts) pv = Ok m
    /\ final_capital m = snd x
    /\ total_return m = snd x - init
    /\ num_trades m = List.length (t :: ts)
    /\ win_rate m
       = inject_Z (Z.of_nat (wins (t :: ts)))
         / inject_Z (Z.of_nat (List.length (t :: ts))) * 100
    /\ avg_return m
       = Qsum (map Trade.return_pct (t :: ts))
         / inject_Z (Z.of_nat (List.length (t :: ts)))
    /\ max_drawdown m
       = np_min (map (fun vm => np_times100 (np_div (fst vm - snd vm) (snd vm)))
                   (combine (map snd pv) (expanding_max (map snd pv)))).
Proof.
  intro Hx. unfold _calculate_metrics. rewrite Hx. simpl.
  eexists. split; [reflexivity|]. repeat split.
Qed.

Lemma inject_nat_nonneg (n : nat) : 0 <= inject_Z (Z.of_nat n).
Proof. unfold Qle. simpl. lia. Qed.

Lemma ratio_bounds (w n : nat) :
  (w <= n)%nat -> (0 < n)%nat ->
  0 <= inject_Z (Z.of_nat w) / inject_Z (Z.of_nat n) * 100
  /\ inject_Z (Z.of_nat w) / inject_Z (Z.of_nat n) * 100 <= 100.
Proof.
  intros Hw Hn.
  assert (Hnq : 0 < inject_Z (Z.of_nat n)) by (unfold Qlt; simpl; lia).
  assert (Hwq : inject_Z (Z.of_nat w) <= inject_Z (Z.of_nat n))
    by (rewrite <- Zle_Qle; lia).
  assert (H0 : 0 <= inject_Z (Z.of_nat w) / inject_Z (Z.of_nat n)).
  { apply Qle_shift_div_l; [exact Hnq|].
    pose proof (inject_nat_nonneg w). lra. }
  assert (H1 : inject_Z (Z.of_nat w) / inject_Z (Z.of_nat n) <= 1).
  { apply Qle_shift_div_r; [exact Hnq|lra]. }
  set (r := inject_Z (Z.of_nat w) / inject_Z (Z.of_nat n)) in *.
  split; lra.
Qed.

(** X8: for a ledger that is not empty and a non-empty equity series the
    metrics report the last equity value as [final_capital], its
    difference to the initial capital as [total_return], and a [win_rate]
    of 100 times the share of trades with [pnl > 0], between 0 and 100. *)
Theorem X8_win_rate_bounds init ts pv :
  ts <> [] -> pv <> [] ->
  exists m x,
    _calculate_metrics init ts pv = Ok m
    /\ iloc_last pv = Ok x
    /\ final_capital m = snd x
    /\ total_return m = snd x - init
    /\ num_trades m = List.length ts
    /\ win_rate m
       = inject_Z (Z.of_nat (List.length
                               (filter (fun t => Qlt_bool 0 (Trade.pnl t)) ts)))
         / inject_Z (Z.of_nat (List.length ts)) * 100
    /\ 0 <= win_rate m /\ win_rate m <= 100.
Proof.
  intros Hts Hpv. destruct ts as [|t ts]; [contradiction|].
  destruct (iloc_last_nonempty pv Hpv) as [x Hx].
  destruct (metrics_nonempty init t ts pv x Hx)
    as (m & Hm & Hf & Hr & Hn & Hw & _).
  exists m, x. split; [exact Hm|]. split; [exact Hx|].
  split; [exact Hf|]. split; [exact Hr|]. split; [exact Hn|].
  split; [exact Hw|]. rewrite Hw. apply ratio_bounds.
  - apply filter_length_le.
  - simpl. lia.
Qed.

(** The two trades of the test of the metrics: one win in two. *)
Lemma X8_win_rate_bounds_witness :
  exists m,
    _calculate_metrics 10000
      [closed_trade {| Position.shares := 10; Position.entry_price := 100;
                       Position.entry_time := 1 |} 2 102 "take_profit";
       closed_trade {| Position.shares := 10; Position.entry_price := 100;
                       Position.entry_time := 1 |} 4 98 "stop_loss"]
      [(1%Z, 10000); (2%Z, 10020); (4%Z, 9980)] = Ok m
    /\ win_rate m == 50 /\ 0 <= win_rate m /\ win_rate m <= 100.
Proof.
  destruct (X8_win_rate_bounds 10000
              [closed_trade {| Position.shares := 10;
                               Position.entry_price := 100;
                               Position.entry_time := 1 |} 2 102 "take_profit";
               closed_trade {| Position.shares := 10;
                               Position.entry_price := 100;
                               Position.entry_time := 1 |} 4 98 "stop_loss"]
              [(1%Z, 10000); (2%Z, 10020); (4%Z, 9980)])
    as (m & x & Hm & _ & _ & _ & _ & Hw & H0 & H100).
  - discriminate.
  - discriminate.
  - exists m. split; [exact Hm|]. split; [|split; assumption].
    rewrite Hw. reflexivity.
Defined.

(** ** Drawdown *)







End MetricsFacts.

(* ===================================================================== *)
(** * Further properties of the signal generator *)
(* ===================================================================== *)

Module SignalFacts.
Import Pandas PandasFacts Strategies StrategiesSpec StrategiesFacts.
Import SignalSpec CurrentSignal.

(** ** Masks, cell by cell *)

Lemma nth_compare (f : cell -> cell -> bool) (a b : column) (i : nat) :
  (forall y, f None y = false) -> (forall x, f x None = false) ->
  nth i (map2 f a b) false = f (nth i a None) (nth i b None).
Proof.
  intros H1 H2. revert b i.
  induction a as [|x a IH]; intros [|y b] [|i]; simpl;
    rewrite ?H1, ?H2; try reflexivity.
  apply IH.
Qed.

Lemma nth_compare_const (f : cell -> cell -> bool) (a : column) (c : Q) (i : nat) :
  (forall y, f None y = false) ->
  nth i (map (fun x => f x (Some c)) a) false = f (nth i a None) (Some c).
Proof.
  intro H1. revert i.
  induction a as [|x a IH]; intros [|i]; simpl; rewrite ?H1; try reflexivity.
  apply IH.
Qed.

Lemma cell_gt_nan_l y : cell_gt None y = false.
Proof. reflexivity. Qed.

Lemma cell_gt_nan_r x : cell_gt x None = false.
Proof. destruct x; reflexivity. Qed.

Lemma cell_ge_nan_l y : cell_ge None y = false.
Proof. reflexivity. Qed.

Lemma cell_ge_nan_r x : cell_ge x None = false.
Proof. destruct x; reflexivity. Qed.

Lemma nth_gt a b i : nth i (gt a b) false = cell_gt (nth i a None) (nth i b None).
Proof. apply nth_compare; [apply cell_gt_nan_l|apply cell_gt_nan_r]. Qed.

Lemma nth_lt a b i : nth i (lt a b) false = cell_lt (nth i a None) (nth i b None).
Proof.
  apply (nth_compare cell_lt); intro x; unfold cell_lt;
    [apply cell_gt_nan_r|apply cell_gt_nan_l].
Qed.

Lemma nth_ge a b i : nth i (ge a b) false = cell_ge (nth i a None) (nth i b None).
Proof. apply nth_compare; [apply cell_ge_nan_l|apply cell_ge_nan_r]. Qed.

Lemma nth_le a b i : nth i (le a b) false = cell_le (nth i a None) (nth i b None).
Proof.
  apply (nth_compare cell_le); intro x; unfold cell_le;
    [apply cell_ge_nan_r|apply cell_ge_nan_l].
Qed.

Lemma nth_gt_c a c i : nth i (gt_c a c) false = cell_gt (nth i a None) (Some c).
Proof. apply (nth_compare_const cell_gt). apply cell_gt_nan_l. Qed.

Lemma nth_lt_c a c i : nth i (lt_c a c) false = cell_lt (nth i a None) (Some c).
Proof.
  apply (nth_compare_const cell_lt). intro y. unfold cell_lt.
  apply cell_gt_nan_r.
Qed.

Lemma nth_le_c a c i : nth i (le_c a c) false = cell_le (nth i a None) (Some c).
Proof.
  apply (nth_compare_const cell_le). intro y. unfold cell_le.
  apply cell_ge_nan_r.
Qed.

Lemma nth_mask_and a b i :
  nth i (mask_and a b) false = nth i a false && nth i b false.
Proof.
  unfold mask_and. revert b i.
  induction a as [|x a IH]; intros [|y b] [|i]; simpl;
    rewrite ?andb_false_r; try reflexivity.
  apply IH.
Qed.

Lemma nth_mask_or a b i :
  List.length a = List.length b ->
  nth i (mask_or a b) false = nth i a false || nth i b false.
Proof.
  unfold mask_or. revert b i.
  induction a as [|x a IH]; intros [|y b] [|i] H; simpl in *;
    try discriminate; try reflexivity.
  apply IH. lia.
Qed.

Ltac mask_lengths Hd :=
  let H1 := fresh in let H2 := fresh in let H3 := fresh in
  let H4 := fresh in let H5 := fresh in let H6 := fresh in
  let H7 := fresh in
  destruct Hd as (H1 & H2 & H3 & H4 & H5 & H6 & H7);
  unfold mask_or, mask_and, gt, lt, ge, le, gt_c, lt_c, le_c;
  unfold column, cell in *;
  repeat first
    [ rewrite length_map2 | rewrite length_map
    | rewrite H1 | rewrite H2 | rewrite H3 | rewrite H4
    | rewrite H5 | rewrite H6 | rewrite H7 | rewrite Nat.min_id ];
  reflexivity.

Ltac mask_cells Hd :=
  repeat first
    [ rewrite nth_mask_and
    | rewrite nth_mask_or by (clear - Hd; mask_lengths Hd)
    | rewrite nth_gt | rewrite nth_lt | rewrite nth_ge | rewrite nth_le
    | rewrite nth_gt_c | rewrite nth_lt_c | rewrite nth_le_c ].

Lemma buy_condition_row k d n i :
  columns_of_length n d ->
  nth i (buy_condition k d) false = buy_row k (row_at d i).
Proof.
  intro Hd. destruct k; unfold buy_condition, buy_row, row_at;
    cbv zeta; mask_cells Hd; reflexivity.
Qed.

Lemma sell_condition_row k d n i :
  columns_of_length n d ->
  nth i (sell_condition k d) false = sell_row k (row_at d i).
Proof.
  intro Hd. destruct k; unfold sell_condition, sell_row, row_at;
    cbv zeta; mask_cells Hd; reflexivity.
Qed.

Lemma buy_condition_length k d n :
  columns_of_length n d -> List.length (buy_condition k d) = n.
Proof. intro Hd. destruct k; unfold buy_condition; cbv zeta; mask_lengths Hd. Qed.

Lemma sell_condition_full_length k d n :
  columns_of_length n d -> List.length (sell_condition k d) = n.
Proof. intro Hd. destruct k; unfold sell_condition; mask_lengths Hd. Qed.


(** ** The signal of a bar is a function of the bar *)

Lemma indicators_fields df d :
  indicators df = Ok d ->
  getitem df "rsi" = Ok (rsi d)
  /\ getitem df "rsi_prev" = Ok (rsi_prev d)
  /\ getitem df "fast_ma" = Ok (fast_ma d)
  /\ getitem df "slow_ma" = Ok (slow_ma d)
  /\ getitem df "fast_ma_prev" = Ok (fast_ma_prev d)
  /\ getitem df "slow_ma_prev" = Ok (slow_ma_prev d)
  /\ getitem df "close" = Ok (close d).
Proof.
  unfold indicators. intro H.
  destruct (getitem df "rsi") as [c1|]; [|discriminate]. simpl in H.
  destruct (getitem df "rsi_prev") as [c2|]; [|discriminate]. simpl in H.
  destruct (getitem df "fast_ma") as [c3|]; [|discriminate]. simpl in H.
  destruct (getitem df "slow_ma") as [c4|]; [|discriminate]. simpl in H.
  destruct (getitem df "fast_ma_prev") as [c5|]; [|discriminate]. simpl in H.
  destruct (getitem df "slow_ma_prev") as [c6|]; [|discriminate]. simpl in H.
  destruct (getitem df "close") as [c7|]; [|discriminate]. simpl in H.
  injection H as <-. simpl. repeat split.
Qed.

Lemma indicators_lengths df d :
  well_formed df -> indicators df = Ok d ->
  columns_of_length (List.length (index df)) d.
Proof.
  intros Hwf Hd.
  destruct (indicators_fields df d Hd) as (H1 & H2 & H3 & H4 & H5 & H6 & H7).
  unfold columns_of_length.
  repeat split; eapply getitem_length; eauto.
Qed.

Lemma loc_assign_cell (mask : list bool) (c : column) (v : Q) (i : nat) x :
  (i < List.length mask)%nat -> nth_error c i = Some x ->
  nth_error (loc_assign mask c v) i
  = Some (if nth i mask false then Some v else x).
Proof.
  intros Hm Hc. unfold loc_assign.
  apply (nth_error_map2 (fun (m : bool) (y : cell) => if m then Some v else y)).
  - apply nth_error_nth'. exact Hm.
  - exact Hc.
Qed.

(** The frame built by the assignments of [generate_signals]. *)
Lemma assign_signals_frame df buy sell :
  assign_signals (setitem_scalar df "signal" 0) buy sell
  = Ok (setitem
          (setitem (setitem_scalar df "signal" 0) "signal"
             (loc_assign buy (repeat (Some 0) (List.length (index df))) 1))
          "signal"
          (loc_assign sell
             (loc_assign buy (repeat (Some 0) (List.length (index df))) 1)
             (-1))).
Proof.
  unfold assign_signals, setitem_scalar.
  rewrite getitem_setitem_same. cbn [bind].
  rewrite getitem_setitem_same. cbn [bind]. reflexivity.
Qed.

Lemma signals_by_row df d k (buy sell : list bool) :
  well_formed df -> indicators df = Ok d ->
  buy = buy_condition k d -> sell = sell_condition k d ->
  exists df' signal,
    assign_signals (setitem_scalar df "signal" 0) buy sell = Ok df'
    /\ index df' = index df
    /\ well_formed df'
    /\ getitem df' "signal" = Ok signal
    /\ List.length signal = List.length (index df)
    /\ (forall name, String.eqb name "signal" = false ->
          getitem df' name = getitem df name)
    /\ (forall i, (i < List.length (index df))%nat ->
          nth_error signal i = Some (Some (signal_row k (row_at d i)))).
Proof.
  intros Hwf Hd -> ->.
  pose proof (indicators_lengths df d Hwf Hd) as Hlen.
  pose proof (buy_condition_length k d _ Hlen) as Hb.
  pose proof (sell_condition_full_length k d _ Hlen) as Hs.
  set (n := List.length (index df)) in *.
  assert (Hl1 : List.length (loc_assign (buy_condition k d) (repeat (Some 0) n) 1)
                = n).
  { rewrite length_loc_assign, repeat_length, Hb. apply Nat.min_id. }
  assert (Hl2 : List.length
                  (loc_assign (sell_condition k d)
                     (loc_assign (buy_condition k d) (repeat (Some 0) n) 1) (-1))
                = n).
  { rewrite length_loc_assign, Hl1, Hs. apply Nat.min_id. }
  eexists. eexists. split; [apply assign_signals_frame|].
  split; [reflexivity|]. split; [|split; [apply getitem_setitem_same|]].
  - repeat (apply setitem_well_formed; [|simpl; fold n; auto]).
    + exact Hwf.
    + apply repeat_length.
  - split; [exact Hl2|]. split.
    + intros name Hn. unfold setitem_scalar.
      rewrite !getitem_setitem_other by exact Hn. reflexivity.
    + intros i Hi. fold n.
      rewrite (loc_assign_cell _ _ _ i
                 (if nth i (buy_condition k d) false then Some 1 else Some 0)).
      * rewrite (sell_condition_row k d n i Hlen),
          (buy_condition_row k d n i Hlen).
        unfold signal_row.
        destruct (sell_row k (row_at d i)); [reflexivity|].
        destruct (buy_row k (row_at d i)); reflexivity.
      * rewrite Hs. exact Hi.
      * rewrite (loc_assign_cell _ _ _ i (Some 0)).
        -- reflexivity.
        -- rewrite Hb. exact Hi.
        -- rewrite nth_error_repeat by exact Hi. reflexivity.
Qed.

(** The signals of the three profiles, bar by bar. *)
Lemma profile_signals_by_row df d :
  well_formed df -> indicators df = Ok d ->
  forall self : StrategyProfile,
    exists df' signal,
      generate_signals self df = Ok df'
      /\ index df' = index df
      /\ getitem df' "signal" = Ok signal
      /\ List.length signal = List.length (index df)
      /\ (forall name, String.eqb name "signal" = false ->
            getitem df' name = getitem df name)
      /\ (forall i, (i < List.length (index df))%nat ->
            nth_error signal i
            = Some (Some (signal_row (profile self) (row_at d i)))).
Proof.
  intros Hwf Hd self. unfold generate_signals.
  assert (E : indicators (setitem_scalar df "signal" 0) = Ok d).
  { unfold setitem_scalar. rewrite indicators_setitem_signal. exact Hd. }
  rewrite E. cbn [bind].
  destruct (signals_by_row df d (profile self) _ _ Hwf Hd eq_refl eq_refl)
    as (df' & sig & H1 & H2 & _ & H4 & H5 & H6 & H7).
  exists df', sig. auto 10.
Qed.

(** X10: on a well-formed frame with its indicator columns each
    [generate_signals] returns the frame with a [signal] column of one
    cell per bar and every other column as it was; the signal of a bar is
    computed from the cells of that bar alone: -1 where its sell rule
    holds, else 1 where its buy rule holds, else 0.  [TradingStrategy]
    follows the rules of the balanced profile. *)
Theorem X10_signal_by_row df d :
  well_formed df -> indicators df = Ok d ->
  (forall self : StrategyProfile,
     exists df' signal,
       generate_signals self df = Ok df'
       /\ index df' = index df
       /\ getitem df' "signal" = Ok signal
       /\ List.length signal = List.length (index df)
       /\ (forall name, String.eqb name "signal" = false ->
             getitem df' name = getitem df name)
       /\ (forall i, (i < List.length (index df))%nat ->
             nth_error signal i
             = Some (Some (signal_row (profile self) (row_at d i)))))
  /\ (forall config : Config.t,
        exists df' signal,
          TradingStrategy.generate_signals config df = Ok df'
          /\ index df' = index df
          /\ getitem df' "signal" = Ok signal
          /\ List.length signal = List.length (index df)
          /\ (forall name, String.eqb name "signal" = false ->
                getitem df' name = getitem df name)
          /\ (forall i, (i < List.length (index df))%nat ->
                nth_error signal i
                = Some (Some (signal_row Balanced (row_at d i))))).
Proof.
  intros Hwf Hd. split.
  - intro self. unfold generate_signals.
    assert (E : indicators (setitem_scalar df "signal" 0) = Ok d).
    { unfold setitem_scalar. rewrite indicators_setitem_signal. exact Hd. }
    rewrite E. cbn [bind].
    destruct (signals_by_row df d (profile self) _ _ Hwf Hd eq_refl eq_refl)
      as (df' & sig & H1 & H2 & _ & H4 & H5 & H6 & H7).
    exists df', sig. auto 10.
  - intro config. unfold TradingStrategy.generate_signals.
    assert (E : indicators (setitem_scalar df "signal" 0) = Ok d).
    { unfold setitem_scalar. rewrite indicators_setitem_signal. exact Hd. }
    rewrite E. cbn [bind].
    destruct (signals_by_row df d Balanced (TradingStrategy.buy_condition d)
                (TradingStrategy.sell_condition d) Hwf Hd eq_refl eq_refl)
      as (df' & sig & H1 & H2 & _ & H4 & H5 & H6 & H7).
    exists df', sig. auto 10.
Qed.

(** The bar on which buy and sell hold together: the signal is -1. *)
Lemma X10_signal_by_row_witness :
  exists df' signal,
    generate_signals (mkProfile Conservative Config.default) tie_frame = Ok df'
    /\ getitem df' "signal" = Ok signal
    /\ nth_error signal 0 = Some (Some (-1)).
Proof.
  assert (Hwf : well_formed tie_frame) by (repeat constructor).
  destruct (X10_signal_by_row tie_frame tie_indicators Hwf eq_refl)
    as [Hprofile _].
  destruct (Hprofile (mkProfile Conservative Config.default))
    as (df' & sig & H1 & _ & H3 & _ & _ & H6).
  exists df', sig. split; [exact H1|]. split; [exact H3|].
  rewrite (H6 0%nat) by (simpl; lia). reflexivity.
Defined.


(** ** Bars without indicators *)

Lemma signal_row_undefined k r :
  row_rsi r = None -> row_slow_ma r = None -> signal_row k r = 0.
Proof.
  destruct r as [a b c d e f g]. simpl. intros -> ->.
  unfold signal_row, sell_row, buy_row. simpl.
  destruct k, c, g; simpl; rewrite ?andb_false_r; reflexivity.
Qed.

Lemma nth_of_nth_error {A : Type} (l : list A) (i : nat) (x d : A) :
  nth_error l i = Some x -> nth i l d = x.
Proof. intro H. apply nth_error_nth. exact H. Qed.

(** X11: a bar whose RSI and slow average are both NaN gets the signal
    0 from every profile and from [TradingStrategy], whatever its other
    cells are. *)
Theorem X11_undefined_bar_holds df d (i : nat) :
  well_formed df -> indicators df = Ok d ->
  nth_error (rsi d) i = Some None -> nth_error (slow_ma d) i = Some None ->
  (forall self : StrategyProfile,
     exists df' signal,
       generate_signals self df = Ok df'
       /\ getitem df' "signal" = Ok signal
       /\ nth_error signal i = Some (Some 0))
  /\ (forall config : Config.t,
        exists df' signal,
          TradingStrategy.generate_signals config df = Ok df'
          /\ getitem df' "signal" = Ok signal
          /\ nth_error signal i = Some (Some 0)).
Proof.
  intros Hwf Hd Hr Hs.
  assert (Hi : (i < List.length (index df))%nat).
  { destruct (indicators_lengths df d Hwf Hd) as (H1 & _).
    rewrite <- H1. apply nth_error_Some. rewrite Hr. discriminate. }
  assert (Hrow : forall k, signal_row k (row_at d i) = 0).
  { intro k. apply signal_row_undefined; simpl.
    - apply (nth_of_nth_error _ _ _ _ Hr).
    - apply (nth_of_nth_error _ _ _ _ Hs). }
  assert (E : indicators (setitem_scalar df "signal" 0) = Ok d).
  { unfold setitem_scalar. rewrite indicators_setitem_signal. exact Hd. }
  split.
  - intro self. unfold generate_signals. rewrite E. cbn [bind].
    destruct (signals_by_row df d (profile self) _ _ Hwf Hd eq_refl eq_refl)
      as (df' & sig & H1 & _ & _ & H4 & _ & _ & H7).
    exists df', sig. split; [exact H1|]. split; [exact H4|].
    rewrite (H7 i Hi), Hrow. reflexivity.
  - intro config. unfold TradingStrategy.generate_signals. rewrite E. cbn [bind].
    destruct (signals_by_row df d Balanced (TradingStrategy.buy_condition d)
                (TradingStrategy.sell_condition d) Hwf Hd eq_refl eq_refl)
      as (df' & sig & H1 & _ & _ & H4 & _ & _ & H7).
    exists df', sig. split; [exact H1|]. split; [exact H4|].
    rewrite (H7 i Hi), Hrow. reflexivity.
Qed.

(** One bar with a close above a fast average and nothing else. *)
Lemma X11_undefined_bar_holds_witness :
  exists df' signal,
    generate_signals (mkProfile Aggressive Config.default)
      {| index := [1%Z];
         columns := [("close", [Some 11]); ("rsi", [None]);
                     ("rsi_prev", [None]); ("fast_ma", [Some 10]);
                     ("slow_ma", [None]); ("fast_ma_prev", [None]);
                     ("slow_ma_prev", [None])] |} = Ok df'
    /\ getitem df' "signal" = Ok signal
    /\ nth_error signal 0 = Some (Some 0).
Proof.
  assert (Hwf : well_formed
                  {| index := [1%Z];
                     columns := [("close", [Some 11]); ("rsi", [None]);
                                 ("rsi_prev", [None]); ("fast_ma", [Some 10]);
                                 ("slow_ma", [None]); ("fast_ma_prev", [None]);
                                 ("slow_ma_prev", [None])] |})
    by (repeat constructor).
  destruct (X11_undefined_bar_holds _
              {| rsi := [None]; rsi_prev := [None]; fast_ma := [Some 10];
                 slow_ma := [None]; fast_ma_prev := [None];
                 slow_ma_prev := [None]; close := [Some 11] |}
              0 Hwf eq_refl eq_refl eq_refl) as [H _].
  exact (H (mkProfile Aggressive Config.default)).
Defined.

(** ** The frame of [calculate_indicators], column by column *)

Lemma profile_indicators_columns self df :
  empty df = false ->
  filter (fun col => negb (has_column df col)) required_cols = [] ->
  exists c df',
    getitem df "close" = Ok c
    /\ calculate_indicators self df = Ok df'
    /\ index df' = index df
    /\ indicators df'
       = Ok (computed_indicators 14 (FAST_MA_PERIOD (profile self))
               (SLOW_MA_PERIOD (profile self)) c).
Proof.
  intros Hempty Hmiss.
  destruct (getitem_present df "close") as [c Hclose].
  { apply (proj1 (missing_none required_cols df) Hmiss). simpl. auto. }
  exists c. unfold calculate_indicators. rewrite Hempty, Hmiss.
  run_frame_with Hclose.
  eexists. split; [reflexivity|]. split; [reflexivity|].
  split; [reflexivity|].
  unfold indicators. run_frame_with Hclose. reflexivity.
Qed.

Lemma trading_indicators_columns config df :
  empty df = false ->
  filter (fun col => negb (has_column df col))
    TradingStrategy.required_columns = [] ->
  exists c df',
    getitem df "close" = Ok c
    /\ TradingStrategy.calculate_indicators config df = Ok df'
    /\ index df' = index df
    /\ indicators df'
       = Ok (computed_indicators Config.RSI_PERIOD Config.FAST_MA_PERIOD
               Config.SLOW_MA_PERIOD c).
Proof.
  intros Hempty Hmiss.
  destruct (getitem_present df "close") as [c Hclose].
  { apply (proj1 (missing_none TradingStrategy.required_columns df) Hmiss).
    simpl. auto. }
  exists c. unfold TradingStrategy.calculate_indicators. rewrite Hempty, Hmiss.
  run_frame_with Hclose.
  eexists. split; [reflexivity|]. split; [reflexivity|].
  split; [reflexivity|].
  unfold indicators. run_frame_with Hclose. reflexivity.
Qed.

(** ** Previous-value columns *)

Lemma nth_error_removelast {A : Type} (l : list A) (i : nat) :
  (S i < List.length l)%nat -> nth_error (removelast l) i = nth_error l i.
Proof.
  revert i. induction l as [|a l IH]; intros i H; [simpl in H; lia|].
  destruct l as [|b l]; [simpl in H; lia|].
  destruct i as [|i]; [reflexivity|].
  change (nth_error (removelast (b :: l)) i = nth_error (b :: l) i).
  apply IH. simpl in *. lia.
Qed.

Lemma shift1_previous (c : column) : previous_of (shift1 c) c.
Proof.
  split; [apply length_shift1|]. split.
  - apply shift1_first.
  - intros i Hi. destruct c as [|x c]; [simpl in Hi; lia|].
    change (nth_error (removelast (x :: c)) i = nth_error (x :: c) i).
    apply nth_error_removelast. exact Hi.
Qed.

Lemma computed_previous_columns w1 w2 w3 c df :
  indicators df = Ok (computed_indicators w1 w2 w3 c) -> previous_columns df.
Proof.
  intro Hd.
  destruct (indicators_fields df _ Hd) as (H1 & H2 & H3 & H4 & H5 & H6 & _).
  simpl in *. unfold previous_columns.
  eexists _, _, _, _, _, _.
  repeat (split; [eassumption|]).
  repeat split; apply shift1_previous.
Qed.

(** X12: in the frame returned by either [calculate_indicators] the
    columns [rsi_prev], [fast_ma_prev] and [slow_ma_prev] are [rsi],
    [fast_ma] and [slow_ma] moved down by one bar: NaN on the first bar
    and the value of the previous bar on every other. *)
Theorem X12_previous_columns (self : StrategyProfile) (config : Config.t)
        (df : DataFrame) :
  (forall df', calculate_indicators self df = Ok df' -> previous_columns df')
  /\ (forall df',
        TradingStrategy.calculate_indicators config df = Ok df' ->
        previous_columns df').
Proof.
  split; intros df' Hok.
  - destruct (rejected_dec required_cols df) as [Hrej|[He Hm]].
    + destruct (profile_indicators_raise self df Hrej) as [msg Hmsg].
      rewrite Hmsg in Hok. discriminate.
    + destruct (profile_indicators_columns self df He Hm)
        as (c & df1 & _ & Hcalc & _ & Hd).
      rewrite Hcalc in Hok. injection Hok as <-.
      exact (computed_previous_columns _ _ _ _ _ Hd).
  - destruct (rejected_dec TradingStrategy.required_columns df)
      as [Hrej|[He Hm]].
    + destruct (trading_indicators_raise config df Hrej) as [msg Hmsg].
      rewrite Hmsg in Hok. discriminate.
    + destruct (trading_indicators_columns config df He Hm)
        as (c & df1 & _ & Hcalc & _ & Hd).
      rewrite Hcalc in Hok. injection Hok as <-.
      exact (computed_previous_columns _ _ _ _ _ Hd).
Qed.


(** ** [analyze]: indicators, then signals *)

Lemma generate_signals_returns self df d :
  indicators df = Ok d -> exists df', generate_signals self df = Ok df'.
Proof.
  intro Hd. unfold generate_signals.
  assert (E : indicators (setitem_scalar df "signal" 0) = Ok d).
  { unfold setitem_scalar. rewrite indicators_setitem_signal. exact Hd. }
  rewrite E. cbn [bind]. eexists. apply assign_signals_frame.
Qed.

Lemma trading_generate_signals_returns config df d :
  indicators df = Ok d ->
  exists df', TradingStrategy.generate_signals config df = Ok df'.
Proof.
  intro Hd. unfold TradingStrategy.generate_signals.
  assert (E : indicators (setitem_scalar df "signal" 0) = Ok d).
  { unfold setitem_scalar. rewrite indicators_setitem_signal. exact Hd. }
  rewrite E. cbn [bind]. eexists. apply assign_signals_frame.
Qed.

(** X13: each [analyze] raises exactly when the frame is empty or lacks
    a required column, a ValueError of [calculate_indicators]; generating
    the signals adds no failure of its own. *)
Theorem X13_analyze_raises_iff (self : StrategyProfile) (config : Config.t)
        (df : DataFrame) :
  (((exists e, analyze self df = Raise e) <-> rejected required_cols df)
   /\ (forall e, analyze self df = Raise e ->
         calculate_indicators self df = Raise e
         /\ exists msg, e = ValueError msg))
  /\ (((exists e, TradingStrategy.analyze config df = Raise e)
         <-> rejected TradingStrategy.required_columns df)
      /\ (forall e, TradingStrategy.analyze config df = Raise e ->
            TradingStrategy.calculate_indicators config df = Raise e
            /\ exists msg, e = ValueError msg)).
Proof.
  split.
  - unfold analyze.
    destruct (rejected_dec required_cols df) as [Hrej|[He Hm]].
    + destruct (profile_indicators_raise self df Hrej) as [msg Hmsg].
      rewrite Hmsg. simpl. split.
      * split; [intros _; exact Hrej|intros _; eexists; reflexivity].
      * intros e H. injection H as <-. split; [reflexivity|eauto].
    + destruct (profile_indicators_columns self df He Hm)
        as (c & df' & _ & Hcalc & _ & Hd).
      destruct (generate_signals_returns self df' _ Hd) as [df1 Hgen].
      rewrite Hcalc. cbn [bind]. rewrite Hgen. split.
      * split; [intros [e H]; discriminate H|].
        intro Hrej. exfalso. exact (rejected_not_accepted _ _ Hrej He Hm).
      * intros e H. discriminate H.
  - unfold TradingStrategy.analyze.
    destruct (rejected_dec TradingStrategy.required_columns df)
      as [Hrej|[He Hm]].
    + destruct (trading_indicators_raise config df Hrej) as [msg Hmsg].
      rewrite Hmsg. simpl. split.
      * split; [intros _; exact Hrej|intros _; eexists; reflexivity].
      * intros e H. injection H as <-. split; [reflexivity|eauto].
    + destruct (trading_indicators_columns config df He Hm)
        as (c & df' & _ & Hcalc & _ & Hd).
      destruct (trading_generate_signals_returns config df' _ Hd) as [df1 Hgen].
      rewrite Hcalc. cbn [bind]. rewrite Hgen. split.
      * split; [intros [e H]; discriminate H|].
        intro Hrej. exfalso. exact (rejected_not_accepted _ _ Hrej He Hm).
      * intros e H. discriminate H.
Qed.

Lemma not_rejected_accepted required df :
  ~ rejected required df ->
  empty df = false
  /\ filter (fun col => negb (has_column df col)) required = [].
Proof.
  intro H. destruct (rejected_dec required df) as [Hrej|Hacc];
    [contradiction|exact Hacc].
Qed.

(** The signals of the bars before the RSI window is full. *)
Lemma warm_up_signals df' c k (w_fast w_slow : positive) buy sell :
  well_formed df' -> List.length c = List.length (index df') ->
  indicators df' = Ok (computed_indicators 14 w_fast w_slow c) ->
  (14 <= Pos.to_nat w_slow)%nat ->
  buy = buy_condition k (computed_indicators 14 w_fast w_slow c) ->
  sell = sell_condition k (computed_indicators 14 w_fast w_slow c) ->
  exists df1 signal,
    assign_signals (setitem_scalar df' "signal" 0) buy sell = Ok df1
    /\ index df1 = index df'
    /\ well_formed df1
    /\ getitem df1 "signal" = Ok signal
    /\ getitem df1 "close" = Ok c
    /\ List.length signal = List.length (index df')
    /\ (forall i, (i < List.length (index df'))%nat ->
          exists v, nth_error signal i = Some (Some v)
                    /\ (v = -1 \/ v = 0 \/ v = 1))
    /\ (forall i, (i < List.length (index df'))%nat -> (S i < 14)%nat ->
          nth_error signal i = Some (Some 0))
    /\ (forall name, String.eqb name "signal" = false ->
          getitem df1 name = getitem df' name).
Proof.
  intros Hwf Hlen Hd Hslow Hbuy Hsell.
  destruct (signals_by_row df' _ k buy sell Hwf Hd Hbuy Hsell)
    as (df1 & sig & H1 & H2 & H3 & H4 & H5 & H6 & H7).
  exists df1, sig. split; [exact H1|]. split; [exact H2|].
  split; [exact H3|]. split; [exact H4|].
  split; [|split; [exact H5|split; [|split; [|exact H6]]]].
  - rewrite H6 by reflexivity.
    destruct (indicators_fields df' _ Hd) as (_ & _ & _ & _ & _ & _ & Hc).
    exact Hc.
  - intros i Hi. rewrite (H7 i Hi). eexists. split; [reflexivity|].
    unfold signal_row.
    destruct (sell_row k _); [auto|]. destruct (buy_row k _); auto.
  - intros i Hi Hw. rewrite (H7 i Hi).
    rewrite signal_row_undefined; [reflexivity| |]; simpl.
    + apply nth_of_nth_error. apply rsi_leading; [rewrite Hlen; exact Hi|].
      change (Pos.to_nat 14) with 14%nat. exact Hw.
    + apply nth_of_nth_error.
      apply sma_leading; [rewrite Hlen; exact Hi|lia].
Qed.

(** X14: on a well-formed frame that is accepted, [analyze] returns the
    frame with a signal of -1, 0 or 1 on every bar, and the signal 0 on
    each of the first 13 bars, where the RSI of 14 bars is not defined
    yet; so for every profile and for [TradingStrategy]. *)
Theorem X14_analyze_warm_up (self : StrategyProfile) (config : Config.t)
        (df : DataFrame) :
  well_formed df ->
  (~ rejected required_cols df ->
   exists df1 signal,
     analyze self df = Ok df1
     /\ index df1 = index df
     /\ getitem df1 "signal" = Ok signal
     /\ List.length signal = List.length (index df)
     /\ (forall i, (i < List.length (index df))%nat ->
           exists v, nth_error signal i = Some (Some v)
                     /\ (v = -1 \/ v = 0 \/ v = 1))
     /\ (forall i, (i < List.length (index df))%nat -> (i < 13)%nat ->
           nth_error signal i = Some (Some 0)))
  /\ (~ rejected TradingStrategy.required_columns df ->
      exists df1 signal,
        TradingStrategy.analyze config df = Ok df1
        /\ index df1 = index df
        /\ getitem df1 "signal" = Ok signal
        /\ List.length signal = List.length (index df)
        /\ (forall i, (i < List.length (index df))%nat ->
              exists v, nth_error signal i = Some (Some v)
                        /\ (v = -1 \/ v = 0 \/ v = 1))
        /\ (forall i, (i < List.length (index df))%nat -> (i < 13)%nat ->
              nth_error signal i = Some (Some 0))).
Proof.
  intro Hwf. split; intro Hacc.
  - destruct (not_rejected_accepted _ _ Hacc) as [He Hm].
    destruct (profile_indicators_columns self df He Hm)
      as (c & df' & Hc & Hcalc & Hidx & Hd).
    destruct (profile_indicators_ok self df He Hm) as (df2 & Hcalc2 & Hadd).
    rewrite Hcalc in Hcalc2. injection Hcalc2 as <-.
    destruct (Hadd Hwf) as (_ & Hwf' & _).
    assert (Hlen : List.length c = List.length (index df'))
      by (rewrite Hidx; apply (getitem_length df "close" c Hwf Hc)).
    assert (Hslow : (14 <= Pos.to_nat (SLOW_MA_PERIOD (profile self)))%nat)
      by (destruct (profile self); simpl; lia).
    destruct (warm_up_signals df' c (profile self) _ _ _ _ Hwf' Hlen Hd Hslow
                eq_refl eq_refl)
      as (df1 & sig & H1 & H2 & _ & H4 & _ & H5 & H6 & H7 & _).
    exists df1, sig. unfold analyze. rewrite Hcalc. cbn [bind].
    unfold generate_signals.
    assert (E : indicators (setitem_scalar df' "signal" 0)
                = Ok (computed_indicators 14 (FAST_MA_PERIOD (profile self))
                        (SLOW_MA_PERIOD (profile self)) c)).
    { unfold setitem_scalar. rewrite indicators_setitem_signal. exact Hd. }
    rewrite E. cbn [bind]. rewrite <- Hidx.
    split; [exact H1|]. split; [exact H2|]. split; [exact H4|].
    split; [exact H5|]. split; [exact H6|].
    intros i Hi Hw. apply H7; [exact Hi|lia].
  - destruct (not_rejected_accepted _ _ Hacc) as [He Hm].
    destruct (trading_indicators_columns config df He Hm)
      as (c & df' & Hc & Hcalc & Hidx & Hd).
    destruct (trading_indicators_ok config df He Hm) as (df2 & Hcalc2 & Hadd).
    rewrite Hcalc in Hcalc2. injection Hcalc2 as <-.
    destruct (Hadd Hwf) as (_ & Hwf' & _).
    assert (Hlen : List.length c = List.length (index df'))
      by (rewrite Hidx; apply (getitem_length df "close" c Hwf Hc)).
    assert (Hslow : (14 <= Pos.to_nat Config.SLOW_MA_PERIOD)%nat)
      by (unfold Config.SLOW_MA_PERIOD; lia).
    destruct (warm_up_signals df' c Balanced Config.FAST_MA_PERIOD
                Config.SLOW_MA_PERIOD
                (TradingStrategy.buy_condition
                   (computed_indicators Config.RSI_PERIOD Config.FAST_MA_PERIOD
                      Config.SLOW_MA_PERIOD c))
                (TradingStrategy.sell_condition
                   (computed_indicators Config.RSI_PERIOD Config.FAST_MA_PERIOD
                      Config.SLOW_MA_PERIOD c))
                Hwf' Hlen Hd Hslow eq_refl eq_refl)
      as (df1 & sig & H1 & H2 & _ & H4 & _ & H5 & H6 & H7 & _).
    exists df1, sig. unfold TradingStrategy.analyze. rewrite Hcalc. cbn [bind].
    unfold TradingStrategy.generate_signals.
    assert (E : indicators (setitem_scalar df' "signal" 0)
                = Ok (computed_indicators Config.RSI_PERIOD Config.FAST_MA_PERIOD
                        Config.SLOW_MA_PERIOD c)).
    { unfold setitem_scalar. rewrite indicators_setitem_signal. exact Hd. }
    rewrite E. cbn [bind]. rewrite <- Hidx.
    split; [exact H1|]. split; [exact H2|]. split; [exact H4|].
    split; [exact H5|]. split; [exact H6|].
    intros i Hi Hw. apply H7; [exact Hi|lia].
Qed.


Lemma two_bars_accepted required :
  (forall c, In c required ->
     In c ["open"; "high"; "low"; "close"; "volume"]) ->
  ~ rejected required two_bars.
Proof.
  intros Hreq [H|(c & Hc & Hn)]; [discriminate H|].
  apply Hn. exact (Hreq c Hc).
Qed.

(** Two bars: both are within the warm-up and carry the signal 0. *)
Lemma X14_analyze_warm_up_witness :
  exists df1 signal,
    analyze (mkProfile Balanced Config.default) two_bars = Ok df1
    /\ getitem df1 "signal" = Ok signal
    /\ nth_error signal 0 = Some (Some 0)
    /\ nth_error signal 1 = Some (Some 0).
Proof.
  assert (Hwf : well_formed two_bars) by (repeat constructor).
  destruct (X14_analyze_warm_up (mkProfile Balanced Config.default)
              Config.default two_bars Hwf) as [Hprofile _].
  destruct Hprofile as (df1 & sig & H1 & _ & H3 & _ & _ & H6).
  - apply two_bars_accepted. simpl. intros c [<-|[<-|[<-|[]]]]; auto 6.
  - exists df1, sig. split; [exact H1|]. split; [exact H3|].
    split; apply H6; simpl; lia.
Defined.

(** ** The sell rules nest *)

Lemma cell_gt_weaken x (a b : Q) :
  b <= a -> cell_gt x (Some a) = true -> cell_gt x (Some b) = true.
Proof.
  destruct x as [v|]; simpl; [|discriminate]. intros Hab H.
  unfold Qlt_bool in *. apply negb_true_iff in H. apply negb_true_iff.
  destruct (Qle_bool v b) eqn:E; [|reflexivity].
  apply Qle_bool_iff in E.
  assert (Hva : v <= a) by (apply Qle_trans with b; assumption).
  apply Qle_bool_iff in Hva. congruence.
Qed.

Lemma sell_row_nested r :
  (sell_row Conservative r = true -> sell_row Balanced r = true)
  /\ (sell_row Balanced r = true -> sell_row Aggressive r = true).
Proof.
  unfold sell_row. simpl. split; intro H.
  - apply orb_true_iff in H. apply orb_true_iff.
    destruct H as [H|H]; [left|right; exact H].
    apply (cell_gt_weaken _ 75 70); [|exact H]. apply Qle_bool_iff. reflexivity.
  - apply orb_true_iff in H. apply orb_true_iff. left. apply orb_true_iff.
    destruct H as [H|H]; [left|right; exact H].
    apply (cell_gt_weaken _ 70 65); [|exact H]. apply Qle_bool_iff. reflexivity.
Qed.

Lemma signal_row_sell k r : signal_row k r = -1 <-> sell_row k r = true.
Proof.
  unfold signal_row. destruct (sell_row k r).
  - split; reflexivity.
  - destruct (buy_row k r); split; intro H; discriminate H.
Qed.

(** X15: on the same indicator columns the sell rules nest: a bar that
    gets -1 from the conservative profile gets -1 from the balanced one,
    and a bar that gets -1 from the balanced profile gets -1 from the
    aggressive one. *)
Theorem X15_sell_signals_nest df d (c1 c2 c3 : Config.t) df1 df2 df3 s1 s2 s3 :
  well_formed df -> indicators df = Ok d ->
  generate_signals (mkProfile Conservative c1) df = Ok df1 ->
  generate_signals (mkProfile Balanced c2) df = Ok df2 ->
  generate_signals (mkProfile Aggressive c3) df = Ok df3 ->
  getitem df1 "signal" = Ok s1 -> getitem df2 "signal" = Ok s2 ->
  getitem df3 "signal" = Ok s3 ->
  forall i,
    (nth_error s1 i = Some (Some (-1)) -> nth_error s2 i = Some (Some (-1)))
    /\ (nth_error s2 i = Some (Some (-1)) -> nth_error s3 i = Some (Some (-1))).
Proof.
  intros Hwf Hd G1 G2 G3 S1 S2 S3 i.
  pose proof (profile_signals_by_row df d Hwf Hd) as Hall.
  destruct (Hall (mkProfile Conservative c1))
    as (e1 & t1 & E1 & _ & T1 & L1 & _ & R1).
  destruct (Hall (mkProfile Balanced c2))
    as (e2 & t2 & E2 & _ & T2 & L2 & _ & R2).
  destruct (Hall (mkProfile Aggressive c3))
    as (e3 & t3 & E3 & _ & T3 & L3 & _ & R3).
  rewrite G1 in E1. injection E1 as <-. rewrite S1 in T1. injection T1 as <-.
  rewrite G2 in E2. injection E2 as <-. rewrite S2 in T2. injection T2 as <-.
  rewrite G3 in E3. injection E3 as <-. rewrite S3 in T3. injection T3 as <-.
  simpl in R1, R2, R3.
  destruct (sell_row_nested (row_at d i)) as [N12 N23].
  split; intro H.
  - assert (Hi : (i < List.length (index df))%nat).
    { rewrite <- L1. apply nth_error_Some. rewrite H. discriminate. }
    rewrite (R1 i Hi) in H. injection H as H.
    rewrite (R2 i Hi). do 2 f_equal.
    apply signal_row_sell, N12, signal_row_sell. exact H.
  - assert (Hi : (i < List.length (index df))%nat).
    { rewrite <- L2. apply nth_error_Some. rewrite H. discriminate. }
    rewrite (R2 i Hi) in H. injection H as H.
    rewrite (R3 i Hi). do 2 f_equal.
    apply signal_row_sell, N23, signal_row_sell. exact H.
Qed.


(** The bar of [tie_frame] gets -1 from all three profiles. *)
Lemma X15_sell_signals_nest_witness :
  exists df1 df3 s1 s3,
    generate_signals (mkProfile Conservative Config.default) tie_frame = Ok df1
    /\ generate_signals (mkProfile Aggressive Config.default) tie_frame = Ok df3
    /\ getitem df1 "signal" = Ok s1 /\ getitem df3 "signal" = Ok s3
    /\ nth_error s1 0 = Some (Some (-1))
    /\ nth_error s3 0 = Some (Some (-1)).
Proof.
  assert (Hwf : well_formed tie_frame) by (repeat constructor).
  destruct (generate_signals (mkProfile Conservative Config.default) tie_frame)
    as [df1|] eqn:G1; [|discriminate G1].
  destruct (generate_signals (mkProfile Balanced Config.default) tie_frame)
    as [df2|] eqn:G2; [|discriminate G2].
  destruct (generate_signals (mkProfile Aggressive Config.default) tie_frame)
    as [df3|] eqn:G3; [|discriminate G3].
  destruct (getitem df1 "signal") as [s1|] eqn:S1;
    [|vm_compute in G1; injection G1 as <-; discriminate S1].
  destruct (getitem df2 "signal") as [s2|] eqn:S2;
    [|vm_compute in G2; injection G2 as <-; discriminate S2].
  destruct (getitem df3 "signal") as [s3|] eqn:S3;
    [|vm_compute in G3; injection G3 as <-; discriminate S3].
  destruct (X15_sell_signals_nest tie_frame tie_indicators
              Config.default Config.default Config.default
              df1 df2 df3 s1 s2 s3 Hwf eq_refl G1 G2 G3 S1 S2 S3 0)
    as [H12 H23].
  assert (H1 : nth_error s1 0 = Some (Some (-1))).
  { vm_compute in G1. injection G1 as <-. vm_compute in S1.
    injection S1 as <-. reflexivity. }
  exists df1, df3, s1, s3. repeat split; auto.
Defined.

(** ** Names of any case *)

Lemma lower_ascii_idempotent c : lower_ascii (lower_ascii c) = lower_ascii c.
Proof.
  destruct c as [[] [] [] [] [] [] [] []]; reflexivity.
Qed.

Lemma lower_idempotent name : lower (lower name) = lower name.
Proof.
  induction name as [|c name IH]; [reflexivity|].
  simpl. rewrite lower_ascii_idempotent, IH. reflexivity.
Qed.

(** X16: [get_strategy] does not depend on the case of the name: two
    names with the same lower-case form give the same result, success or
    error with its message, and so do a name and its lower-case form. *)
Theorem X16_selection_ignores_case (name name' : string)
        (config : option Config.t) :
  (lower name = lower name' ->
   get_strategy name config = get_strategy name' config)
  /\ get_strategy (lower name) config = get_strategy name config.
Proof.
  split.
  - intro H. unfold get_strategy. rewrite H. reflexivity.
  - unfold get_strategy. rewrite lower_idempotent. reflexivity.
Qed.


(** A name in capitals and the same name capitalised. *)
Lemma X16_selection_ignores_case_witness :
  get_strategy "AGGRESSIVE" None = get_strategy "Aggressive" None
  /\ get_strategy "AGGRESSIVE" None
     = Ok {| profile := Aggressive; config := Config.default |}.
Proof.
  split.
  - apply (proj1 (X16_selection_ignores_case "AGGRESSIVE" "Aggressive" None)).
    reflexivity.
  - reflexivity.
Defined.

(** ** The current signal of a profile *)



Lemma current_signal_usable self df position s c r :
  empty df = false ->
  filter (fun col => negb (has_column df col)) signal_cols = [] ->
  last_cell df "signal" = Ok (Some s) ->
  last_cell df "close" = Ok c -> last_cell df "rsi" = Ok r ->
  get_current_signal self df position
  = if live_position position then RaisesAttributeError "STOP_LOSS"
    else if (Backtester.int s =? 1)%Z then
      Returns {| action := "buy"; action_reason := BuySignalRsi r;
                 action_price := Some c |}
    else if (Backtester.int s =? -1)%Z then
      Returns {| action := "sell"; action_reason := SellSignalRsi r;
                 action_price := Some c |}
    else
      Returns {| action := "hold"; action_reason := NoClearSignal;
                 action_price := Some c |}.
Proof.
  intros He Hm Hs Hc Hr. unfold get_current_signal, signal_cols in *.
  rewrite He, Hm, Hs, Hc, Hr. reflexivity.
Qed.

(** X18: with a position of positive quantity and non-zero entry price
    [StrategyProfile.get_current_signal] never returns on a frame whose
    last bar has a signal: the stop-loss test reads [config.STOP_LOSS],
    an attribute [Config] does not have, and raises AttributeError,
    before the signal of the bar is looked at. *)
Theorem X18_current_signal_live_position (self : StrategyProfile)
        (df : DataFrame) (d : position_dict) (quantity entry_price s : Q)
        (c r : cell) :
  ~ rejected ["signal"; "close"; "rsi"] df ->
  last_cell df "signal" = Ok (Some s) ->
  last_cell df "close" = Ok c -> last_cell df "rsi" = Ok r ->
  dict_get "quantity" d = Some quantity -> 0 < quantity ->
  dict_get "entry_price" d = Some entry_price -> ~ entry_price == 0 ->
  get_current_signal self df (Some d) = RaisesAttributeError "STOP_LOSS".
Proof.
  intros Hacc Hs Hc Hr Hq Hqpos He Hne.
  destruct (not_rejected_accepted _ _ Hacc) as [Hempty Hmiss].
  rewrite (current_signal_usable self df (Some d) s c r Hempty Hmiss Hs Hc Hr).
  assert (Hlive : live_position (Some d) = true).
  { destruct d as [|kv d]; [discriminate Hq|].
    change (live_position (Some (kv :: d)))
      with (Qlt_bool 0 (match dict_get "quantity" (kv :: d) with
                        | Some q => q
                        | None => 0
                        end)
            && match dict_get "entry_price" (kv :: d) with
               | Some e => negb (Qeq_bool e 0)
               | None => false
               end).
    rewrite Hq, He. apply andb_true_iff. split.
    - apply BacktesterFacts.Qlt_bool_iff. exact Hqpos.
    - apply negb_true_iff. destruct (Qeq_bool entry_price 0) eqn:E;
        [|reflexivity].
      apply Qeq_bool_iff in E. contradiction. }
  rewrite Hlive. reflexivity.
Qed.

(** The bar of [tie_frame] with its signal column, and five shares held
    from an entry at 10. *)
Lemma X18_current_signal_live_position_witness :
  get_current_signal (mkProfile Balanced Config.default)
    (setitem tie_frame "signal" [Some (-1)])
    (Some [("entry_price", 10); ("quantity", 5)])
  = RaisesAttributeError "STOP_LOSS".
Proof.
  apply (X18_current_signal_live_position (mkProfile Balanced Config.default)
           (setitem tie_frame "signal" [Some (-1)])
           [("entry_price", 10); ("quantity", 5)] 5 10 (-1)
           (Some 11) (Some 80)); try reflexivity.
  - intros [H|(c & Hc & Hn)]; [discriminate H|].
    apply Hn. simpl in *. destruct Hc as [<-|[<-|[<-|[]]]]; auto 10.
  - intro H. discriminate H.
Defined.

(** X19: without such a position [StrategyProfile.get_current_signal]
    returns the action of the last bar's signal, [buy] for 1, [sell] for
    -1 and [hold] for anything else, with the last close as its price. *)
Theorem X19_current_signal_by_last_bar (self : StrategyProfile)
        (df : DataFrame) (position : option position_dict) (s : Q) (c r : cell) :
  ~ rejected ["signal"; "close"; "rsi"] df ->
  last_cell df "signal" = Ok (Some s) ->
  last_cell df "close" = Ok c -> last_cell df "rsi" = Ok r ->
  live_position position = false ->
  exists d,
    get_current_signal self df position = Returns d
    /\ action_price d = Some c
    /\ (Backtester.int s = 1%Z -> action d = "buy")
    /\ (Backtester.int s = (-1)%Z -> action d = "sell")
    /\ (Backtester.int s <> 1%Z -> Backtester.int s <> (-1)%Z ->
        action d = "hold").
Proof.
  intros Hacc Hs Hc Hr Hflat.
  destruct (not_rejected_accepted _ _ Hacc) as [Hempty Hmiss].
  rewrite (current_signal_usable self df position s c r Hempty Hmiss Hs Hc Hr).
  rewrite Hflat.
  destruct (Backtester.int s =? 1)%Z eqn:E1.
  - apply Z.eqb_eq in E1. eexists. split; [reflexivity|]. simpl.
    repeat split; intros; try reflexivity; try lia.
  - apply Z.eqb_neq in E1.
    destruct (Backtester.int s =? -1)%Z eqn:E2.
    + apply Z.eqb_eq in E2. eexists. split; [reflexivity|]. simpl.
      repeat split; intros; try reflexivity; try lia.
    + apply Z.eqb_neq in E2. eexists. split; [reflexivity|]. simpl.
      repeat split; intros; try reflexivity; try lia.
Qed.

(** The same bar and no position: a sell at the close of 11. *)
Lemma X19_current_signal_by_last_bar_witness :
  exists d,
    get_current_signal (mkProfile Balanced Config.default)
      (setitem tie_frame "signal" [Some (-1)]) None = Returns d
    /\ action d = "sell" /\ action_price d = Some (Some 11).
Proof.
  destruct (X19_current_signal_by_last_bar (mkProfile Balanced Config.default)
              (setitem tie_frame "signal" [Some (-1)]) None (-1)
              (Some 11) (Some 80))
    as (d & Hd & Hp & _ & Hsell & _); try reflexivity.
  - intros [H|(c & Hc & Hn)]; [discriminate H|].
    apply Hn. simpl in *. destruct Hc as [<-|[<-|[<-|[]]]]; auto 10.
  - exists d. split; [exact Hd|]. split; [apply Hsell; reflexivity|exact Hp].
Defined.


(** ** The current signal of [TradingStrategy] *)

Lemma iloc_last_position {A : Type} (l : list A) :
  l <> [] ->
  exists x, Backtester.iloc_last l = Ok x
            /\ nth_error l (List.length l - 1) = Some x.
Proof.
  intro Hne. destruct (exists_last Hne) as (l' & x & ->).
  exists x. split; [apply BacktesterFacts.iloc_last_app|].
  rewrite length_app. simpl.
  replace (List.length l' + 1 - 1)%nat with (List.length l') by lia.
  rewrite nth_error_app2 by lia. rewrite Nat.sub_diag. reflexivity.
Qed.

Lemma last_cell_of df name col :
  getitem df name = Ok col -> col <> [] ->
  exists x, last_cell df name = Ok x
            /\ nth_error col (List.length col - 1) = Some x.
Proof.
  intros Hg Hne. unfold last_cell. rewrite Hg. simpl.
  apply iloc_last_position. exact Hne.
Qed.

Lemma length_nonempty {A : Type} (l : list A) (n : nat) :
  List.length l = n -> (0 < n)%nat -> l <> [].
Proof. intros H Hn ->. simpl in H. lia. Qed.

(** X20: on a well-formed frame [TradingStrategy.get_current_signal]
    raises exactly when the frame is empty or lacks a required column, a
    ValueError; otherwise it reports the last bar: its timestamp, and
    [buy] with a stop-loss of [price * (1 - STOP_LOSS_PCT)] and a
    take-profit of [price * (1 + TAKE_PROFIT_PCT)] when its signal is 1,
    [sell] when it is -1, [hold] when it is 0, the last two without stop
    or target.  With fewer than 14 bars the report is [hold]. *)
Theorem X20_trading_current_signal (config : Config.t) (df : DataFrame) :
  well_formed df ->
  ((exists e, trading_current_signal config df = Raise e)
     <-> rejected TradingStrategy.required_columns df)
  /\ (forall e, trading_current_signal config df = Raise e ->
        exists msg, e = ValueError msg)
  /\ (~ rejected TradingStrategy.required_columns df ->
      exists info v,
        trading_current_signal config df = Ok info
        /\ reports config info v
        /\ Backtester.iloc_last (index df) = Ok (info_timestamp info)
        /\ ((List.length (index df) <= 13)%nat -> v = 0)).
Proof.
  intro Hwf.
  destruct (rejected_dec TradingStrategy.required_columns df) as [Hrej|[He Hm]].
  - assert (Hraise : exists msg,
              trading_current_signal config df = Raise (ValueError msg)).
    { unfold trading_current_signal.
      destruct (empty df) eqn:Ee; [eexists; reflexivity|].
      unfold TradingStrategy.analyze.
      destruct (trading_indicators_raise config df Hrej) as [msg Hmsg].
      rewrite Hmsg. simpl. eexists. reflexivity. }
    destruct Hraise as [msg Hmsg]. split; [|split].
    + split; [intros _; exact Hrej|intros _; eexists; exact Hmsg].
    + intros e H. rewrite Hmsg in H. injection H as <-. eauto.
    + intro Hn. contradiction.
  - destruct (trading_indicators_columns config df He Hm)
      as (c & df' & Hc & Hcalc & Hidx & Hd).
    destruct (trading_indicators_ok config df He Hm) as (df2 & Hcalc2 & Hadd).
    rewrite Hcalc in Hcalc2. injection Hcalc2 as <-.
    destruct (Hadd Hwf) as (_ & Hwf' & _).
    assert (Hlen : List.length c = List.length (index df'))
      by (rewrite Hidx; apply (getitem_length df "close" c Hwf Hc)).
    assert (Hslow : (14 <= Pos.to_nat Config.SLOW_MA_PERIOD)%nat)
      by (unfold Config.SLOW_MA_PERIOD; lia).
    destruct (warm_up_signals df' c Balanced Config.FAST_MA_PERIOD
                Config.SLOW_MA_PERIOD
                (TradingStrategy.buy_condition
                   (computed_indicators Config.RSI_PERIOD Config.FAST_MA_PERIOD
                      Config.SLOW_MA_PERIOD c))
                (TradingStrategy.sell_condition
                   (computed_indicators Config.RSI_PERIOD Config.FAST_MA_PERIOD
                      Config.SLOW_MA_PERIOD c))
                Hwf' Hlen Hd Hslow eq_refl eq_refl)
      as (df1 & sig & H1 & H2 & Hwf1 & H4 & Hclose & H5 & H6 & H7 & Hother).
    assert (Hanalyze : TradingStrategy.analyze config df = Ok df1).
    { unfold TradingStrategy.analyze. rewrite Hcalc. cbn [bind].
      unfold TradingStrategy.generate_signals.
      assert (E : indicators (setitem_scalar df' "signal" 0)
                  = Ok (computed_indicators Config.RSI_PERIOD
                          Config.FAST_MA_PERIOD Config.SLOW_MA_PERIOD c)).
      { unfold setitem_scalar. rewrite indicators_setitem_signal. exact Hd. }
      rewrite E. cbn [bind]. exact H1. }
    set (n := List.length (index df')) in *.
    assert (Hn : (0 < n)%nat).
    { unfold n. rewrite Hidx. pose proof (empty_false_index df He).
      destruct (index df); [contradiction|simpl; lia]. }
    destruct (indicators_fields df' _ Hd) as (Gr & _ & Gf & Gs & _ & _ & _).
    simpl in Gr, Gf, Gs.
    assert (Hcol : forall name col,
              String.eqb name "signal" = false ->
              getitem df' name = Ok col ->
              exists x, last_cell df1 name = Ok x).
    { intros name col Hname Hg.
      destruct (last_cell_of df1 name col) as (x & Hx & _).
      - rewrite Hother by exact Hname. exact Hg.
      - apply (length_nonempty _ n); [|exact Hn].
        apply (getitem_length df' name col Hwf' Hg).
      - exists x. exact Hx. }
    destruct (Hcol "rsi" _ eq_refl Gr) as [x_rsi Lr].
    destruct (Hcol "fast_ma" _ eq_refl Gf) as [x_fast Lf].
    destruct (Hcol "slow_ma" _ eq_refl Gs) as [x_slow Ls].
    destruct (last_cell_of df1 "close" c Hclose) as (x_close & Lc & _).
    { apply (length_nonempty _ n); [exact Hlen|exact Hn]. }
    destruct (last_cell_of df1 "signal" sig H4) as (x_sig & Lsig & Nsig).
    { apply (length_nonempty _ n); [exact H5|exact Hn]. }
    destruct (iloc_last_position (index df1)) as (ts & Lts & _).
    { apply (length_nonempty _ n); [rewrite H2; reflexivity|exact Hn]. }
    rewrite H5 in Nsig.
    destruct (H6 (n - 1)%nat) as (v & Hv & Hcases); [lia|].
    rewrite Hv in Nsig. injection Nsig as <-.
    assert (Hrun : exists info,
              trading_current_signal config df = Ok info
              /\ reports config info v
              /\ info_timestamp info = ts).
    { unfold trading_current_signal. rewrite He, Hanalyze. cbn [bind].
      rewrite Lts. cbn [bind]. rewrite Lsig. cbn [bind].
      rewrite Lc. cbn [bind]. rewrite Lr. cbn [bind].
      rewrite Lf. cbn [bind]. rewrite Ls. cbn [bind].
      unfold reports.
      destruct Hcases as [-> | [-> | ->]]; simpl;
        (eexists; split; [reflexivity|]; simpl; split; [|reflexivity];
         split; [reflexivity|]; auto 10). }
    destruct Hrun as (info & Hinfo & Hrep & Hts).
    split; [|split].
    + split; [intros [e H]; rewrite Hinfo in H; discriminate H|].
      intro Hrej. exfalso. exact (rejected_not_accepted _ _ Hrej He Hm).
    + intros e H. rewrite Hinfo in H. discriminate H.
    + intros _. exists info, v. split; [exact Hinfo|]. split; [exact Hrep|].
      split.
      * rewrite Hts, <- Hidx, <- H2. exact Lts.
      * intro Hshort. rewrite <- Hidx in Hshort. fold n in Hshort.
        assert (Hz : nth_error sig (n - 1) = Some (Some 0))
          by (apply H7; lia).
        rewrite Hv in Hz. injection Hz as ->. reflexivity.
Qed.

(** Two bars: the report is [hold] at the timestamp of the second. *)
Lemma X20_trading_current_signal_witness :
  exists info,
    trading_current_signal Config.default two_bars = Ok info
    /\ info_signal info = "hold" /\ info_timestamp info = 2%Z.
Proof.
  assert (Hwf : well_formed two_bars) by (repeat constructor).
  destruct (X20_trading_current_signal Config.default two_bars Hwf)
    as (_ & _ & Hok).
  destruct Hok as (info & v & Hinfo & (Hval & Hrep) & Hts & Hshort).
  - apply two_bars_accepted. intros c Hc. exact Hc.
  - exists info. split; [exact Hinfo|].
    assert (Hv : v = 0) by (apply Hshort; simpl; lia). subst v.
    split.
    + destruct Hrep as [(H & _)|[(H & _)|(_ & H & _)]];
        [discriminate H|discriminate H|exact H].
    + simpl in Hts. injection Hts as <-. reflexivity.
Defined.

(** ** A backtest within the warm-up *)

Lemma profile_analyze_short (self : StrategyProfile) (df : DataFrame) :
  well_formed df -> ~ rejected required_cols df ->
  (List.length (index df) <= 13)%nat ->
  exists df1 signal,
    analyze self df = Ok df1
    /\ index df1 = index df
    /\ getitem df1 "signal" = Ok signal
    /\ List.length signal = List.length (index df)
    /\ (forall i, (i < List.length (index df))%nat ->
          nth_error signal i = Some (Some 0)).
Proof.
  intros Hwf Hacc Hshort.
  destruct (not_rejected_accepted _ _ Hacc) as [He Hm].
  destruct (profile_indicators_columns self df He Hm)
    as (c & df' & Hc & Hcalc & Hidx & Hd).
  destruct (profile_indicators_ok self df He Hm) as (df2 & Hcalc2 & Hadd).
  rewrite Hcalc in Hcalc2. injection Hcalc2 as <-.
  destruct (Hadd Hwf) as (_ & Hwf' & _).
  assert (Hlen : List.length c = List.length (index df'))
    by (rewrite Hidx; apply (getitem_length df "close" c Hwf Hc)).
  assert (Hslow : (14 <= Pos.to_nat (SLOW_MA_PERIOD (profile self)))%nat)
    by (destruct (profile self); simpl; lia).
  destruct (warm_up_signals df' c (profile self) _ _ _ _ Hwf' Hlen Hd Hslow
              eq_refl eq_refl)
    as (df1 & sig & H1 & H2 & _ & H4 & _ & H5 & _ & H7 & _).
  exists df1, sig. unfold analyze. rewrite Hcalc. cbn [bind].
  unfold generate_signals.
  assert (E : indicators (setitem_scalar df' "signal" 0)
              = Ok (computed_indicators 14 (FAST_MA_PERIOD (profile self))
                      (SLOW_MA_PERIOD (profile self)) c)).
  { unfold setitem_scalar. rewrite indicators_setitem_signal. exact Hd. }
  rewrite E. cbn [bind]. rewrite <- Hidx.
  split; [exact H1|]. split; [exact H2|]. split; [exact H4|].
  split; [exact H5|].
  intros i Hi. apply H7; [exact Hi|rewrite Hidx in Hi; lia].
Qed.

Lemma zero_signals_no_buy (rows : list Backtester.Row) :
  (forall i, (i < List.length rows)%nat ->
     nth_error (map (fun r => Some (inject_Z (Backtester.signal r))) rows) i
     = Some (Some 0)) ->
  Forall (fun r => Backtester.signal r <> 1%Z) rows.
Proof.
  intro H. apply Forall_forall. intros r Hin.
  destruct (In_nth_error _ _ Hin) as [i Hi].
  assert (Hlt : (i < List.length rows)%nat)
    by (apply nth_error_Some; rewrite Hi; discriminate).
  specialize (H i Hlt). rewrite nth_error_map, Hi in H. simpl in H.
  injection H as Hz. intro H1. rewrite H1 in Hz. discriminate Hz.
Qed.

(** X21: lines 61-68 of [run_backtest] on fewer than 14 bars.  On a
    well-formed frame that is accepted, [analyze] returns a frame, and
    whatever rows that frame yields to the simulator, the backtest
    records no trade and returns the neutral metrics with an equity
    curve that stays at the initial capital on every bar of the input. *)
Theorem X21_short_backtest_neutral (self : StrategyProfile)
        (cfg : Config.t) (init : Q) (df : DataFrame) :
  well_formed df ->
  ~ rejected required_cols df ->
  (List.length (index df) <= 13)%nat ->
  exists df1,
    analyze self df = Ok df1
    /\ forall rows,
         yields_rows df1 rows ->
         Backtester.simulate_and_measure cfg init rows
         = Ok (BacktesterSpec.neutral_metrics init
                 (map (fun t => (t, init)) (index df))).
Proof.
  intros Hwf Hacc Hshort.
  destruct (profile_analyze_short self df Hwf Hacc Hshort)
    as (df1 & sig & Ha & Hidx & Hsig & Hlen & Hzero).
  exists df1. split; [exact Ha|].
  intros rows (Yi & _ & Ys).
  rewrite Hsig in Ys. injection Ys as ->.
  assert (Hrows : List.length rows = List.length (index df)).
  { rewrite <- Hidx, Yi. rewrite length_map. reflexivity. }
  assert (Hno : Forall (fun r => Backtester.signal r <> 1%Z) rows).
  { apply zero_signals_no_buy. intros i Hi. apply Hzero. lia. }
  unfold Backtester.simulate_and_measure, Backtester._simulate_trades,
    Backtester.simulate.
  rewrite (LedgerFacts.replay_without_buy cfg rows Hno
             (Backtester.initial_state init) eq_refl).
  simpl.
  assert (Hcurve : combine (map Backtester.idx rows)
                     (repeat init (List.length rows))
                   = map (fun t => (t, init)) (index df)).
  { rewrite <- Hidx, Yi. clear.
    induction rows as [|r rows IH]; [reflexivity|]. simpl. rewrite IH.
    reflexivity. }
  rewrite Hcurve. reflexivity.
Qed.

(** Two bars: the analysed frame yields two rows with the signal 0 and
    the backtest of 10000 returns the neutral metrics. *)
Lemma X21_short_backtest_neutral_witness :
  exists df1,
    analyze (mkProfile Balanced Config.default) two_bars = Ok df1
    /\ Backtester.simulate_and_measure Config.default 10000
         [Backtester.mkRow 1 10 0; Backtester.mkRow 2 11 0]
       = Ok (BacktesterSpec.neutral_metrics 10000
               [(1%Z, 10000); (2%Z, 10000)]).
Proof.
  assert (Hwf : well_formed two_bars) by (repeat constructor).
  assert (Hacc : ~ rejected required_cols two_bars).
  { apply two_bars_accepted. simpl. intros c [<-|[<-|[<-|[]]]]; auto 6. }
  assert (Hshort : (List.length (index two_bars) <= 13)%nat)
    by (simpl; lia).
  destruct (X21_short_backtest_neutral (mkProfile Balanced Config.default)
              Config.default 10000 two_bars Hwf Hacc Hshort)
    as (df1 & Ha & Hrun).
  exists df1. split; [exact Ha|].
  apply Hrun.
  assert (E : analyze (mkProfile Balanced Config.default) two_bars
              = Ok df1) by exact Ha.
  vm_compute in E. injection E as <-.
  repeat split.
Defined.

End SignalFacts.
